(** * TGBed storage core: request signing, storage adapters, guest quota
      and chunked-upload initialisation

    A shallow embedding of

    - [functions/utils/s3client.js]   (AWS Signature V4 signer, S3 client),
    - the Discord storage module      (webhook / bot upload, delete),
    - the HuggingFace storage module  (dataset commits, delete),
    - [functions/utils/guest.js]      (guest admission control),
    - [functions/api/chunked-upload/init.js] (session init and status),

    followed by the properties proved about them.

    Conventions.  JavaScript strings are [string]s (read as UTF-8 text),
    JavaScript numbers are restricted to their integer values and live in
    [Z], with NaN represented by [None] where a builtin can produce it.
    [async] functions are computations in the monad [M]: they read and
    update a [World] (clock, key-value namespace, network, entropy, and the
    heap of header objects) and end in [Return v] or [Throw e].  A header
    object is passed by reference ([Ref]): the signer assigns into the
    object it is given and returns that same reference.  Builtins of the runtime that the sources
    only call (Web Crypto, the URL parser, string collation, JSON text) are
    the fields of the class [Platform]; everything the sources spell out is
    defined here. *)

From Stdlib Require Import ZArith Lia Ascii Permutation Sorted.
From stdpp Require Import base strings list gmap pretty.

Set Warnings "-register-all".
Open Scope Z_scope.

(** ** JavaScript values, errors and string helpers *)

Module Js.

(** Values that cross the JSON boundary. *)
Inductive jsval : Type :=
| VUndefined
| VNull
| VBool (b : bool)
| VNum (n : Z)
| VStr (s : string)
| VArr (l : list jsval)
| VObj (fields : list (string * jsval)).

(** Errors raised by the runtime itself; their [message] text is chosen by
    the engine. *)
Inductive Fault : Type :=
| InvalidURL (url : string)          (* new URL(url) *)
| JSONSyntax                         (* JSON.parse, response.json() *)
| NullDeref (prop : string).         (* property read on null/undefined *)

Inductive Exn : Type :=
| Error (message : string)           (* new Error(message) *)
| Native (f : Fault)
| External (message : string).       (* raised by a collaborator: network, store *)

Inductive Outcome (A : Type) : Type :=
| Return (a : A)
| Throw (e : Exn).
Arguments Return {A} a.
Arguments Throw {A} e.

(** [!v]: the falsy values are undefined, null, false, 0 (and NaN) and
    the empty string. *)
Definition falsy (v : jsval) : bool :=
  match v with
  | VUndefined | VNull => true
  | VBool b => negb b
  | VNum n => n =? 0
  | VStr s => bool_decide (s = "")
  | VArr _ | VObj _ => false
  end.

Definition truthy (v : jsval) : bool := negb (falsy v).

(** Truthiness of an optional string such as an environment variable. *)
Definition truthy_str (o : option string) : bool :=
  match o with
  | Some s => negb (bool_decide (s = ""))
  | None => false
  end.

(** [a || b] on optional strings. *)
Definition or_str (a : option string) (b : option string) : option string :=
  if truthy_str a then a else b.

(** *** Strings *)

(** The line feed, written ['\n'] in the sources. *)
Definition LF : string := String "010"%char "".

Fixpoint join (sep : string) (l : list string) : string :=
  match l with
  | [] => ""
  | [x] => x
  | x :: rest => x +:+ sep +:+ join sep rest
  end.

(** [s.replace(/c/g, r)] for a single literal character [c]. *)
Fixpoint replace_char_g (c : ascii) (r : string) (s : string) : string :=
  match s with
  | "" => ""
  | String a rest =>
      if decide (a = c) then r +:+ replace_char_g c r rest
      else String a (replace_char_g c r rest)
  end.

(** [s.replace(/%2F/g, '/')]. *)
Fixpoint replace_pct2F_g (s : string) : string :=
  match s with
  | "" => ""
  | String a rest =>
      match rest with
      | String b (String c rest') =>
          if bool_decide (a = "%"%char ∧ b = "2"%char ∧ c = "F"%char)
          then String "/"%char (replace_pct2F_g rest')
          else String a (replace_pct2F_g rest)
      | _ => String a (replace_pct2F_g rest)
      end
  end.

(** [s.replace(/[cs]/g, '')] for a character class [cs]. *)
Fixpoint remove_chars_g (cs : list ascii) (s : string) : string :=
  match s with
  | "" => ""
  | String a rest =>
      if decide (a ∈ cs) then remove_chars_g cs rest
      else String a (remove_chars_g cs rest)
  end.

(** [s.substring(a, b)]: indices are clamped to the length and swapped when
    [a > b]. *)
Definition substring (a b : nat) (s : string) : string :=
  let lo := Nat.min a b in
  let hi := Nat.max a b in
  String.substring lo (hi - lo) s.

(** [s.split(c)[0]]: the text before the first [c]. *)
Fixpoint split_first (c : ascii) (s : string) : string :=
  match s with
  | "" => ""
  | String a rest => if decide (a = c) then "" else String a (split_first c rest)
  end.

(** [s.padStart(n, c)] for a one-character pad. *)
Definition padStart (n : nat) (c : ascii) (s : string) : string :=
  String.string_of_list_ascii (replicate (n - String.length s) c) +:+ s.

Definition hex_digit (d : N) : ascii :=
  match d with
  | 0 => "0" | 1 => "1" | 2 => "2" | 3 => "3" | 4 => "4" | 5 => "5"
  | 6 => "6" | 7 => "7" | 8 => "8" | 9 => "9" | 10 => "a" | 11 => "b"
  | 12 => "c" | 13 => "d" | 14 => "e" | _ => "f"
  end%N%char.

Fixpoint toString16_go (fuel : nat) (n : N) (acc : string) : string :=
  match fuel with
  | O => acc
  | S fuel' =>
      let acc' := String (hex_digit (n mod 16)) acc in
      if (n / 16 =? 0)%N then acc' else toString16_go fuel' (n / 16)%N acc'
  end.

(** [n.toString(16)] for a non-negative integer. *)
Definition toString16 (n : N) : string :=
  toString16_go (S (N.to_nat (N.log2 n))) n "".

(** [String(n)] and [`${n}`] for an integer. *)
Definition Number_toString (n : Z) : string := pretty n.

(** *** Objects with string values (header maps)

    Own properties are kept in insertion order; assignment to an existing
    key keeps its position. *)
Abbreviation JsObject := (list (string * string)).

Fixpoint obj_set (k v : string) (o : JsObject) : JsObject :=
  match o with
  | [] => [(k, v)]
  | (k', v') :: rest =>
      if decide (k' = k) then (k, v) :: rest else (k', v') :: obj_set k v rest
  end.

Fixpoint obj_get (k : string) (o : JsObject) : option string :=
  match o with
  | [] => None
  | (k', v') :: rest => if decide (k' = k) then Some v' else obj_get k rest
  end.

Definition is_digit (a : ascii) : bool :=
  let n := Ascii.N_of_ascii a in (48 <=? n)%N && (n <=? 57)%N.

Fixpoint digits_value (s : string) (acc : N) : option N :=
  match s with
  | "" => Some acc
  | String a rest =>
      if is_digit a
      then digits_value rest (acc * 10 + (Ascii.N_of_ascii a - 48))%N
      else None
  end.

Fixpoint all_digits (s : string) : bool :=
  match s with
  | "" => true
  | String a rest => is_digit a && all_digits rest
  end.

(** A property key is an array index when it is the canonical decimal text
    of an integer below 2^32 - 1. *)
Definition array_index (k : string) : option N :=
  match k with
  | "" => None
  | String a rest =>
      if bool_decide (a = "0"%char) && negb (bool_decide (rest = ""))
      then None
      else match digits_value k 0 with
           | Some n => if (n <? 4294967295)%N then Some n else None
           | None => None
           end
  end.

(** [array.sort(cmp)]: a stable sort; [cmp a b <= 0] keeps [a] before [b].
    For a consistent comparator every stable sort returns this list. *)
Fixpoint sort_insert {A : Type} (cmp : A → A → Z) (x : A) (l : list A) : list A :=
  match l with
  | [] => [x]
  | y :: rest => if cmp x y <=? 0 then x :: y :: rest else y :: sort_insert cmp x rest
  end.

Fixpoint sort {A : Type} (cmp : A → A → Z) (l : list A) : list A :=
  match l with
  | [] => []
  | x :: rest => sort_insert cmp x (sort cmp rest)
  end.

Definition index_entries (o : JsObject) : list (N * (string * string)) :=
  omap (λ kv, match array_index kv.1 with Some i => Some (i, kv) | None => None end) o.

(** [Object.entries(o)]: array-index keys in ascending numeric order, then
    the other keys in insertion order. *)
Definition Object_entries (o : JsObject) : list (string * string) :=
  (snd <$> sort (λ a b, Z.of_N a.1 - Z.of_N b.1) (index_entries o))
  ++ filter (λ kv, array_index kv.1 = None) o.

Fixpoint fields_get {V : Type} (k : string) (fields : list (string * V)) : option V :=
  match fields with
  | [] => None
  | (k', v) :: rest => if decide (k' = k) then Some v else fields_get k rest
  end.

(** [v.k] and destructuring: reading a property of null or undefined
    throws; a missing property reads as undefined. *)
Definition get_prop (k : string) (v : jsval) : Outcome jsval :=
  match v with
  | VUndefined | VNull => Throw (Native (NullDeref k))
  | VObj fields =>
      Return (default VUndefined (fields_get k fields))
  | VArr l =>
      Return (match array_index k with
              | Some i => default VUndefined (l !! N.to_nat i)
              | None =>
                  if bool_decide (k = "length") then VNum (Z.of_nat (length l))
                  else VUndefined
              end)
  | VStr s =>
      Return (match array_index k with
              | Some i =>
                  match String.get (N.to_nat i) s with
                  | Some c => VStr (String c "")
                  | None => VUndefined
                  end
              | None =>
                  if bool_decide (k = "length") then VNum (Z.of_nat (String.length s))
                  else VUndefined
              end)
  | VBool _ | VNum _ => Return VUndefined
  end.

(** [v?.[0]]: undefined when [v] is null or undefined. *)
Definition opt_index0 (v : jsval) : jsval :=
  match v with
  | VUndefined | VNull => VUndefined
  | _ => match get_prop "0" v with Return x => x | Throw _ => VUndefined end
  end.

(** *** parseInt

    Leading blanks, an optional sign, an optional [0x] prefix, then the
    longest run of digits; NaN ([None]) when there is no digit.  Only the
    ASCII blanks are recognised. *)
Definition digit_of (radix : Z) (a : ascii) : option Z :=
  let n := Z.of_N (Ascii.N_of_ascii a) in
  let d := if (48 <=? n) && (n <=? 57) then n - 48
           else if (97 <=? n) && (n <=? 102) then n - 87
           else if (65 <=? n) && (n <=? 70) then n - 55
           else 16 in
  if d <? radix then Some d else None.

Fixpoint digit_prefix (radix : Z) (s : string) (acc : option Z) : option Z :=
  match s with
  | "" => acc
  | String a rest =>
      match digit_of radix a with
      | Some d => digit_prefix radix rest (Some (default 0 acc * radix + d))
      | None => acc
      end
  end.

Fixpoint skip_blanks (s : string) : string :=
  match s with
  | String a rest => if Ascii.is_space a then skip_blanks rest else s
  | "" => ""
  end.

Definition parse_unsigned (s : string) : option Z :=
  match s with
  | String a (String b rest) =>
      if bool_decide (a = "0"%char)
         && (bool_decide (b = "x"%char) || bool_decide (b = "X"%char))
      then digit_prefix 16 rest None
      else digit_prefix 10 s None
  | _ => digit_prefix 10 s None
  end.

Definition parseInt (arg : option string) : option Z :=
  match arg with
  | None => None                      (* parseInt(null), parseInt(undefined) *)
  | Some s =>
      match skip_blanks s with
      | String a rest =>
          if bool_decide (a = "-"%char) then Z.opp <$> parse_unsigned rest
          else if bool_decide (a = "+"%char) then parse_unsigned rest
          else parse_unsigned (String a rest)
      | "" => None
      end
  end.

(** [parseInt(x) || d]: NaN and 0 both select the default. *)
Definition parseInt_or (arg : option string) (d : Z) : Z :=
  match parseInt arg with
  | Some n => if n =? 0 then d else n
  | None => d
  end.

(** *** Requests, responses and the runtime *)

Inductive FormPart : Type :=
| FormFile (name : string) (content : list Byte.byte) (type : string) (filename : string)
| FormField (name : string) (value : string).

Inductive Body : Type :=
| BodyNone                               (* null / undefined *)
| BodyText (s : string)
| BodyArrayBuffer (b : list Byte.byte)
| BodyUint8Array (b : list Byte.byte)
| BodyForm (parts : list FormPart).

(** An outgoing [fetch] call. *)
Record Request : Type := {
  rq_url : string;
  rq_method : string;
  rq_headers : JsObject;
  rq_body : Body
}.

(** What a [fetch] resolves to: the status line and what the methods
    [text()], [json()] and [headers.get(name)] yield. *)
Record Response : Type := {
  status : Z;
  resp_text : string;
  resp_json : option jsval;              (* None: the body is not JSON *)
  resp_header : string → option string
}.

Definition ok (r : Response) : bool := (200 <=? status r) && (status r <=? 299).

Inductive FetchResult : Type :=
| NetFail (e : Exn)
| NetOk (r : Response).

(** The result of [new URL(url)], as far as the sources read it. *)
Record URL : Type := {
  host : string;
  pathname : string;
  searchParams : list (string * string)
}.

(** Builtins of the runtime that the sources call and do not define. *)
Class Platform : Type := {
  TextEncoder_encode : string → list Byte.byte;
  SHA256 : list Byte.byte → list Byte.byte;
  HMAC_SHA256 : list Byte.byte → list Byte.byte → list Byte.byte;
  URL_parse : string → option URL;
  encodeURIComponent : string → string;
  localeCompare : string → string → Z;
  toLowerCase : string → string;
  trim : string → string;
  StringToNumber : string → option Z;
  ObjectToNumber : jsval → option Z;
  JSON_stringify : jsval → string;
  JSON_parse : string → option jsval;
  fault_message : Fault → string
}.

(** One entry of the key-value namespace. *)
Record KVEntry : Type := {
  kv_value : string;
  kv_ttl : option Z;                     (* expirationTtl, seconds *)
  kv_written : Z                         (* Date.now() at the put *)
}.

(** Header objects live in a heap and are passed by reference: a callee
    that assigns into the object it is given changes the caller's object. *)
Abbreviation Ref := nat.

Record World : Type := {
  clock_iso : string;                    (* new Date().toISOString() *)
  clock_ms : Z;                          (* Date.now() *)
  kv_data : gmap string KVEntry;
  kv_fault : option Exn;                 (* Some e: every store call rejects with e *)
  net : Request → FetchResult;
  sent : list Request;                   (* requests issued so far, oldest first *)
  entropy : nat → Byte.byte;
  entropy_pos : nat;
  heap : list (list (string * string))   (* the header objects, by reference *)
}.

Definition M (A : Type) : Type := World → Outcome A * World.

#[export] Instance M_ret : MRet M := λ A a w, (Return a, w).
#[export] Instance M_bind : MBind M := λ A B f m w,
  match m w with
  | (Return a, w') => f a w'
  | (Throw e, w') => (Throw e, w')
  end.

Definition throw {A : Type} (e : Exn) : M A := λ w, (Throw e, w).

Definition lift {A : Type} (o : Outcome A) : M A := λ w, (o, w).

(** [try { m } catch (e) { h e }]. *)
Definition try_catch {A : Type} (m : M A) (h : Exn → M A) : M A := λ w,
  match m w with
  | (Return a, w') => (Return a, w')
  | (Throw e, w') => h e w'
  end.

(** [p.catch(() => d)]. *)
Definition catch_default {A : Type} (m : M A) (d : A) : M A :=
  try_catch m (λ _, mret d).

Definition Date_toISOString : M string := λ w, (Return (clock_iso w), w).
Definition Date_now : M Z := λ w, (Return (clock_ms w), w).

Definition with_sent (w : World) (l : list Request) : World :=
  {| clock_iso := clock_iso w; clock_ms := clock_ms w; kv_data := kv_data w;
     kv_fault := kv_fault w; net := net w; sent := l;
     entropy := entropy w; entropy_pos := entropy_pos w; heap := heap w |}.

Definition with_kv (w : World) (d : gmap string KVEntry) : World :=
  {| clock_iso := clock_iso w; clock_ms := clock_ms w; kv_data := d;
     kv_fault := kv_fault w; net := net w; sent := sent w;
     entropy := entropy w; entropy_pos := entropy_pos w; heap := heap w |}.

Definition with_entropy_pos (w : World) (n : nat) : World :=
  {| clock_iso := clock_iso w; clock_ms := clock_ms w; kv_data := kv_data w;
     kv_fault := kv_fault w; net := net w; sent := sent w;
     entropy := entropy w; entropy_pos := n; heap := heap w |}.

Definition with_clock (w : World) (iso : string) (ms : Z) : World :=
  {| clock_iso := iso; clock_ms := ms; kv_data := kv_data w;
     kv_fault := kv_fault w; net := net w; sent := sent w;
     entropy := entropy w; entropy_pos := entropy_pos w; heap := heap w |}.

Definition with_heap (w : World) (h : list (list (string * string))) : World :=
  {| clock_iso := clock_iso w; clock_ms := clock_ms w; kv_data := kv_data w;
     kv_fault := kv_fault w; net := net w; sent := sent w;
     entropy := entropy w; entropy_pos := entropy_pos w; heap := h |}.

(** The contents of the object behind a reference. *)
Definition contents (w : World) (r : Ref) : JsObject := default [] (heap w !! r).

(** [{}], [{ k: v, ... }] and the copy [{ ...o }]: a new object. *)
Definition new_object (o : JsObject) : M Ref := λ w,
  (Return (length (heap w)), with_heap w (heap w ++ [o])).

(** Reading the object behind [r], as [{ ...r }] and [Object.entries(r)]
    do. *)
Definition deref (r : Ref) : M JsObject := λ w, (Return (contents w r), w).

(** [r[k] = v]. *)
Definition obj_assign (r : Ref) (k v : string) : M unit := λ w,
  (Return tt, with_heap w (alter (obj_set k v) r (heap w))).

Definition fetch (rq : Request) : M Response := λ w,
  let w' := with_sent w (sent w ++ [rq]) in
  match net w rq with
  | NetFail e => (Throw e, w')
  | NetOk r => (Return r, w')
  end.

(** [response.json()]. *)
Definition json (r : Response) : M jsval :=
  match resp_json r with
  | Some v => mret v
  | None => throw (Native JSONSyntax)
  end.

(** [crypto.getRandomValues(new Uint8Array(n))]. *)
Definition getRandomValues (n : nat) : M (list Byte.byte) := λ w,
  (Return (entropy w <$> seq (entropy_pos w) n),
   with_entropy_pos w (entropy_pos w + n)%nat).

(** The live value under a key: an entry whose time-to-live has lapsed
    reads as absent. *)
Definition kv_live (w : World) (e : KVEntry) : bool :=
  match kv_ttl e with
  | Some ttl => clock_ms w <? kv_written e + ttl * 1000
  | None => true
  end.

Definition kv_lookup (w : World) (k : string) : option string :=
  match kv_data w !! k with
  | Some e => if kv_live w e then Some (kv_value e) else None
  | None => None
  end.

(** [await kv.get(key)]. *)
Definition kv_get (k : string) : M (option string) := λ w,
  match kv_fault w with
  | Some e => (Throw e, w)
  | None => (Return (kv_lookup w k), w)
  end.

(** [await kv.put(key, value, { expirationTtl })]. *)
Definition kv_put (k v : string) (ttl : option Z) : M unit := λ w,
  match kv_fault w with
  | Some e => (Throw e, w)
  | None =>
      (Return tt,
       with_kv w (<[k := {| kv_value := v; kv_ttl := ttl; kv_written := clock_ms w |}]>
                    (kv_data w)))
  end.

(** The bindings of the deployment: variables are strings or absent;
    [img_url] tells whether the key-value namespace is bound. *)
Record Env : Type := {
  S3_ENDPOINT : option string;
  S3_REGION : option string;
  S3_BUCKET : option string;
  S3_ACCESS_KEY_ID : option string;
  S3_SECRET_ACCESS_KEY : option string;
  DISCORD_WEBHOOK_URL : option string;
  DISCORD_BOT_TOKEN : option string;
  DISCORD_CHANNEL_ID : option string;
  HF_TOKEN : option string;
  HF_REPO : option string;
  GUEST_UPLOAD : option string;
  GUEST_MAX_FILE_SIZE : option string;
  GUEST_DAILY_LIMIT : option string;
  img_url : bool
}.

(** An incoming request: its URL and what [headers.get(name)] and [json()]
    yield. *)
Record HttpRequest : Type := {
  url : string;
  headers_get : string → option string;
  body_json : Outcome jsval
}.

(** [new Response(body, { status, headers })]. *)
Record HttpResponse : Type := {
  res_status : Z;
  res_body : string;
  res_headers : JsObject
}.

(** [x.toFixed(0)] for the exact quotient [num / den], [den > 0]: the
    nearest integer, the larger one on a tie, the sign kept in front. *)
Definition toFixed0 (num den : Z) : string :=
  let n := (2 * Z.abs num + den) / (2 * den) in
  (if num <? 0 then "-" else "") +:+ Number_toString n.

Section WithPlatform.
Context `{Platform}.

(** [error.message]. *)
Definition message (e : Exn) : string :=
  match e with
  | Error m => m
  | Native f => fault_message f
  | External m => m
  end.

(** [await kv.get(key, { type: 'json' })]: null when absent. *)
Definition kv_get_json (k : string) : M jsval :=
  o ← kv_get k;
  match o with
  | None => mret VNull
  | Some text =>
      match JSON_parse text with
      | Some v => mret v
      | None => throw (Native JSONSyntax)
      end
  end.

(** [new URL(url)]. *)
Definition new_URL (url : string) : M URL :=
  match URL_parse url with
  | Some u => mret u
  | None => throw (Native (InvalidURL url))
  end.

(** ToNumber, as the relational operators apply it. *)
Definition ToNumber (v : jsval) : option Z :=
  match v with
  | VUndefined => None
  | VNull => Some 0
  | VBool b => Some (if b then 1 else 0)
  | VNum n => Some n
  | VStr s => StringToNumber s
  | VArr _ | VObj _ => ObjectToNumber v
  end.

(** [v > c] for a numeric constant [c]; false when [v] converts to NaN. *)
Definition gt_num (v : jsval) (c : Z) : bool :=
  match ToNumber v with
  | Some n => c <? n
  | None => false
  end.

End WithPlatform.

End Js.

(** ** functions/utils/s3client.js *)

Module S3.
Import Js.

(** What [sha256Hex] and [hmacSha256] accept: a string or a byte buffer. *)
Inductive BufferSource : Type :=
| Str (s : string)
| Buf (b : list Byte.byte).

(** A request body as [signRequest] and [fetch] receive it from the
    client. *)
Inductive Payload : Type :=
| PNull
| PString (s : string)
| PArrayBuffer (b : list Byte.byte)
| PUint8Array (b : list Byte.byte).

Definition payload_truthy (body : Payload) : bool :=
  match body with
  | PNull => false
  | PString s => negb (bool_decide (s = ""))
  | PArrayBuffer _ | PUint8Array _ => true
  end.

Definition payload_body (body : Payload) : Body :=
  match body with
  | PNull => BodyNone
  | PString s => BodyText s
  | PArrayBuffer b => BodyArrayBuffer b
  | PUint8Array b => BodyUint8Array b
  end.

Record Credentials : Type := {
  accessKeyId : string;
  secretAccessKey : string;
  region : string;
  service : string
}.

Definition arrayBufferToHex (buffer : list Byte.byte) : string :=
  join "" ((λ b, padStart 2 "0" (toString16 (Byte.to_N b))) <$> buffer).

Section WithPlatform.
Context `{Platform}.

Definition to_buffer (data : BufferSource) : list Byte.byte :=
  match data with
  | Str s => TextEncoder_encode s
  | Buf b => b
  end.

Definition sha256Hex (data : BufferSource) : string :=
  let buffer := to_buffer data in
  let hash := SHA256 buffer in
  arrayBufferToHex hash.

Definition hmacSha256 (key data : BufferSource) : list Byte.byte :=
  let keyBuffer := to_buffer key in
  let dataBuffer := to_buffer data in
  HMAC_SHA256 keyBuffer dataBuffer.

Definition uriEncode (str : string) (encodeSlash : bool) : string :=
  let encoded := encodeURIComponent str in
  let encoded :=
    replace_char_g "*" "%2A"
      (replace_char_g ")" "%29"
         (replace_char_g "(" "%28"
            (replace_char_g "'" "%27"
               (replace_char_g "!" "%21" encoded)))) in
  if negb encodeSlash then replace_pct2F_g encoded else encoded.

(** The comparator of the query-pair sort:
    [a[0].localeCompare(b[0]) || a[1].localeCompare(b[1])]. *)
Definition compare_pairs (a b : string * string) : Z :=
  let c := localeCompare a.1 b.1 in
  if c =? 0 then localeCompare a.2 b.2 else c.

(** The comparator of the header sort: [a[0].localeCompare(b[0])]. *)
Definition compare_names (a b : string * string) : Z :=
  localeCompare a.1 b.1.

(** [signRequest] assigns into the [headers] object it is given and returns
    that same object. *)
Definition signRequest (method url : string) (headers : Ref) (body : Payload)
    (credentials : Credentials) : M Ref :=
  parsedUrl ← new_URL url;
  (* timestamp *)
  now ← Date_toISOString;
  let dateStamp := substring 0 8 (remove_chars_g ["-"; ":"; "."; "T"; "Z"]%char now) in
  let amzDate :=
    dateStamp +:+ "T"
    +:+ substring 9 15 (remove_chars_g ["-"; ":"; "."; "Z"]%char now) +:+ "Z" in
  (* payload hash *)
  let payloadHash :=
    if payload_truthy body
    then sha256Hex (match body with
                    | PArrayBuffer b => Buf b
                    | PUint8Array b => Buf b
                    | PString s => Str s
                    | PNull => Str ""
                    end)
    else sha256Hex (Str "") in
  (* the required headers *)
  _ ← obj_assign headers "x-amz-date" amzDate;
  _ ← obj_assign headers "x-amz-content-sha256" payloadHash;
  _ ← obj_assign headers "host" (host parsedUrl);
  (* 1. Canonical Request *)
  let canonicalUri := uriEncode (pathname parsedUrl) false in
  let canonicalQueryString :=
    join "&" ((λ kv, uriEncode kv.1 true +:+ "=" +:+ uriEncode kv.2 true)
                <$> sort compare_pairs (searchParams parsedUrl)) in
  entries ← deref headers;
  let sortedHeaders :=
    sort compare_names
      ((λ kv, (trim (toLowerCase kv.1), trim kv.2)) <$> Object_entries entries) in
  let canonicalHeaders :=
    join "" ((λ kv, kv.1 +:+ ":" +:+ kv.2 +:+ LF) <$> sortedHeaders) in
  let signedHeaders := join ";" (fst <$> sortedHeaders) in
  let canonicalRequest :=
    join LF [method; canonicalUri; canonicalQueryString;
             canonicalHeaders; signedHeaders; payloadHash] in
  (* 2. String to Sign *)
  let credentialScope :=
    dateStamp +:+ "/" +:+ region credentials +:+ "/" +:+ service credentials
    +:+ "/aws4_request" in
  let stringToSign :=
    join LF ["AWS4-HMAC-SHA256"; amzDate; credentialScope;
             sha256Hex (Str canonicalRequest)] in
  (* 3. Signing Key *)
  let kDate := hmacSha256 (Str ("AWS4" +:+ secretAccessKey credentials)) (Str dateStamp) in
  let kRegion := hmacSha256 (Buf kDate) (Str (region credentials)) in
  let kService := hmacSha256 (Buf kRegion) (Str (service credentials)) in
  let kSigning := hmacSha256 (Buf kService) (Str "aws4_request") in
  (* 4. Signature *)
  let signature := arrayBufferToHex (hmacSha256 (Buf kSigning) (Str stringToSign)) in
  (* 5. Authorization Header *)
  _ ← obj_assign headers "Authorization"
        ("AWS4-HMAC-SHA256 Credential=" +:+ accessKeyId credentials +:+ "/"
         +:+ credentialScope +:+ ", SignedHeaders=" +:+ signedHeaders
         +:+ ", Signature=" +:+ signature);
  mret headers.

(** *** class S3Client *)

Record S3Config : Type := {
  cfg_endpoint : string;
  cfg_region : option string;
  cfg_bucket : string;
  cfg_accessKeyId : string;
  cfg_secretAccessKey : string
}.

Record S3Client : Type := {
  this_endpoint : string;
  this_region : string;
  this_bucket : string;
  this_accessKeyId : string;
  this_secretAccessKey : string
}.

(** [s.replace(/\/$/, '')]: drop one trailing slash. *)
Fixpoint strip_trailing_slash (s : string) : string :=
  match s with
  | "" => ""
  | String a rest =>
      if bool_decide (a = "/"%char) && bool_decide (rest = "") then ""
      else String a (strip_trailing_slash rest)
  end.

Definition constructor (config : S3Config) : S3Client :=
  {| this_endpoint := strip_trailing_slash (cfg_endpoint config);
     this_region := default "us-east-1" (or_str (cfg_region config) (Some "us-east-1"));
     this_bucket := cfg_bucket config;
     this_accessKeyId := cfg_accessKeyId config;
     this_secretAccessKey := cfg_secretAccessKey config |}.

Definition _getUrl (this : S3Client) (key : string) : string :=
  this_endpoint this +:+ "/" +:+ this_bucket this +:+ "/" +:+ key.

Definition _getCredentials (this : S3Client) : Credentials :=
  {| accessKeyId := this_accessKeyId this;
     secretAccessKey := this_secretAccessKey this;
     region := this_region this;
     service := "s3" |}.

Record PutOptions : Type := {
  contentType : option string;
  metadata : option JsObject
}.

Definition payload_length (body : Payload) : option nat :=
  match body with
  | PArrayBuffer b | PUint8Array b => Some (length b)
  | PNull | PString _ => None
  end.

Definition putObject (this : S3Client) (key : string) (body : Payload)
    (options : PutOptions) : M (option string) :=
  let url := _getUrl this key in
  headers ← new_object [];
  _ ← (if truthy_str (contentType options)
       then obj_assign headers "content-type" (default "" (contentType options))
       else mret tt);
  _ ← match payload_length body with
      | Some n => obj_assign headers "content-length" (Number_toString (Z.of_nat n))
      | None => mret tt
      end;
  (* custom metadata *)
  _ ← match metadata options with
      | Some meta =>
          foldr (λ kv (rest : M unit),
                   let hKey := if String.prefix "x-amz-meta-" kv.1 then kv.1
                               else "x-amz-meta-" +:+ kv.1 in
                   _ ← obj_assign headers hKey kv.2; rest)
                (mret tt) (Object_entries meta)
      | None => mret tt
      end;
  copy ← (o ← deref headers; new_object o);
  signedHeaders ← signRequest "PUT" url copy body (_getCredentials this);
  sent_headers ← deref signedHeaders;
  response ← fetch {| rq_url := url; rq_method := "PUT";
                      rq_headers := sent_headers; rq_body := payload_body body |};
  if negb (ok response)
  then throw (Error ("S3 PutObject failed (" +:+ Number_toString (status response)
                     +:+ "): " +:+ resp_text response))
  else mret (resp_header response "etag").

Definition getObject (this : S3Client) (key : string) (range : option string)
    : M (option Response) :=
  let url := _getUrl this key in
  headers ← new_object [];
  _ ← (if truthy_str range then obj_assign headers "range" (default "" range)
       else mret tt);
  copy ← (o ← deref headers; new_object o);
  signedHeaders ← signRequest "GET" url copy PNull (_getCredentials this);
  sent_headers ← deref signedHeaders;
  response ← fetch {| rq_url := url; rq_method := "GET";
                      rq_headers := sent_headers; rq_body := BodyNone |};
  if negb (ok response) && negb (status response =? 206)
  then
    if status response =? 404 then mret None
    else throw (Error ("S3 GetObject failed (" +:+ Number_toString (status response)
                       +:+ "): " +:+ resp_text response))
  else mret (Some response).

Definition deleteObject (this : S3Client) (key : string) : M bool :=
  let url := _getUrl this key in
  fresh ← new_object [];
  signedHeaders ← signRequest "DELETE" url fresh PNull (_getCredentials this);
  sent_headers ← deref signedHeaders;
  response ← fetch {| rq_url := url; rq_method := "DELETE";
                      rq_headers := sent_headers; rq_body := BodyNone |};
  if negb (ok response) && negb (status response =? 204)
  then throw (Error ("S3 DeleteObject failed (" +:+ Number_toString (status response)
                     +:+ "): " +:+ resp_text response))
  else mret true.

Record HeadInfo : Type := {
  contentLength : option Z;              (* None: NaN *)
  head_contentType : option string;
  etag : option string;
  lastModified : option string
}.

Definition headObject (this : S3Client) (key : string) : M (option HeadInfo) :=
  let url := _getUrl this key in
  fresh ← new_object [];
  signedHeaders ← signRequest "HEAD" url fresh PNull (_getCredentials this);
  sent_headers ← deref signedHeaders;
  response ← fetch {| rq_url := url; rq_method := "HEAD";
                      rq_headers := sent_headers; rq_body := BodyNone |};
  if negb (ok response)
  then
    if status response =? 404 then mret None
    else throw (Error ("S3 HeadObject failed (" +:+ Number_toString (status response)
                       +:+ ")"))
  else
    mret (Some {| contentLength :=
                    parseInt (or_str (resp_header response "content-length") (Some "0"));
                  head_contentType := resp_header response "content-type";
                  etag := resp_header response "etag";
                  lastModified := resp_header response "last-modified" |}).

Definition createS3Client (env : Env) : Outcome S3Client :=
  if negb (truthy_str (S3_ENDPOINT env)) || negb (truthy_str (S3_ACCESS_KEY_ID env))
     || negb (truthy_str (S3_SECRET_ACCESS_KEY env)) || negb (truthy_str (S3_BUCKET env))
  then Throw (Error "S3 配置不完整，需要 S3_ENDPOINT, S3_ACCESS_KEY_ID, S3_SECRET_ACCESS_KEY, S3_BUCKET")
  else Return (constructor
                 {| cfg_endpoint := default "" (S3_ENDPOINT env);
                    cfg_region := or_str (S3_REGION env) (Some "us-east-1");
                    cfg_bucket := default "" (S3_BUCKET env);
                    cfg_accessKeyId := default "" (S3_ACCESS_KEY_ID env);
                    cfg_secretAccessKey := default "" (S3_SECRET_ACCESS_KEY env) |}).

Definition checkConnection (this : S3Client) : M bool :=
  let url := this_endpoint this +:+ "/" +:+ this_bucket this
             +:+ "?list-type=2&max-keys=1" in
  fresh ← new_object [];
  signedHeaders ← signRequest "GET" url fresh PNull (_getCredentials this);
  sent_headers ← deref signedHeaders;
  response ← fetch {| rq_url := url; rq_method := "GET";
                      rq_headers := sent_headers; rq_body := BodyNone |};
  mret (ok response).

(** The header name [putObject] gives a metadata key. *)
Definition meta_key (k : string) : string :=
  if String.prefix "x-amz-meta-" k then k else "x-amz-meta-" +:+ k.

(** The headers [putObject] has collected when it comes to sign. *)
Definition put_headers (body : Payload) (options : PutOptions) : JsObject :=
  let headers : JsObject := [] in
  let headers :=
    if truthy_str (contentType options)
    then obj_set "content-type" (default "" (contentType options)) headers
    else headers in
  let headers :=
    match payload_length body with
    | Some n => obj_set "content-length" (Number_toString (Z.of_nat n)) headers
    | None => headers
    end in
  match metadata options with
  | Some meta =>
      foldl (λ headers kv, obj_set (meta_key kv.1) kv.2 headers) headers
        (Object_entries meta)
  | None => headers
  end.

(** The headers [getObject] has collected when it comes to sign. *)
Definition get_headers (range : option string) : JsObject :=
  if truthy_str range then [("range", default "" range)] else [].

End WithPlatform.

End S3.

(** ** The Discord storage module *)

Module Discord.
Import Js.

(** The object an upload resolves to: [{ success: true, ... }] or
    [{ success: false, error }]. *)
Inductive UploadResult : Type :=
| Success (channelId messageId attachmentId filename size : jsval)
| Failure (error : jsval).

Definition success (r : UploadResult) : bool :=
  match r with Success _ _ _ _ _ => true | Failure _ => false end.

Section WithPlatform.
Context `{Platform}.

(** The multipart form both upload paths build. *)
Definition upload_form (fileBuffer : list Byte.byte) (filename contentType : string)
    : Body :=
  BodyForm
    [FormFile "files[0]" fileBuffer contentType filename;
     FormField "payload_json"
       (JSON_stringify
          (VObj [("content", VStr "");
                 ("attachments",
                  VArr [VObj [("id", VNum 0); ("filename", VStr filename)]])]))].

(** What both upload paths do with the response. *)
Definition read_upload_response (response : Response) : M UploadResult :=
  if negb (ok response)
  then
    err ← catch_default (json response) (VObj []);
    msg ← lift (get_prop "message" err);
    mret (Failure (if truthy msg then msg
                   else VStr ("HTTP " +:+ Number_toString (status response))))
  else
    message ← json response;
    attachments ← lift (get_prop "attachments" message);
    let attachment := opt_index0 attachments in
    if falsy attachment
    then mret (Failure (VStr "未获取到附件信息"))
    else
      channel_id ← lift (get_prop "channel_id" message);
      id ← lift (get_prop "id" message);
      attachment_id ← lift (get_prop "id" attachment);
      attachment_filename ← lift (get_prop "filename" attachment);
      attachment_size ← lift (get_prop "size" attachment);
      mret (Success channel_id id attachment_id attachment_filename attachment_size).

Definition uploadViaWebhook (fileBuffer : list Byte.byte)
    (filename contentType webhookUrl : string) : M UploadResult :=
  try_catch
    (let formData := upload_form fileBuffer filename contentType in
     (* ?wait=true makes the provider answer with the full message *)
     response ← fetch {| rq_url := webhookUrl +:+ "?wait=true"; rq_method := "POST";
                         rq_headers := []; rq_body := formData |};
     read_upload_response response)
    (λ error, mret (Failure (VStr (message error)))).

Definition bot_messages_url (channelId : string) : string :=
  "https://discord.com/api/v10/channels/" +:+ channelId +:+ "/messages".

Definition uploadViaBot (fileBuffer : list Byte.byte)
    (filename contentType botToken channelId : string) : M UploadResult :=
  try_catch
    (let formData := upload_form fileBuffer filename contentType in
     response ← fetch {| rq_url := bot_messages_url channelId; rq_method := "POST";
                         rq_headers := [("Authorization", "Bot " +:+ botToken)];
                         rq_body := formData |};
     read_upload_response response)
    (λ error, mret (Failure (VStr (message error)))).

Definition uploadToDiscord (fileBuffer : list Byte.byte)
    (filename contentType : string) (env : Env) : M UploadResult :=
  if truthy_str (DISCORD_WEBHOOK_URL env)
  then uploadViaWebhook fileBuffer filename contentType
         (default "" (DISCORD_WEBHOOK_URL env))
  else if truthy_str (DISCORD_BOT_TOKEN env) && truthy_str (DISCORD_CHANNEL_ID env)
  then uploadViaBot fileBuffer filename contentType
         (default "" (DISCORD_BOT_TOKEN env)) (default "" (DISCORD_CHANNEL_ID env))
  else mret (Failure (VStr "Discord 未配置 Webhook URL 或 Bot Token")).

Definition deleteDiscordMessage (channelId messageId : string) (env : Env) : M bool :=
  let botToken := DISCORD_BOT_TOKEN env in
  if negb (truthy_str botToken)
  then mret false
  else
    try_catch
      (response ← fetch {| rq_url := bot_messages_url channelId +:+ "/" +:+ messageId;
                           rq_method := "DELETE";
                           rq_headers :=
                             [("Authorization", "Bot " +:+ default "" botToken)];
                           rq_body := BodyNone |};
       mret (ok response || (status response =? 204)))
      (λ error, mret false).

(** The request [uploadViaWebhook] sends. *)
Definition webhook_request (fileBuffer : list Byte.byte)
    (filename contentType webhookUrl : string) : Request :=
  {| rq_url := webhookUrl +:+ "?wait=true"; rq_method := "POST";
     rq_headers := []; rq_body := upload_form fileBuffer filename contentType |}.

(** The request [deleteDiscordMessage] sends. *)
Definition delete_request (channelId messageId botToken : string) : Request :=
  {| rq_url := bot_messages_url channelId +:+ "/" +:+ messageId;
     rq_method := "DELETE";
     rq_headers := [("Authorization", "Bot " +:+ botToken)];
     rq_body := BodyNone |}.

(** An environment variable as a property value: absent reads as
    undefined. *)
Definition env_value (o : option string) : jsval :=
  match o with
  | Some s => VStr s
  | None => VUndefined
  end.

(** The object [getDiscordFileUrl] resolves to when the message has an
    attachment. *)
Record FileInfo : Type := {
  file_url : jsval;
  file_filename : jsval;
  file_size : jsval;
  file_contentType : jsval
}.

(** The request [getDiscordFileUrl] sends: a GET of the message. *)
Definition message_request (channelId messageId botToken : string) : Request :=
  {| rq_url := bot_messages_url channelId +:+ "/" +:+ messageId;
     rq_method := "GET";
     rq_headers := [("Authorization", "Bot " +:+ botToken)];
     rq_body := BodyNone |}.

(** A fresh URL for the attachment of a message; [None] is [null]. *)
Definition getDiscordFileUrl (channelId messageId : string) (env : Env)
    : M (option FileInfo) :=
  let botToken := DISCORD_BOT_TOKEN env in
  if negb (truthy_str botToken)
  then throw (Error "需要 DISCORD_BOT_TOKEN 才能获取文件")
  else
    response ← fetch (message_request channelId messageId (default "" botToken));
    if negb (ok response)
    then
      if status response =? 404 then mret None
      else throw (Error ("Discord API error: " +:+ Number_toString (status response)))
    else
      message ← json response;
      attachments ← lift (get_prop "attachments" message);
      let attachment := opt_index0 attachments in
      if falsy attachment
      then mret None
      else
        attachment_url ← lift (get_prop "url" attachment);
        attachment_filename ← lift (get_prop "filename" attachment);
        attachment_size ← lift (get_prop "size" attachment);
        attachment_content_type ← lift (get_prop "content_type" attachment);
        mret (Some {| file_url := attachment_url;
                      file_filename := attachment_filename;
                      file_size := attachment_size;
                      file_contentType := attachment_content_type |}).

(** The object [checkDiscordConnection] resolves to:
    [{ connected: true, mode, name, channelId }] or [{ connected: false }]. *)
Inductive Connection : Type :=
| Connected (mode : string) (name channelId : jsval)
| NotConnected.

(** The two probes of [checkDiscordConnection]. *)
Definition webhook_probe (webhookUrl : string) : Request :=
  {| rq_url := webhookUrl; rq_method := "GET"; rq_headers := []; rq_body := BodyNone |}.

Definition bot_probe (botToken : string) : Request :=
  {| rq_url := "https://discord.com/api/v10/users/@me"; rq_method := "GET";
     rq_headers := [("Authorization", "Bot " +:+ botToken)]; rq_body := BodyNone |}.

(** Each of the two blocks of [checkDiscordConnection] either returns
    ([Some c]) or falls through to what follows ([None]). *)
Definition checkDiscordConnection (env : Env) : M Connection :=
  (* the webhook *)
  viaWebhook ←
    (if truthy_str (DISCORD_WEBHOOK_URL env)
     then
       try_catch
         ((* a GET of the webhook URL answers with the webhook *)
          response ← fetch (webhook_probe (default "" (DISCORD_WEBHOOK_URL env)));
          if ok response
          then
            data ← json response;
            name ← lift (get_prop "name" data);
            channel_id ← lift (get_prop "channel_id" data);
            mret (Some (Connected "webhook" name channel_id))
          else mret None)
         (λ e, (* fall through *) mret None)
     else mret None);
  match viaWebhook with
  | Some connection => mret connection
  | None =>
      (* the bot *)
      viaBot ←
        (if truthy_str (DISCORD_BOT_TOKEN env)
         then
           try_catch
             (response ← fetch (bot_probe (default "" (DISCORD_BOT_TOKEN env)));
              if ok response
              then
                data ← json response;
                username ← lift (get_prop "username" data);
                mret (Some (Connected "bot" username
                              (env_value (DISCORD_CHANNEL_ID env))))
              else mret None)
             (λ e, (* fall through *) mret None)
         else mret None);
      match viaBot with
      | Some connection => mret connection
      | None => mret NotConnected
      end
  end.

(** The request [uploadViaBot] sends. *)
Definition bot_request (fileBuffer : list Byte.byte)
    (filename contentType botToken channelId : string) : Request :=
  {| rq_url := bot_messages_url channelId; rq_method := "POST";
     rq_headers := [("Authorization", "Bot " +:+ botToken)];
     rq_body := upload_form fileBuffer filename contentType |}.

End WithPlatform.

End Discord.

(** ** The HuggingFace storage module *)

Module HuggingFace.
Import Js.

(** [btoa]: the Base64 text of a binary string, whose characters are the
    code units 0 to 255; three code units give four digits, and a last
    group of one or two is padded with [=]. *)
Definition base64_alphabet : string :=
  "ABCDEFGHIJKLMNOPQRSTUVWXYZabcdefghijklmnopqrstuvwxyz0123456789+/".

Definition base64_digit (n : N) : ascii :=
  default "="%char (String.get (N.to_nat n) base64_alphabet).

Fixpoint btoa_units (units : list N) : string :=
  match units with
  | [] => ""
  | [a] =>
      String (base64_digit (a / 4)) (String (base64_digit (a mod 4 * 16)) "==")
  | [a; b] =>
      String (base64_digit (a / 4))
        (String (base64_digit (a mod 4 * 16 + b / 16))
           (String (base64_digit (b mod 16 * 4)) "="))
  | a :: b :: c :: rest =>
      String (base64_digit (a / 4))
        (String (base64_digit (a mod 4 * 16 + b / 16))
           (String (base64_digit (b mod 16 * 4 + c / 64))
              (String (base64_digit (c mod 64)) (btoa_units rest))))
  end%N.

Definition btoa (binary : string) : string :=
  btoa_units (Ascii.N_of_ascii <$> String.list_ascii_of_string binary).

(** The loop appends one character per byte, [String.fromCharCode(b)]. *)
Definition arrayBufferToBase64 (buffer : list Byte.byte) : string :=
  let bytes := buffer in
  let binary :=
    foldl (λ binary b, binary +:+ String (Ascii.ascii_of_byte b) "") "" bytes in
  btoa binary.

(** The object [uploadToHuggingFace] resolves to:
    [{ success: true, commitOid }] or [{ success: false, error }]. *)
Inductive UploadResult : Type :=
| Uploaded (commitOid : jsval)
| UploadFailed (error : string).

(** The object [checkHuggingFaceConnection] resolves to:
    [{ connected: true, repoId, isPrivate }] or [{ connected: false }]. *)
Inductive Connection : Type :=
| Connected (repoId isPrivate : jsval)
| NotConnected.

(** An environment variable inside a template literal: absent reads as
    the text [undefined]. *)
Definition interpolate (o : option string) : string := default "undefined" o.

Definition getHuggingFacePublicUrl (pathInRepo : string) (env : Env) : string :=
  "https://huggingface.co/datasets/" +:+ interpolate (HF_REPO env)
  +:+ "/resolve/main/" +:+ pathInRepo.

(** The response is handed back as it is, whatever its status.  The
    option [redirect: 'follow'] is the default of [fetch] and is not
    recorded in the request. *)
Definition getHuggingFaceFile (pathInRepo : string) (env : Env) (range : option string)
    : M Response :=
  let HF_REPO := HF_REPO env in
  let url := "https://huggingface.co/datasets/" +:+ interpolate HF_REPO
             +:+ "/resolve/main/" +:+ pathInRepo in
  let headers : JsObject := [] in
  (* a private repository needs the token *)
  let headers :=
    if truthy_str (HF_TOKEN env)
    then obj_set "Authorization" ("Bearer " +:+ interpolate (HF_TOKEN env)) headers
    else headers in
  let headers :=
    if truthy_str range then obj_set "Range" (default "" range) headers else headers in
  fetch {| rq_url := url; rq_method := "GET"; rq_headers := headers;
           rq_body := BodyNone |}.

Section WithPlatform.
Context `{Platform}.

(** The request [uploadToHuggingFace] sends: a commit of one file, as two
    lines of JSON. *)
Definition commit_upload_request (fileBuffer : list Byte.byte)
    (pathInRepo fileName token repo : string) : Request :=
  {| rq_url := "https://huggingface.co/api/datasets/" +:+ repo +:+ "/commit/main";
     rq_method := "POST";
     rq_headers := [("Authorization", "Bearer " +:+ token);
                    ("Content-Type", "application/x-ndjson")];
     rq_body :=
       BodyText
         (JSON_stringify
            (VObj [("key", VStr "header");
                   ("value", VObj [("summary", VStr ("Upload " +:+ fileName))])])
          +:+ LF
          +:+ JSON_stringify
                (VObj [("key", VStr "file");
                       ("value",
                        VObj [("content", VStr (arrayBufferToBase64 fileBuffer));
                              ("path", VStr pathInRepo);
                              ("encoding", VStr "base64")])])) |}.

Definition uploadToHuggingFace (fileBuffer : list Byte.byte)
    (pathInRepo fileName : string) (env : Env) : M UploadResult :=
  let HF_TOKEN := HF_TOKEN env in
  let HF_REPO := HF_REPO env in
  if negb (truthy_str HF_TOKEN) || negb (truthy_str HF_REPO)
  then mret (UploadFailed "HuggingFace 配置不完整")
  else
    try_catch
      (let base64Content := arrayBufferToBase64 fileBuffer in
       (* the NDJSON body *)
       let headerLine :=
         JSON_stringify
           (VObj [("key", VStr "header");
                  ("value", VObj [("summary", VStr ("Upload " +:+ fileName))])]) in
       let fileLine :=
         JSON_stringify
           (VObj [("key", VStr "file");
                  ("value",
                   VObj [("content", VStr base64Content);
                         ("path", VStr pathInRepo);
                         ("encoding", VStr "base64")])]) in
       let body := headerLine +:+ LF +:+ fileLine in
       response ← fetch {| rq_url := "https://huggingface.co/api/datasets/"
                                     +:+ default "" HF_REPO +:+ "/commit/main";
                           rq_method := "POST";
                           rq_headers :=
                             [("Authorization", "Bearer " +:+ default "" HF_TOKEN);
                              ("Content-Type", "application/x-ndjson")];
                           rq_body := BodyText body |};
       if negb (ok response)
       then
         let errorText := resp_text response in
         mret (UploadFailed ("HF 上传失败 (" +:+ Number_toString (status response)
                             +:+ "): " +:+ errorText))
       else
         result ← json response;
         commitOid ← lift (get_prop "commitOid" result);
         mret (Uploaded commitOid))
      (λ error, mret (UploadFailed (message error))).

(** The request [checkHuggingFaceConnection] sends. *)
Definition repo_probe (token repo : string) : Request :=
  {| rq_url := "https://huggingface.co/api/datasets/" +:+ repo; rq_method := "GET";
     rq_headers := [("Authorization", "Bearer " +:+ token)]; rq_body := BodyNone |}.

Definition checkHuggingFaceConnection (env : Env) : M Connection :=
  if negb (truthy_str (HF_TOKEN env)) || negb (truthy_str (HF_REPO env))
  then mret NotConnected
  else
    try_catch
      (response ← fetch (repo_probe (default "" (HF_TOKEN env))
                           (default "" (HF_REPO env)));
       if ok response
       then
         data ← json response;
         id ← lift (get_prop "id" data);
         private ← lift (get_prop "private" data);
         mret (Connected id private)
       else mret NotConnected)
      (λ e, mret NotConnected).

Definition deleteHuggingFaceFile (pathInRepo : string) (env : Env) : M bool :=
  if negb (truthy_str (HF_TOKEN env)) || negb (truthy_str (HF_REPO env))
  then mret false
  else
    try_catch
      (let headerLine :=
         JSON_stringify
           (VObj [("key", VStr "header");
                  ("value", VObj [("summary", VStr ("Delete " +:+ pathInRepo))])]) in
       let deleteLine :=
         JSON_stringify
           (VObj [("key", VStr "deletedFile");
                  ("value", VObj [("path", VStr pathInRepo)])]) in
       let body := headerLine +:+ LF +:+ deleteLine in
       response ← fetch {| rq_url := "https://huggingface.co/api/datasets/"
                                     +:+ default "" (HF_REPO env) +:+ "/commit/main";
                           rq_method := "POST";
                           rq_headers :=
                             [("Authorization", "Bearer " +:+ default "" (HF_TOKEN env));
                              ("Content-Type", "application/x-ndjson")];
                           rq_body := BodyText body |};
       mret (ok response))
      (λ error, mret false).

(** The request [deleteHuggingFaceFile] sends. *)
Definition commit_delete_request (pathInRepo token repo : string) : Request :=
  {| rq_url := "https://huggingface.co/api/datasets/" +:+ repo +:+ "/commit/main";
     rq_method := "POST";
     rq_headers := [("Authorization", "Bearer " +:+ token);
                    ("Content-Type", "application/x-ndjson")];
     rq_body :=
       BodyText
         (JSON_stringify
            (VObj [("key", VStr "header");
                   ("value", VObj [("summary", VStr ("Delete " +:+ pathInRepo))])])
          +:+ LF
          +:+ JSON_stringify
                (VObj [("key", VStr "deletedFile");
                       ("value", VObj [("path", VStr pathInRepo)])])) |}.

End WithPlatform.

End HuggingFace.

(** ** functions/utils/guest.js *)

Module Guest.
Import Js.

(** The object [checkGuestUpload] resolves to; absent properties are
    [None]. *)
Record GuestCheck : Type := {
  allowed : bool;
  reason : option string;
  status : option Z;
  remaining : option Z
}.

Record GuestConfig : Type := {
  enabled : bool;
  maxFileSize : Z;
  dailyLimit : Z
}.

Section WithPlatform.
Context `{Platform}.

Definition getClientIP (request : HttpRequest) : string :=
  default "0.0.0.0"
    (or_str (headers_get request "CF-Connecting-IP")
       (or_str ((λ s, trim (split_first "," s)) <$> headers_get request "X-Forwarded-For")
          (or_str (headers_get request "X-Real-IP")
             (Some "0.0.0.0")))).

(** Today's date, [YYYY-MM-DD]. *)
Definition getTodayKey : M string :=
  iso ← Date_toISOString;
  mret (split_first "T" iso).

Definition guest_key (ip today : string) : string :=
  "guest:" +:+ ip +:+ ":" +:+ today.

Definition checkGuestUpload (request : HttpRequest) (env : Env) (fileSize : Z)
    : M GuestCheck :=
  (* is guest upload switched on? *)
  if negb (bool_decide (GUEST_UPLOAD env = Some "true"))
  then mret {| allowed := false; reason := Some "未启用访客上传，请登录后操作";
               status := Some 401; remaining := None |}
  else
    (* file size cap, 5MB by default *)
    let maxSize := parseInt_or (GUEST_MAX_FILE_SIZE env) (5 * 1024 * 1024) in
    if maxSize <? fileSize
    then
      let maxMB := toFixed0 maxSize (1024 * 1024) in
      mret {| allowed := false;
              reason := Some ("访客上传限制：文件大小不能超过 " +:+ maxMB +:+ "MB");
              status := Some 413; remaining := None |}
    else
      (* uploads per day *)
      let dailyLimit := parseInt_or (GUEST_DAILY_LIMIT env) 10 in
      let ip := getClientIP request in
      today ← getTodayKey;
      let kvKey := guest_key ip today in
      if img_url env
      then
        try_catch
          (countStr ← kv_get kvKey;
           let currentCount := parseInt_or countStr 0 in
           if dailyLimit <=? currentCount
           then mret {| allowed := false;
                        reason := Some ("访客每日上传上限 " +:+ Number_toString dailyLimit
                                        +:+ " 次，今日已用完");
                        status := Some 429; remaining := Some 0 |}
           else mret {| allowed := true; reason := None; status := None;
                        remaining := Some (dailyLimit - currentCount) |})
          (* the store failed: let the upload through *)
          (λ e, mret {| allowed := true; reason := None; status := None;
                        remaining := None |})
      else mret {| allowed := true; reason := None; status := None; remaining := None |}.

Definition incrementGuestCount (request : HttpRequest) (env : Env) : M unit :=
  if negb (img_url env) || negb (bool_decide (GUEST_UPLOAD env = Some "true"))
  then mret tt
  else
    let ip := getClientIP request in
    today ← getTodayKey;
    let kvKey := guest_key ip today in
    try_catch
      (countStr ← kv_get kvKey;
       let currentCount := parseInt_or countStr 0 in
       kv_put kvKey (Number_toString (currentCount + 1)) (Some 86400))
      (λ e, mret tt).

(** The counter the two functions read: [parseInt(stored) || 0]. *)
Definition guest_counter (w : World) (ip today : string) : Z :=
  parseInt_or (kv_lookup w (guest_key ip today)) 0.

Definition today_of (w : World) : string := split_first "T" (clock_iso w).

(** The world after [n] successive calls of [incrementGuestCount]. *)
Definition increments (n : nat) (request : HttpRequest) (env : Env) (w : World) : World :=
  Nat.iter n (λ w, (incrementGuestCount request env w).2) w.

Definition getGuestConfig (env : Env) : GuestConfig :=
  let enabled := bool_decide (GUEST_UPLOAD env = Some "true") in
  {| enabled := enabled;
     maxFileSize :=
       if enabled then parseInt_or (GUEST_MAX_FILE_SIZE env) (5 * 1024 * 1024) else 0;
     dailyLimit := if enabled then parseInt_or (GUEST_DAILY_LIMIT env) 10 else 0 |}.

End WithPlatform.

End Guest.

(** ** functions/api/chunked-upload/init.js *)

Module ChunkedUpload.
Import Js.

Definition CHUNK_SIZE : Z := 5 * 1024 * 1024.
Definition MAX_FILE_SIZE : Z := 100 * 1024 * 1024.

Definition validModes : list string :=
  ["telegram"; "r2"; "s3"; "discord"; "huggingface"].

(** [validModes.includes(v)]: only a string can be a member. *)
Definition includes (modes : list string) (v : jsval) : bool :=
  match v with
  | VStr s => bool_decide (s ∈ modes)
  | _ => false
  end.

Record Context : Type := {
  request : HttpRequest;
  env : Env
}.

Definition json_headers : JsObject := [("Content-Type", "application/json")].

(** [{ base..., ...v }]: the own enumerable properties of [v] are assigned
    over [base]. *)
Fixpoint fields_set (k : string) (v : jsval) (fields : list (string * jsval))
    : list (string * jsval) :=
  match fields with
  | [] => [(k, v)]
  | (k', v') :: rest =>
      if decide (k' = k) then (k, v) :: rest else (k', v') :: fields_set k v rest
  end.

Definition own_properties (v : jsval) : list (string * jsval) :=
  match v with
  | VObj fields => fields
  | VArr l => imap (λ i x, (Number_toString (Z.of_nat i), x)) l
  | VStr s =>
      imap (λ i c, (Number_toString (Z.of_nat i), VStr (String c "")))
           (String.list_ascii_of_string s)
  | VUndefined | VNull | VBool _ | VNum _ => []
  end.

Definition spread (base : list (string * jsval)) (v : jsval) : list (string * jsval) :=
  foldl (λ acc kv, fields_set kv.1 kv.2 acc) base (own_properties v).

Definition generateUploadId : M string :=
  array ← getRandomValues 16;
  mret (join "" ((λ b, padStart 2 "0" (toString16 (Byte.to_N b))) <$> array)).

Section WithPlatform.
Context `{Platform}.

(** The authentication collaborator, [utils/auth.js]: whether the
    deployment requires a login, and the [authenticated] flag of the check
    it performs. *)
Variable isAuthRequired : Env → bool.
Variable checkAuthentication : Context → M bool.

Definition respond (status : Z) (body : jsval) : HttpResponse :=
  {| res_status := status; res_body := JSON_stringify body;
     res_headers := json_headers |}.

(** [await env.img_url.put(...)]: without the binding the property read
    throws. *)
Definition img_url_put (env : Env) (k v : string) (ttl : option Z) : M unit :=
  if img_url env then kv_put k v ttl else throw (Native (NullDeref "put")).

Definition img_url_get_json (env : Env) (k : string) : M jsval :=
  if img_url env then kv_get_json k else throw (Native (NullDeref "get")).

(** The first block of [onRequestPost]: administrators pass, other
    callers pass when the guest check allows them; [Some r] is the early
    [return r]. *)
Definition admission (context : Context) : M (option HttpResponse) :=
  let request := request context in
  let env := env context in
  isAdmin ← (if isAuthRequired env then checkAuthentication context
             else (mret true : M bool));
  if negb isAdmin
  then
    guestCheck ← Guest.checkGuestUpload request env 0;
    if negb (Guest.allowed guestCheck)
    then mret (Some (respond 403 (VObj [("error", VStr "访客不支持分片上传，请使用普通上传")])))
    else mret None
  else mret None.

(** POST /api/chunked-upload/init *)
Definition onRequestPost (context : Context) : M HttpResponse :=
  let request := request context in
  let env := env context in
  try_catch
    ((* admin or guest *)
     refused ← admission context;
     match refused with
     | Some response => mret response
     | None =>
       body ← lift (body_json request);
       fileName ← lift (get_prop "fileName" body);
       fileSize ← lift (get_prop "fileSize" body);
       fileType ← lift (get_prop "fileType" body);
       totalChunks ← lift (get_prop "totalChunks" body);
       storageMode ← lift (get_prop "storageMode" body);
       (* validate the parameters *)
       if falsy fileName || falsy fileSize || falsy totalChunks
       then mret (respond 400 (VObj [("error", VStr "缺少必要参数")]))
       else if gt_num fileSize MAX_FILE_SIZE
       then mret (respond 400
                    (VObj [("error",
                            VStr ("文件大小超过限制 (最大 "
                                  +:+ Number_toString (MAX_FILE_SIZE / 1024 / 1024)
                                  +:+ "MB)"))]))
       else
         (* upload id *)
         uploadId ← generateUploadId;
         (* normalise the storage mode *)
         let normalizedStorage :=
           if includes validModes storageMode then storageMode else VStr "telegram" in
         createdAt ← Date_now;
         let uploadTask :=
           VObj [("uploadId", VStr uploadId);
                 ("fileName", fileName);
                 ("fileSize", fileSize);
                 ("fileType", fileType);
                 ("totalChunks", totalChunks);
                 ("storageMode", normalizedStorage);
                 ("uploadedChunks", VArr []);
                 ("createdAt", VNum createdAt);
                 ("status", VStr "pending")] in
         _ ← img_url_put env ("upload:" +:+ uploadId) (JSON_stringify uploadTask)
               (Some 3600);
         mret (respond 200 (VObj [("success", VBool true);
                                  ("uploadId", VStr uploadId);
                                  ("chunkSize", VNum CHUNK_SIZE)]))
     end)
    (λ error, mret (respond 500 (VObj [("error", VStr (message error))]))).

(** GET /api/chunked-upload/init?uploadId=xxx *)
Definition onRequestGet (context : Context) : M HttpResponse :=
  let request := request context in
  let env := env context in
  url ← new_URL (url request);
  let uploadId := fields_get "uploadId" (searchParams url) in
  if negb (truthy_str uploadId)
  then mret (respond 400 (VObj [("error", VStr "缺少 uploadId")]))
  else
    try_catch
      (taskData ← img_url_get_json env ("upload:" +:+ default "" uploadId);
       if falsy taskData
       then mret (respond 404 (VObj [("error", VStr "上传任务不存在或已过期")]))
       else mret (respond 200 (VObj (spread [("success", VBool true)] taskData))))
      (λ error, mret (respond 500 (VObj [("error", VStr (message error))]))).

(** The status of the response a handler resolves to. *)
Definition status_of (o : Outcome HttpResponse) : option Z :=
  match o with
  | Return r => Some (res_status r)
  | Throw _ => None
  end.

(** The session record [onRequestPost] stores. *)
Definition session (uploadId : string) (fileName fileSize fileType totalChunks
    storageMode : jsval) (createdAt : Z) : jsval :=
  VObj [("uploadId", VStr uploadId);
        ("fileName", fileName);
        ("fileSize", fileSize);
        ("fileType", fileType);
        ("totalChunks", totalChunks);
        ("storageMode", storageMode);
        ("uploadedChunks", VArr []);
        ("createdAt", VNum createdAt);
        ("status", VStr "pending")].

(** The identifier [generateUploadId] draws in world [w]. *)
Definition next_upload_id (w : World) : string :=
  join "" ((λ b, padStart 2 "0" (toString16 (Byte.to_N b)))
             <$> (entropy w <$> seq (entropy_pos w) 16)).

End WithPlatform.

End ChunkedUpload.

(** ** What [signRequest] computes

    The pure part of [signRequest], in the words of its body: the values it
    derives from the URL, the clock, the body and the credentials, and the
    contents it leaves in the header object. *)

Module Signed.
Import Js S3.

(** A comparator is consistent when it is antisymmetric in sign and
    transitive: what [Array.prototype.sort] asks of its argument. *)
Record Consistent (cmp : string → string → Z) : Prop := {
  cmp_antisym : ∀ a b, Z.sgn (cmp b a) = - Z.sgn (cmp a b);
  cmp_trans : ∀ a b c, cmp a b <= 0 → cmp b c <= 0 → cmp a c <= 0
}.

Section WithPlatform.
Context `{Platform}.

(** The order of the query sort: by key, then by value, as
    [localeCompare] compares them. *)
Definition pair_le (a b : string * string) : Prop :=
  localeCompare a.1 b.1 < 0
  ∨ (localeCompare a.1 b.1 = 0 ∧ localeCompare a.2 b.2 <= 0).

(** The order of the header sort: by name, as [localeCompare] compares
    them. *)
Definition name_le (a b : string * string) : Prop :=
  localeCompare a.1 b.1 <= 0.

(** [payloadHash] *)
Definition content_hash (body : Payload) : string :=
  match body with
  | PNull => sha256Hex (Str "")
  | PString s => sha256Hex (Str s)
  | PArrayBuffer b | PUint8Array b => sha256Hex (Buf b)
  end.

(** [dateStamp] and [amzDate], from the text of the clock. *)
Definition date_stamp (iso : string) : string :=
  substring 0 8 (remove_chars_g ["-"; ":"; "."; "T"; "Z"]%char iso).

Definition amz_date (iso : string) : string :=
  date_stamp iso +:+ "T"
  +:+ substring 9 15 (remove_chars_g ["-"; ":"; "."; "Z"]%char iso) +:+ "Z".

(** The header object once the three required headers are set. *)
Definition required_headers (iso : string) (u : URL) (body : Payload)
    (headers : JsObject) : JsObject :=
  obj_set "host" (host u)
    (obj_set "x-amz-content-sha256" (content_hash body)
       (obj_set "x-amz-date" (amz_date iso) headers)).

(** [sortedHeaders] *)
Definition sorted_headers (headers : JsObject) : list (string * string) :=
  sort compare_names
    ((λ kv, (trim (toLowerCase kv.1), trim kv.2)) <$> Object_entries headers).

(** [canonicalRequest] *)
Definition canonical_text (method : string) (u : URL)
    (sortedHeaders : list (string * string)) (payloadHash : string) : string :=
  let canonicalUri := uriEncode (pathname u) false in
  let canonicalQueryString :=
    join "&" ((λ kv, uriEncode kv.1 true +:+ "=" +:+ uriEncode kv.2 true)
                <$> sort compare_pairs (searchParams u)) in
  let canonicalHeaders :=
    join "" ((λ kv, kv.1 +:+ ":" +:+ kv.2 +:+ LF) <$> sortedHeaders) in
  let signedHeaders := join ";" (fst <$> sortedHeaders) in
  join LF [method; canonicalUri; canonicalQueryString;
           canonicalHeaders; signedHeaders; payloadHash].

(** The contents of a header object after it is signed, from its contents
    [headers] before. *)
Definition signed_contents (method : string) (u : URL) (iso : string)
    (body : Payload) (cred : Credentials) (headers : JsObject) : JsObject :=
  let dateStamp := date_stamp iso in
  let amzDate := amz_date iso in
  let payloadHash := content_hash body in
  let headers := required_headers iso u body headers in
  let sortedHeaders := sorted_headers headers in
  let signedHeaders := join ";" (fst <$> sortedHeaders) in
  let canonicalRequest := canonical_text method u sortedHeaders payloadHash in
  let credentialScope :=
    dateStamp +:+ "/" +:+ region cred +:+ "/" +:+ service cred +:+ "/aws4_request" in
  let stringToSign :=
    join LF ["AWS4-HMAC-SHA256"; amzDate; credentialScope;
             sha256Hex (Str canonicalRequest)] in
  let kDate := hmacSha256 (Str ("AWS4" +:+ secretAccessKey cred)) (Str dateStamp) in
  let kRegion := hmacSha256 (Buf kDate) (Str (region cred)) in
  let kService := hmacSha256 (Buf kRegion) (Str (service cred)) in
  let kSigning := hmacSha256 (Buf kService) (Str "aws4_request") in
  let signature := arrayBufferToHex (hmacSha256 (Buf kSigning) (Str stringToSign)) in
  obj_set "Authorization"
    ("AWS4-HMAC-SHA256 Credential=" +:+ accessKeyId cred +:+ "/"
     +:+ credentialScope +:+ ", SignedHeaders=" +:+ signedHeaders
     +:+ ", Signature=" +:+ signature)
    headers.

End WithPlatform.

(** Two clock readings fall in the same second when they share a prefix
    that already holds the date and the time of day: for an ISO timestamp,
    its first 19 characters [YYYY-MM-DDTHH:mm:ss]. *)
Definition same_second (iso1 iso2 : string) : Prop :=
  ∃ p s1 s2,
    iso1 = p +:+ s1 ∧ iso2 = p +:+ s2
    ∧ (8 ≤ String.length (remove_chars_g ["-"; ":"; "."; "T"; "Z"]%char p))%nat
    ∧ (15 ≤ String.length (remove_chars_g ["-"; ":"; "."; "Z"]%char p))%nat.

(** The Authorization header of the object an invocation returns, read in
    the world it leaves. *)
Definition authorization_after (result : Outcome Ref * World) : option string :=
  match result.1 with
  | Return headers => obj_get "Authorization" (contents result.2 headers)
  | Throw _ => None
  end.

(** The header names [signRequest] writes. *)
Definition written : list string :=
  ["x-amz-date"; "x-amz-content-sha256"; "host"; "Authorization"].

End Signed.

(** ** Percent-encoding

    RFC 3986, section 2.1: a byte of the text is written [%XX], with two
    upper-case hexadecimal digits, unless it is a character that may
    stay. *)

Module Uri.

Definition upper_hex_digit (d : N) : ascii :=
  nth (N.to_nat d) (String.list_ascii_of_string "0123456789ABCDEF") "0"%char.

Definition escape (a : ascii) : string :=
  let n := Ascii.N_of_ascii a in
  String "%" (String (upper_hex_digit (n / 16))
                (String (upper_hex_digit (n mod 16)) "")).

Fixpoint percent_encode (keep : ascii → bool) (s : string) : string :=
  match s with
  | "" => ""
  | String a rest =>
      (if keep a then String a "" else escape a) +:+ percent_encode keep rest
  end.

Definition alphanumeric (a : ascii) : bool :=
  let n := Ascii.N_of_ascii a in
  ((48 <=? n) && (n <=? 57) || (65 <=? n) && (n <=? 90) || (97 <=? n) && (n <=? 122))%N.

(** RFC 3986, section 2.3: the unreserved characters. *)
Definition unreserved (a : ascii) : bool :=
  alphanumeric a || bool_decide (a ∈ ["-"; "."; "_"; "~"]%char).

(** ECMA-262, [encodeURIComponent]: the characters it leaves as they are
    are the unreserved ones and the marks [! * ' ( )]. *)
Definition uri_unescaped (a : ascii) : bool :=
  unreserved a || bool_decide (a ∈ ["!"; "*"; "'"; "("; ")"]%char).

(** A runtime whose [encodeURIComponent] is the function ECMA-262
    defines, on text that is well formed. *)
Definition Standard `{Js.Platform} : Prop :=
  ∀ s, Js.encodeURIComponent s = percent_encode uri_unescaped s.

End Uri.

(** ** The signing algorithm as the specification words it

    Section 4.1 of the specification, step by step, from the primitives it
    names - SHA-256, the keyed hash HMAC-SHA256, hexadecimal text, URI
    encoding, lexicographic order - and from no function of
    [s3client.js].  [signRequest] is compared with these definitions
    below. *)

Module SigV4.
Import Js.

(** Lexicographic order of two texts, by character code. *)
Definition lex_le (a b : string) : Prop := String.compare a b ≠ Gt.

Definition lex_lt (a b : string) : Prop := String.compare a b = Lt.

(** Lower-case hexadecimal text, two digits a byte. *)
Definition hex_digit (d : N) : ascii :=
  nth (N.to_nat d) (String.list_ascii_of_string "0123456789abcdef") "0"%char.

Fixpoint hex (bytes : list Byte.byte) : string :=
  match bytes with
  | [] => ""
  | b :: rest =>
      String (hex_digit (Byte.to_N b / 16))
        (String (hex_digit (Byte.to_N b mod 16)) (hex rest))
  end.

Definition line_feed : string := String (Ascii.ascii_of_N 10) "".

(** URI encoding: every character but the unreserved ones is escaped; in
    a path the slashes stay. *)
Definition uri_encode (s : string) : string :=
  Uri.percent_encode Uri.unreserved s.

Definition uri_encode_path (s : string) : string :=
  Uri.percent_encode (λ a, Uri.unreserved a || bool_decide (a = "/"%char)) s.

(** The encoded query pairs are in lexicographic order: by name, and by
    value under the same name. *)
Definition encoded_le (a b : string * string) : Prop :=
  lex_lt (uri_encode a.1) (uri_encode b.1)
  ∨ (uri_encode a.1 = uri_encode b.1 ∧ lex_le (uri_encode a.2) (uri_encode b.2)).

Definition lexicographic (qs : list (string * string)) : Prop :=
  StronglySorted encoded_le qs.

(** The header pairs are sorted by name. *)
Definition sorted_by_name (hs : list (string * string)) : Prop :=
  StronglySorted (λ a b, lex_le a.1 b.1) hs.

Section WithPlatform.
Context `{Platform}.

(** SHA-256 of a text, in hexadecimal. *)
Definition sha256_hex (text : string) : string :=
  hex (SHA256 (TextEncoder_encode text)).

(** (1) the content hash of the body, of the empty string if absent *)
Definition content_hash (body : S3.Payload) : string :=
  match body with
  | S3.PNull => sha256_hex ""
  | S3.PString s => sha256_hex s
  | S3.PArrayBuffer b | S3.PUint8Array b => hex (SHA256 b)
  end.

(** (2) the canonical request *)
Definition canonical_query (qs : list (string * string)) : string :=
  String.concat "&" ((λ kv, uri_encode kv.1 +:+ "=" +:+ uri_encode kv.2) <$> qs).

Definition canonical_pair (kv : string * string) : string * string :=
  (trim (toLowerCase kv.1), trim kv.2).

Definition canonical_headers (hs : list (string * string)) : string :=
  String.concat "" ((λ kv, kv.1 +:+ ":" +:+ kv.2 +:+ line_feed) <$> hs).

Definition signed_header_list (hs : list (string * string)) : string :=
  String.concat ";" (fst <$> hs).

Definition canonical_request (method path : string)
    (qs hs : list (string * string)) (hash : string) : string :=
  String.concat line_feed
    [method; uri_encode_path path; canonical_query qs;
     canonical_headers hs; signed_header_list hs; hash].

(** (3) the string to sign *)
Definition credential_scope (date region service : string) : string :=
  date +:+ "/" +:+ region +:+ "/" +:+ service +:+ "/aws4_request".

Definition string_to_sign (timestamp scope request : string) : string :=
  String.concat line_feed
    ["AWS4-HMAC-SHA256"; timestamp; scope; sha256_hex request].

(** (4) the signing key: four chained keyed hashes *)
Definition signing_key (secret date region service : string) : list Byte.byte :=
  let seed := TextEncoder_encode ("AWS4" +:+ secret) in
  let k1 := HMAC_SHA256 seed (TextEncoder_encode date) in
  let k2 := HMAC_SHA256 k1 (TextEncoder_encode region) in
  let k3 := HMAC_SHA256 k2 (TextEncoder_encode service) in
  HMAC_SHA256 k3 (TextEncoder_encode "aws4_request").

(** (5) the signature *)
Definition signature (key : list Byte.byte) (to_sign : string) : string :=
  hex (HMAC_SHA256 key (TextEncoder_encode to_sign)).

(** (6) the Authorization header *)
Definition authorization (keyId scope signed sig : string) : string :=
  "AWS4-HMAC-SHA256 Credential=" +:+ keyId +:+ "/" +:+ scope
  +:+ ", SignedHeaders=" +:+ signed +:+ ", Signature=" +:+ sig.

(** Steps (1) to (6) in a row: the Authorization value for a request with
    the query pairs [qs] and the header pairs [hs], in the order in which
    they are given. *)
Definition sign (method path : string) (qs hs : list (string * string))
    (body : S3.Payload) (date timestamp : string) (cred : S3.Credentials) : string :=
  let scope := credential_scope date (S3.region cred) (S3.service cred) in
  let request := canonical_request method path qs hs (content_hash body) in
  let key := signing_key (S3.secretAccessKey cred) date
               (S3.region cred) (S3.service cred) in
  authorization (S3.accessKeyId cred) scope (signed_header_list hs)
    (signature key (string_to_sign timestamp scope request)).

End WithPlatform.

End SigV4.

(** ** A small runtime for closed examples

    [Sample.platform] is a stand-in for the runtime, good enough to run the
    embedding on concrete inputs: text is its UTF-8 bytes, [localeCompare]
    is the ordinal comparison of these, and the two "hash" functions are
    checksums, not SHA-256.  [Sample.platform_collating] differs from it in
    [localeCompare] alone, which collates letters.  No general statement
    below depends on either. *)

Module Sample.
Import Js.

Definition checksum (bs : list Byte.byte) : list Byte.byte :=
  let n := foldl (λ acc b, (acc * 31 + Byte.to_N b + 7) mod 4294967296)%N 17%N bs in
  default Byte.x00 <$>
    [Byte.of_N (n / 16777216); Byte.of_N (n / 65536 mod 256);
     Byte.of_N (n / 256 mod 256); Byte.of_N (n mod 256)].

Definition unreserved (a : ascii) : bool :=
  let n := Ascii.N_of_ascii a in
  ((48 <=? n) && (n <=? 57) || (65 <=? n) && (n <=? 90) || (97 <=? n) && (n <=? 122))%N
  || bool_decide (a ∈ ["-"; "_"; "."; "!"; "~"; "*"; "'"; "("; ")"]%char).

Definition upper_hex_digit (d : N) : ascii :=
  match d with
  | 10 => "A" | 11 => "B" | 12 => "C" | 13 => "D" | 14 => "E" | 15 => "F"
  | _ => hex_digit d
  end%N%char.

Fixpoint percent_encode (s : string) : string :=
  match s with
  | "" => ""
  | String a rest =>
      if unreserved a then String a (percent_encode rest)
      else
        let n := Ascii.N_of_ascii a in
        String "%" (String (upper_hex_digit (n / 16)) (String (upper_hex_digit (n mod 16))
          (percent_encode rest)))
  end.

Definition lower (a : ascii) : ascii :=
  let n := Ascii.N_of_ascii a in
  if ((65 <=? n) && (n <=? 90))%N then Ascii.ascii_of_N (n + 32) else a.

Fixpoint lower_case (s : string) : string :=
  match s with
  | "" => ""
  | String a rest => String (lower a) (lower_case rest)
  end.

Definition trim_blanks (s : string) : string :=
  String.rev (skip_blanks (String.rev (skip_blanks s))).

Definition ordinal_compare (a b : string) : Z :=
  match String.compare a b with
  | Lt => -1
  | Eq => 0
  | Gt => 1
  end.

(** Splitting at a character, as [s.split(c)] does. *)
Fixpoint split_on (c : ascii) (s : string) (cur : string) : list string :=
  match s with
  | "" => [String.rev cur]
  | String a rest =>
      if bool_decide (a = c) then String.rev cur :: split_on c rest ""
      else split_on c rest (String a cur)
  end.

Fixpoint drop_through (c : ascii) (s : string) : option string :=
  match s with
  | "" => None
  | String a rest => if bool_decide (a = c) then Some rest else drop_through c rest
  end.

Definition query_pair (item : string) : string * string :=
  (split_first "=" item, default "" (drop_through "=" item)).

(** [scheme://host/path?k=v&...], nothing decoded. *)
Definition parse_url (url : string) : option URL :=
  match drop_through ":" url with
  | Some (String "/" (String "/" rest)) =>
      let authority_path := split_first "?" rest in
      let h := split_first "/" authority_path in
      if bool_decide (h = "") then None
      else
        Some {| host := h;
                pathname := match drop_through "/" authority_path with
                            | Some p => String "/" p
                            | None => "/"
                            end;
                searchParams := match drop_through "?" rest with
                                | Some q =>
                                    query_pair <$>
                                      filter (λ item, item ≠ "") (split_on "&" q "")
                                | None => []
                                end |}
  | _ => None
  end.

Definition quote : string := String (Ascii.ascii_of_N 34) "".

Fixpoint stringify (v : jsval) : string :=
  match v with
  | VUndefined | VNull => "null"
  | VBool b => if b then "true" else "false"
  | VNum n => Number_toString n
  | VStr s => quote +:+ s +:+ quote
  | VArr l => "[" +:+ join "," (stringify <$> l) +:+ "]"
  | VObj fields =>
      "{" +:+ join "," ((λ kv, quote +:+ kv.1 +:+ quote +:+ ":" +:+ stringify kv.2)
                          <$> fields) +:+ "}"
  end.

#[export] Instance platform : Platform := {|
  TextEncoder_encode := String.list_byte_of_string;
  SHA256 := checksum;
  HMAC_SHA256 := λ key data, checksum (key ++ Byte.x00 :: data);
  URL_parse := parse_url;
  encodeURIComponent := percent_encode;
  localeCompare := ordinal_compare;
  toLowerCase := lower_case;
  trim := trim_blanks;
  StringToNumber := λ s, parseInt (Some s);
  ObjectToNumber := λ _, None;
  JSON_stringify := stringify;
  JSON_parse := λ _, None;
  fault_message := λ f,
    match f with
    | InvalidURL u => "Invalid URL: " +:+ u
    | JSONSyntax => "Unexpected token in JSON"
    | NullDeref p => "Cannot read properties of undefined (reading '" +:+ p +:+ "')"
    end
|}.

(** A world with an empty store, in which every request is answered by
    [answer]. *)
Definition world (iso : string) (ms : Z) (answer : FetchResult) : World :=
  {| clock_iso := iso; clock_ms := ms; kv_data := ∅; kv_fault := None;
     net := λ _, answer; sent := [];
     entropy := λ i, default Byte.x00 (Byte.of_N (N.of_nat (i * 37 + 11) mod 256));
     entropy_pos := 0; heap := [] |}.

(** The same world with a store that rejects every call. *)
Definition world_down (iso : string) (ms : Z) (answer : FetchResult) (e : Exn) : World :=
  {| clock_iso := iso; clock_ms := ms; kv_data := ∅; kv_fault := Some e;
     net := λ _, answer; sent := [];
     entropy := λ i, default Byte.x00 (Byte.of_N (N.of_nat (i * 37 + 11) mod 256));
     entropy_pos := 0; heap := [] |}.

Definition response (st : Z) (text : string) (j : option jsval) : Response :=
  {| Js.status := st; resp_text := text; resp_json := j; resp_header := λ _, None |}.

Definition noon : string := "2024-01-02T03:04:05.678Z".
Definition noon_ms : Z := 1704164645678.

Definition credentials : S3.Credentials :=
  {| S3.accessKeyId := "AKIDEXAMPLE"; S3.secretAccessKey := "secret";
     S3.region := "us-east-1"; S3.service := "s3" |}.

Definition client : S3.S3Client :=
  S3.constructor
    {| S3.cfg_endpoint := "https://s3.example.com/"; S3.cfg_region := None;
       S3.cfg_bucket := "bkt"; S3.cfg_accessKeyId := "AKIDEXAMPLE";
       S3.cfg_secretAccessKey := "secret" |}.

(** A deployment with guest uploads on, three uploads a day, the store
    bound, and both Discord delivery mechanisms configured. *)
Definition deployment : Env :=
  {| S3_ENDPOINT := Some "https://s3.example.com/"; S3_REGION := None;
     S3_BUCKET := Some "bkt"; S3_ACCESS_KEY_ID := Some "AKIDEXAMPLE";
     S3_SECRET_ACCESS_KEY := Some "secret";
     DISCORD_WEBHOOK_URL := Some "https://discord.com/api/webhooks/1/t";
     DISCORD_BOT_TOKEN := Some "bot-token"; DISCORD_CHANNEL_ID := Some "42";
     HF_TOKEN := Some "hf-token"; HF_REPO := Some "user/repo";
     GUEST_UPLOAD := Some "true"; GUEST_MAX_FILE_SIZE := None;
     GUEST_DAILY_LIMIT := Some "3"; img_url := true |}.

(** A request from the given address carrying the given JSON body. *)
Definition request_from (ip : string) (body : jsval) : HttpRequest :=
  {| url := "https://tgbed.example/api/chunked-upload/init?uploadId=0a1b";
     headers_get := λ name, if bool_decide (name = "CF-Connecting-IP") then Some ip
                            else None;
     body_json := Return body |}.

Definition init_body (fileSize : Z) (storageMode : string) : jsval :=
  VObj [("fileName", VStr "a.bin"); ("fileSize", VNum fileSize);
        ("fileType", VStr "application/octet-stream");
        ("totalChunks", VNum 20); ("storageMode", VStr storageMode)].

Definition context (fileSize : Z) (storageMode : string) : ChunkedUpload.Context :=
  {| ChunkedUpload.request := request_from "203.0.113.7" (init_body fileSize storageMode);
     ChunkedUpload.env := deployment |}.

(** The same deployment without the key-value namespace. *)
Definition deployment_without_store : Env :=
  {| S3_ENDPOINT := S3_ENDPOINT deployment; S3_REGION := S3_REGION deployment;
     S3_BUCKET := S3_BUCKET deployment; S3_ACCESS_KEY_ID := S3_ACCESS_KEY_ID deployment;
     S3_SECRET_ACCESS_KEY := S3_SECRET_ACCESS_KEY deployment;
     DISCORD_WEBHOOK_URL := DISCORD_WEBHOOK_URL deployment;
     DISCORD_BOT_TOKEN := DISCORD_BOT_TOKEN deployment;
     DISCORD_CHANNEL_ID := DISCORD_CHANNEL_ID deployment;
     HF_TOKEN := HF_TOKEN deployment; HF_REPO := HF_REPO deployment;
     GUEST_UPLOAD := GUEST_UPLOAD deployment;
     GUEST_MAX_FILE_SIZE := GUEST_MAX_FILE_SIZE deployment;
     GUEST_DAILY_LIMIT := GUEST_DAILY_LIMIT deployment; img_url := false |}.

(** A world whose heap holds the given objects, the first under
    reference 0. *)
Definition holding (w : World) (objects : list (list (string * string))) : World :=
  with_heap w objects.

(** No login is required: every caller is an administrator. *)
Definition open_door : Env → bool := λ _, false.
Definition no_check : ChunkedUpload.Context → M bool := λ _, mret true.

(** The sample runtime with a [JSON.parse] that reads back one document,
    [text], as [v]. *)
Definition platform_reading (text : string) (v : jsval) : Platform := {|
  TextEncoder_encode := String.list_byte_of_string;
  SHA256 := checksum;
  HMAC_SHA256 := λ key data, checksum (key ++ Byte.x00 :: data);
  URL_parse := parse_url;
  encodeURIComponent := percent_encode;
  localeCompare := ordinal_compare;
  toLowerCase := lower_case;
  trim := trim_blanks;
  StringToNumber := λ s, parseInt (Some s);
  ObjectToNumber := λ _, None;
  JSON_stringify := stringify;
  JSON_parse := λ s, if bool_decide (s = text) then Some v else None;
  fault_message := @fault_message platform
|}.

(** A client whose endpoint lacks the scheme: its object URLs do not
    parse. *)
Definition client_without_scheme : S3.S3Client :=
  S3.constructor
    {| S3.cfg_endpoint := "s3.example.com"; S3.cfg_region := None;
       S3.cfg_bucket := "bkt"; S3.cfg_accessKeyId := "AKIDEXAMPLE";
       S3.cfg_secretAccessKey := "secret" |}.

(** The deployment without the webhook: Discord is reached through the
    bot. *)
Definition deployment_with_bot : Env :=
  {| S3_ENDPOINT := S3_ENDPOINT deployment; S3_REGION := S3_REGION deployment;
     S3_BUCKET := S3_BUCKET deployment; S3_ACCESS_KEY_ID := S3_ACCESS_KEY_ID deployment;
     S3_SECRET_ACCESS_KEY := S3_SECRET_ACCESS_KEY deployment;
     DISCORD_WEBHOOK_URL := None;
     DISCORD_BOT_TOKEN := DISCORD_BOT_TOKEN deployment;
     DISCORD_CHANNEL_ID := DISCORD_CHANNEL_ID deployment;
     HF_TOKEN := HF_TOKEN deployment; HF_REPO := HF_REPO deployment;
     GUEST_UPLOAD := GUEST_UPLOAD deployment;
     GUEST_MAX_FILE_SIZE := GUEST_MAX_FILE_SIZE deployment;
     GUEST_DAILY_LIMIT := GUEST_DAILY_LIMIT deployment; img_url := img_url deployment |}.

(** A status request for the given upload. *)
Definition status_context (uploadId : string) : ChunkedUpload.Context :=
  {| ChunkedUpload.request :=
       {| url := "https://tgbed.example/api/chunked-upload/init?uploadId=" +:+ uploadId;
          headers_get := λ _, None;
          body_json := Throw (Native JSONSyntax) |};
     ChunkedUpload.env := deployment |}.

(** The identifier the first init draws in a sample world, and the session
    it stores for [init_body 1000 "dropbox"]. *)
Definition first_upload_id : string :=
  Eval vm_compute in ChunkedUpload.next_upload_id (world noon noon_ms (NetFail (Error ""))).

Definition first_session : jsval :=
  ChunkedUpload.session first_upload_id (VStr "a.bin") (VNum 1000)
    (VStr "application/octet-stream") (VNum 20) (VStr "telegram") noon_ms.

(** Options and metadata for an upload. *)
Definition put_options : S3.PutOptions :=
  {| S3.contentType := Some "text/plain";
     S3.metadata := Some [("owner", "me"); ("x-amz-meta-kind", "note")] |}.

(** The answer to a HEAD of an object of 1234 bytes. *)
Definition head_answer : Response :=
  {| Js.status := 200; resp_text := ""; resp_json := None;
     resp_header := λ name, if bool_decide (name = "content-length") then Some "1234"
                            else if bool_decide (name = "etag") then Some "abc"
                            else None |}.

(** A comparison that collates as [localeCompare] does on letters: by
    the letters whatever their case, and lower case before upper case
    where only the case differs. *)
Definition collation_compare (a b : string) : Z :=
  match String.compare (lower_case a) (lower_case b) with
  | Lt => -1
  | Gt => 1
  | Eq => ordinal_compare b a
  end.

(** The sample runtime with that comparison for [localeCompare]. *)
Definition platform_collating : Platform := {|
  TextEncoder_encode := String.list_byte_of_string;
  SHA256 := checksum;
  HMAC_SHA256 := λ key data, checksum (key ++ Byte.x00 :: data);
  URL_parse := parse_url;
  encodeURIComponent := percent_encode;
  localeCompare := collation_compare;
  toLowerCase := lower_case;
  trim := trim_blanks;
  StringToNumber := λ s, parseInt (Some s);
  ObjectToNumber := λ _, None;
  JSON_stringify := stringify;
  JSON_parse := λ _, None;
  fault_message := @fault_message platform
|}.

(** A world with one empty header object, and the header pairs a request
    to the sample host carries once it is signed at [noon] without a
    body. *)
Definition signing_world : World :=
  holding (world noon noon_ms (NetOk (response 200 "" None))) [[]].

Definition signed_header_pairs : list (string * string) :=
  [("host", "s3.example.com");
   ("x-amz-content-sha256", SigV4.content_hash S3.PNull);
   ("x-amz-date", "20240102T030405Z")].

(** A provider answer that carries one attachment. *)
Definition message_answer : jsval :=
  VObj [("id", VStr "1001"); ("channel_id", VStr "42");
        ("attachments",
         VArr [VObj [("id", VStr "7"); ("filename", VStr "a.png"); ("size", VNum 2);
                     ("url", VStr "https://cdn.discordapp.com/attachments/42/7/a.png");
                     ("content_type", VStr "image/png")]])].

End Sample.

(** * Properties *)

(** ** Sorting *)

Section Sorting.
Import Js.
Context {A : Type} (cmp : A → A → Z).

Lemma sort_insert_perm (x : A) (l : list A) : sort_insert cmp x l ≡ₚ x :: l.
Proof.
  induction l as [|y l IH]; simpl; [done|].
  destruct (cmp x y <=? 0); [done|].
  rewrite IH. apply Permutation_swap.
Qed.

Lemma sort_perm (l : list A) : sort cmp l ≡ₚ l.
Proof.
  induction l as [|x l IH]; simpl; [done|].
  rewrite sort_insert_perm. by rewrite IH.
Qed.

Hypothesis total : ∀ a b, cmp a b <= 0 ∨ cmp b a <= 0.
Hypothesis trans : ∀ a b c, cmp a b <= 0 → cmp b c <= 0 → cmp a c <= 0.

Lemma sort_insert_sorted (x : A) (l : list A) :
  StronglySorted (λ a b, cmp a b <= 0) l →
  StronglySorted (λ a b, cmp a b <= 0) (sort_insert cmp x l).
Proof.
  induction 1 as [|y l Hs IH Hall]; simpl.
  - repeat constructor.
  - destruct (Z.leb_spec (cmp x y) 0) as [Hle|Hgt].
    + constructor; [by constructor|].
      constructor; [done|].
      eapply Forall_impl; [exact Hall|]. intros z Hz. by eapply trans.
    + constructor; [done|].
      rewrite sort_insert_perm. constructor; [|done].
      destruct (total x y); [lia|done].
Qed.

Lemma sort_sorted (l : list A) : StronglySorted (λ a b, cmp a b <= 0) (sort cmp l).
Proof.
  induction l as [|x l IH]; simpl; [constructor|].
  by apply sort_insert_sorted.
Qed.

End Sorting.

(** ** Header objects *)

Section Objects.
Import Js.

Lemma index_entries_filter (o : JsObject) :
  snd <$> index_entries o = filter (λ kv, array_index kv.1 ≠ None) o.
Proof.
  unfold index_entries. induction o as [|[k v] o IH]; [done|].
  cbn [omap list_omap]. rewrite filter_cons. simpl.
  destruct (array_index k) eqn:E; simpl; [f_equal|]; exact IH.
Qed.

(** [Object.entries] lists every own property once. *)
Lemma Object_entries_perm (o : JsObject) : Object_entries o ≡ₚ o.
Proof.
  unfold Object_entries.
  rewrite sort_perm, index_entries_filter.
  induction o as [|[k v] o IH]; [done|].
  rewrite !filter_cons. simpl.
  destruct (decide (array_index k ≠ None)) as [Hi|Hn].
  - rewrite decide_False by done. simpl. by rewrite IH.
  - rewrite decide_True by (by destruct (array_index k); [destruct Hn|]).
    rewrite <- Permutation_middle. by rewrite IH.
Qed.

Lemma obj_get_set_eq (k v : string) (o : JsObject) :
  obj_get k (obj_set k v o) = Some v.
Proof.
  induction o as [|[k' v'] o IH]; simpl.
  - by rewrite decide_True.
  - destruct (decide (k' = k)) as [->|Hne]; simpl.
    + by rewrite decide_True.
    + by rewrite decide_False.
Qed.

Lemma obj_get_set_ne (k k' v : string) (o : JsObject) :
  k ≠ k' → obj_get k' (obj_set k v o) = obj_get k' o.
Proof.
  intros Hne. induction o as [|[k0 v0] o IH]; simpl.
  - by rewrite decide_False.
  - destruct (decide (k0 = k)) as [->|Hne0]; simpl.
    + by rewrite !decide_False.
    + destruct (decide (k0 = k')); [done|exact IH].
Qed.

End Objects.

(** ** The request signer *)

Section Signer.
Import Js S3 Signed.
Context `{Platform}.

Lemma sgn_opposite (x y : Z) :
  Z.sgn y = - Z.sgn x → (x < 0 ↔ 0 < y) ∧ (x = 0 ↔ y = 0) ∧ (0 < x ↔ y < 0).
Proof. destruct x, y; simpl; lia. Qed.

Lemma StronglySorted_weaken {A : Type} (R R' : A → A → Prop) (l : list A) :
  (∀ a b, R a b → R' a b) → StronglySorted R l → StronglySorted R' l.
Proof.
  intros HR. induction 1 as [|x l Hs IH Hall]; constructor; [done|].
  eapply Forall_impl; [exact Hall|]. auto.
Qed.

Lemma compare_pairs_le (a b : string * string) :
  compare_pairs a b <= 0 ↔ pair_le a b.
Proof.
  unfold compare_pairs, pair_le.
  destruct (Z.eqb_spec (localeCompare a.1 b.1) 0); lia.
Qed.

Section Comparator.
Hypothesis consistent : Consistent localeCompare.

Lemma locale_total (a b : string) : localeCompare a b <= 0 ∨ localeCompare b a <= 0.
Proof.
  destruct (sgn_opposite _ _ (cmp_antisym _ consistent a b)) as (? & ? & ?). lia.
Qed.

Lemma compare_names_total (a b : string * string) :
  compare_names a b <= 0 ∨ compare_names b a <= 0.
Proof. apply locale_total. Qed.

Lemma compare_names_trans (a b c : string * string) :
  compare_names a b <= 0 → compare_names b c <= 0 → compare_names a c <= 0.
Proof. apply (cmp_trans _ consistent). Qed.

Lemma compare_pairs_total (a b : string * string) :
  compare_pairs a b <= 0 ∨ compare_pairs b a <= 0.
Proof.
  rewrite !compare_pairs_le. unfold pair_le.
  destruct (sgn_opposite _ _ (cmp_antisym _ consistent a.1 b.1)) as (? & ? & ?).
  destruct (locale_total a.2 b.2); lia.
Qed.

Lemma compare_pairs_trans (a b c : string * string) :
  compare_pairs a b <= 0 → compare_pairs b c <= 0 → compare_pairs a c <= 0.
Proof.
  rewrite !compare_pairs_le. unfold pair_le. intros Hab Hbc.
  pose proof (cmp_trans _ consistent) as T.
  destruct (sgn_opposite _ _ (cmp_antisym _ consistent a.1 b.1)) as (? & ? & ?).
  destruct (sgn_opposite _ _ (cmp_antisym _ consistent b.1 c.1)) as (? & ? & ?).
  destruct (sgn_opposite _ _ (cmp_antisym _ consistent a.1 c.1)) as (? & ? & ?).
  assert (localeCompare a.1 c.1 <= 0) as Hac by (apply (T _ b.1); lia).
  destruct (Z.eq_dec (localeCompare a.1 c.1) 0) as [Hz|Hnz]; [|lia].
  (* equal first components at the ends force equality in the middle *)
  assert (localeCompare b.1 a.1 <= 0) by (apply (T _ c.1); lia).
  assert (localeCompare c.1 b.1 <= 0) by (apply (T _ a.1); lia).
  right. split; [done|]. apply (T _ b.2); lia.
Qed.

End Comparator.

Lemma content_hash_eq (body : Payload) :
  (if payload_truthy body
   then sha256Hex (match body with
                   | PArrayBuffer b => Buf b
                   | PUint8Array b => Buf b
                   | PString s => Str s
                   | PNull => Str ""
                   end)
   else sha256Hex (Str "")) = content_hash body.
Proof.
  destruct body as [|s| |]; simpl; try done.
  case_bool_decide as Hs; simpl; [by subst|done].
Qed.

Lemma alter_lookup_insert {A : Type} (f : A → A) (l : list A) (i : nat) (x : A) :
  l !! i = Some x → alter f i l = <[i := f x]> l.
Proof.
  intros Hx. apply list_eq. intros j. destruct (decide (i = j)) as [<-|Hne].
  - rewrite list_lookup_alter_eq, Hx. simpl.
    by rewrite list_lookup_insert_eq by (by eapply lookup_lt_Some).
  - by rewrite list_lookup_alter_ne, list_lookup_insert_ne.
Qed.

Lemma lookup_snoc_length {A : Type} (l : list A) (x : A) :
  (l ++ [x]) !! length l = Some x.
Proof. by apply list_lookup_middle. Qed.

Lemma alter_snoc_length {A : Type} (f : A → A) (l : list A) (x : A) :
  alter f (length l) (l ++ [x]) = l ++ [f x].
Proof. rewrite alter_app_r_alt by lia. by rewrite Nat.sub_diag. Qed.

Lemma insert_snoc_length {A : Type} (l : list A) (x y : A) :
  <[length l := y]> (l ++ [x]) = l ++ [y].
Proof. rewrite insert_app_r_alt by lia. by rewrite Nat.sub_diag. Qed.

(** [signRequest], unfolded once: it throws exactly when the URL does not
    parse, and otherwise returns the reference it was given, having
    replaced the contents [h0] of that object by [signed_contents ... h0]
    and changed nothing else in the world. *)
Lemma signRequest_eq (method url : string) (headers : Ref) (body : Payload)
    (cred : Credentials) (w : World) (h0 : JsObject) :
  heap w !! headers = Some h0 →
  signRequest method url headers body cred w =
  match URL_parse url with
  | None => (Throw (Native (InvalidURL url)), w)
  | Some u =>
      (Return headers,
       with_heap w (<[headers := signed_contents method u (clock_iso w) body cred h0]>
                      (heap w)))
  end.
Proof.
  intros Hh.
  unfold signRequest, new_URL, mbind, M_bind, mret, M_ret, throw.
  destruct (URL_parse url) as [u|]; [|done].
  unfold Date_toISOString, obj_assign, deref, contents, with_heap. cbv zeta.
  cbn [heap clock_iso clock_ms kv_data kv_fault net sent entropy entropy_pos fst snd].
  rewrite content_hash_eq.
  rewrite !list_alter_alter_eq.
  rewrite !list_lookup_alter_eq, Hh.
  rewrite (alter_lookup_insert _ _ _ _ Hh).
  reflexivity.
Qed.

Lemma contents_signed (w : World) (headers : Ref) (h0 h : JsObject) :
  heap w !! headers = Some h0 →
  contents (with_heap w (<[headers := h]> (heap w))) headers = h.
Proof.
  intros Hh. unfold contents. simpl.
  by rewrite list_lookup_insert_eq by (by eapply lookup_lt_Some).
Qed.

(** Only the digits of the date and of the time of day are read off the
    clock. *)
Lemma remove_chars_g_app (cs : list ascii) (a b : string) :
  remove_chars_g cs (a +:+ b) = remove_chars_g cs a +:+ remove_chars_g cs b.
Proof.
  induction a as [|c a IH]; [done|].
  change (String c a +:+ b) with (String c (a +:+ b)). simpl.
  destruct (decide (c ∈ cs)); [done|]. by rewrite IH.
Qed.

Lemma substring_app_l (n m : nat) (a b : string) :
  (n + m ≤ String.length a)%nat →
  String.substring n m (a +:+ b) = String.substring n m a.
Proof.
  revert n m. induction a as [|c a IH]; intros n m Hlen; simpl in Hlen.
  - assert (n = 0%nat) by lia. assert (m = 0%nat) by lia. subst. by destruct b.
  - change (String c a +:+ b) with (String c (a +:+ b)).
    destruct n as [|n]; simpl.
    + destruct m as [|m]; [done|]. f_equal. apply IH. lia.
    + apply IH. lia.
Qed.

Lemma same_second_stamps (iso1 iso2 : string) :
  same_second iso1 iso2 →
  date_stamp iso1 = date_stamp iso2 ∧ amz_date iso1 = amz_date iso2.
Proof.
  intros (p & s1 & s2 & -> & -> & H8 & H15).
  assert (date_stamp (p +:+ s1) = date_stamp (p +:+ s2)) as Hd.
  { unfold date_stamp, substring. simpl.
    rewrite !remove_chars_g_app, !substring_app_l by (simpl; lia). done. }
  split; [done|]. unfold amz_date. rewrite Hd. do 2 f_equal.
  unfold substring. simpl.
  rewrite !remove_chars_g_app, !substring_app_l by (simpl; lia). done.
Qed.

(** C2.  Signing is deterministic: for the same method, URL, headers, body
    and credentials - two invocations that are each given a header object
    with the contents [h0], as every caller in the client does with the
    object it has just made -, at clock readings that are equal or merely
    fall in the same second, leave the same contents in their objects,
    hence byte-identical Authorization values. *)
Theorem signRequest_deterministic (method url : string) (body : Payload)
    (cred : Credentials) (h0 : JsObject) (r1 r2 : Ref) (w1 w2 : World) :
  heap w1 !! r1 = Some h0 →
  heap w2 !! r2 = Some h0 →
  clock_iso w1 = clock_iso w2 ∨ same_second (clock_iso w1) (clock_iso w2) →
  authorization_after (signRequest method url r1 body cred w1)
    = authorization_after (signRequest method url r2 body cred w2)
  ∧ contents (signRequest method url r1 body cred w1).2 r1
    = contents (signRequest method url r2 body cred w2).2 r2.
Proof.
  intros Hh1 Hh2 Hclock.
  assert (date_stamp (clock_iso w1) = date_stamp (clock_iso w2)
          ∧ amz_date (clock_iso w1) = amz_date (clock_iso w2)) as [Hd Ha].
  { destruct Hclock as [->|Hs]; [done|]. by apply same_second_stamps. }
  assert (∀ u, signed_contents method u (clock_iso w1) body cred h0
               = signed_contents method u (clock_iso w2) body cred h0) as Hsame.
  { intros u. unfold signed_contents, required_headers. cbv zeta. by rewrite Hd, Ha. }
  unfold authorization_after.
  rewrite (signRequest_eq _ _ _ _ _ _ _ Hh1), (signRequest_eq _ _ _ _ _ _ _ Hh2).
  destruct (URL_parse url) as [u|]; cbn [fst snd].
  - rewrite (contents_signed _ _ _ _ Hh1), (contents_signed _ _ _ _ Hh2).
    by rewrite Hsame.
  - split; [done|]. unfold contents. by rewrite Hh1, Hh2.
Qed.

(** C10.  The frame of [signRequest]: when the URL parses, the call returns
    the object it was given; in the world it leaves, that object maps
    x-amz-date, x-amz-content-sha256, host and Authorization to the
    computed timestamp, content hash, host and Authorization value, and
    every other name to what the object held under it before (present with
    the same value, or absent); no other object is touched. *)
Theorem signRequest_frame (method url : string) (headers : Ref)
    (body : Payload) (cred : Credentials) (w : World) (u : URL) (h0 : JsObject) :
  URL_parse url = Some u →
  heap w !! headers = Some h0 →
  ∃ w' : World,
    signRequest method url headers body cred w = (Return headers, w')
    ∧ obj_get "x-amz-date" (contents w' headers) = Some (amz_date (clock_iso w))
    ∧ obj_get "x-amz-content-sha256" (contents w' headers) = Some (content_hash body)
    ∧ obj_get "host" (contents w' headers) = Some (host u)
    ∧ is_Some (obj_get "Authorization" (contents w' headers))
    ∧ (∀ k, k ∉ written → obj_get k (contents w' headers) = obj_get k h0)
    ∧ (∀ r, r ≠ headers → heap w' !! r = heap w !! r).
Proof.
  intros Hu Hh. rewrite (signRequest_eq _ _ _ _ _ _ _ Hh), Hu.
  eexists. split; [done|]. rewrite (contents_signed _ _ _ _ Hh).
  unfold signed_contents, required_headers. cbv zeta.
  repeat split.
  - rewrite !obj_get_set_ne by done. apply obj_get_set_eq.
  - rewrite !obj_get_set_ne by done. apply obj_get_set_eq.
  - rewrite !obj_get_set_ne by done. apply obj_get_set_eq.
  - rewrite obj_get_set_eq. by eexists.
  - intros k Hk. unfold written in Hk.
    rewrite !obj_get_set_ne; [done|set_solver..].
  - intros r Hr. simpl. by rewrite list_lookup_insert_ne.
Qed.

End Signer.

(** ** The S3 client *)

Section Client.
Import Js S3 Signed.
Context `{Platform}.

(** Signing a newly made object and going on with it. *)
Lemma sign_fresh_then {A : Type} (method url : string) (o : JsObject) (body : Payload)
    (cred : Credentials) (k : Ref → M A) (w : World) (u : URL) :
  URL_parse url = Some u →
  (fresh ← new_object o; signed ← signRequest method url fresh body cred; k signed) w
  = k (length (heap w))
      (with_heap w (heap w ++ [signed_contents method u (clock_iso w) body cred o])).
Proof.
  intros Hu. unfold mbind, M_bind. unfold new_object.
  rewrite (signRequest_eq _ _ _ _ _ _ o) by apply lookup_snoc_length.
  rewrite Hu. unfold with_heap.
  cbn [heap clock_iso clock_ms kv_data kv_fault net sent entropy entropy_pos].
  by rewrite insert_snoc_length.
Qed.

(** A 206 or a 204 is a success status already: the extra tests in
    [getObject] and [deleteObject] change nothing. *)
Lemma not_ok_and_not (r : Response) (n : Z) :
  200 <= n <= 299 → negb (ok r) && negb (Js.status r =? n) = negb (ok r).
Proof.
  intros Hn. unfold ok.
  destruct (Z.leb_spec 200 (Js.status r)), (Z.leb_spec (Js.status r) 299),
    (Z.eqb_spec (Js.status r) n); simpl; try done; lia.
Qed.

Lemma getObject_eq (this : S3Client) (key : string) (range : option string)
    (w : World) (u : URL) :
  URL_parse (_getUrl this key) = Some u →
  (getObject this key range w).1 =
  match net w {| rq_url := _getUrl this key; rq_method := "GET";
                 rq_headers :=
                   signed_contents "GET" u (clock_iso w) PNull (_getCredentials this)
                     (if truthy_str range then [("range", default "" range)] else []);
                 rq_body := BodyNone |} with
  | NetFail e => Throw e
  | NetOk r =>
      if ok r then Return (Some r)
      else if Js.status r =? 404 then Return None
      else Throw (Error ("S3 GetObject failed (" +:+ Number_toString (Js.status r)
                         +:+ "): " +:+ resp_text r))
  end.
Proof.
  intros Hu. unfold getObject. cbv zeta.
  unfold mbind at 1, M_bind at 1. unfold new_object at 1.
  unfold mbind at 1, M_bind at 1.
  set (w1 := with_heap w (heap w ++ [[]])).
  assert (∃ w2, (if truthy_str range
                 then obj_assign (length (heap w)) "range" (default "" range)
                 else mret ()) w1 = (Return (), w2)
                ∧ heap w2 = heap w ++ [if truthy_str range
                                        then [("range", default "" range)] else []]
                ∧ net w2 = net w ∧ clock_iso w2 = clock_iso w)
    as (w2 & -> & Hh2 & Hn2 & Hc2).
  { destruct (truthy_str range).
    - eexists. split; [done|]. unfold obj_assign, w1. simpl.
      by rewrite alter_snoc_length.
    - by exists w1. }
  unfold mbind at 1, M_bind at 1.
  unfold mbind at 2, M_bind at 2. unfold deref at 1.
  pose proof (sign_fresh_then "GET" (_getUrl this key) (contents w2 (length (heap w)))
                PNull (_getCredentials this) mret w2 u Hu) as Hsign.
  unfold mbind, M_bind in Hsign |- *.
  destruct (new_object (contents w2 (length (heap w))) w2) as [[copy|e] w3] eqn:Hnew;
    [|unfold new_object in Hnew; done].
  destruct (signRequest "GET" (_getUrl this key) copy PNull (_getCredentials this) w3)
    as [[signed|e] w4]; [|done].
  injection Hsign as -> ->.
  unfold deref, contents, with_heap, fetch.
  cbn [heap clock_iso clock_ms kv_data kv_fault net sent entropy entropy_pos fst snd].
  rewrite lookup_snoc_length. simpl.
  rewrite Hh2, lookup_snoc_length, Hn2, Hc2. simpl.
  destruct (net w _) as [e|r]; [done|].
  simpl. rewrite not_ok_and_not by lia.
  destruct (ok r); simpl; [done|]. by destruct (Js.status r =? 404).
Qed.

Lemma headObject_eq (this : S3Client) (key : string) (w : World) (u : URL) :
  URL_parse (_getUrl this key) = Some u →
  (headObject this key w).1 =
  match net w {| rq_url := _getUrl this key; rq_method := "HEAD";
                 rq_headers :=
                   signed_contents "HEAD" u (clock_iso w) PNull (_getCredentials this) [];
                 rq_body := BodyNone |} with
  | NetFail e => Throw e
  | NetOk r =>
      if ok r
      then Return (Some {| contentLength :=
                             parseInt (or_str (resp_header r "content-length") (Some "0"));
                           head_contentType := resp_header r "content-type";
                           etag := resp_header r "etag";
                           lastModified := resp_header r "last-modified" |})
      else if Js.status r =? 404 then Return None
      else Throw (Error ("S3 HeadObject failed (" +:+ Number_toString (Js.status r)
                         +:+ ")"))
  end.
Proof.
  intros Hu. unfold headObject. cbv zeta.
  rewrite (sign_fresh_then _ _ _ _ _ _ _ _ Hu).
  unfold mbind, M_bind, deref, contents, with_heap, fetch.
  cbn [heap clock_iso clock_ms kv_data kv_fault net sent entropy entropy_pos fst snd].
  rewrite lookup_snoc_length. simpl.
  destruct (net w _) as [e|r]; [done|].
  simpl. destruct (ok r); simpl; [done|]. by destruct (Js.status r =? 404).
Qed.

Lemma deleteObject_eq (this : S3Client) (key : string) (w : World) (u : URL) :
  URL_parse (_getUrl this key) = Some u →
  (deleteObject this key w).1 =
  match net w {| rq_url := _getUrl this key; rq_method := "DELETE";
                 rq_headers :=
                   signed_contents "DELETE" u (clock_iso w) PNull (_getCredentials this) [];
                 rq_body := BodyNone |} with
  | NetFail e => Throw e
  | NetOk r =>
      if ok r then Return true
      else Throw (Error ("S3 DeleteObject failed (" +:+ Number_toString (Js.status r)
                         +:+ "): " +:+ resp_text r))
  end.
Proof.
  intros Hu. unfold deleteObject. cbv zeta.
  rewrite (sign_fresh_then _ _ _ _ _ _ _ _ Hu).
  unfold mbind, M_bind, deref, contents, with_heap, fetch.
  cbn [heap clock_iso clock_ms kv_data kv_fault net sent entropy entropy_pos fst snd].
  rewrite lookup_snoc_length. simpl.
  destruct (net w _) as [e|r]; [done|].
  simpl. rewrite not_ok_and_not by lia. by destruct (ok r).
Qed.

Lemma string_app_nil_r (a : string) : a +:+ "" = a.
Proof.
  induction a as [|x a IH]; [done|].
  change (String x (a +:+ "") = String x a). by rewrite IH.
Qed.

(** C5.  [getObject] and [headObject] return null when the provider
    answers 404 and throw an Error for every other status that is not a
    success.  The provider answers [r] to the signed GET and [r'] to the
    signed HEAD, and a HEAD answer has no body: its text is empty.  The
    Error of [getObject] reads "S3 GetObject failed (status): text" and the
    Error of [headObject] "S3 HeadObject failed (status)"; either message
    names the status and ends with the text the provider sent, which for
    HEAD is the empty text.  Null is returned for 404 and for nothing
    else. *)
Theorem s3_get_head_outcomes (this : S3Client) (key : string) (range : option string)
    (w w' : World) (u : URL) (r r' : Response) :
  URL_parse (_getUrl this key) = Some u →
  (∀ rq, rq_url rq = _getUrl this key → net w rq = NetOk r) →
  (∀ rq, rq_url rq = _getUrl this key → net w' rq = NetOk r') →
  resp_text r' = "" →
  (getObject this key range w).1 =
    (if ok r then Return (Some r)
     else if Js.status r =? 404 then Return None
     else Throw (Error ("S3 GetObject failed (" +:+ Number_toString (Js.status r)
                        +:+ "): " +:+ resp_text r)))
  ∧ (headObject this key w').1 =
    (if ok r'
     then Return (Some {| contentLength :=
                            parseInt (or_str (resp_header r' "content-length") (Some "0"));
                          head_contentType := resp_header r' "content-type";
                          etag := resp_header r' "etag";
                          lastModified := resp_header r' "last-modified" |})
     else if Js.status r' =? 404 then Return None
     else Throw (Error ("S3 HeadObject failed (" +:+ Number_toString (Js.status r')
                        +:+ ")" +:+ resp_text r')))
  ∧ ((getObject this key range w).1 = Return None ↔ Js.status r = 404)
  ∧ ((headObject this key w').1 = Return None ↔ Js.status r' = 404).
Proof.
  intros Hu Hnet Hnet' Hbody.
  rewrite (getObject_eq _ _ _ _ _ Hu), (headObject_eq _ _ _ _ Hu).
  rewrite Hnet, Hnet' by done. rewrite Hbody.
  rewrite !string_app_nil_r. unfold ok.
  repeat split.
  - destruct (Z.leb_spec 200 (Js.status r)), (Z.leb_spec (Js.status r) 299);
      simpl; try done;
      destruct (Z.eqb_spec (Js.status r) 404); done.
  - intros ->. done.
  - destruct (Z.leb_spec 200 (Js.status r')), (Z.leb_spec (Js.status r') 299);
      simpl; try done;
      destruct (Z.eqb_spec (Js.status r') 404); done.
  - intros ->. done.
Qed.

End Client.

(** ** Deleting and uploading through the adapters *)

Section Adapters.
Import Js.
Context `{Platform}.

Lemma deleteDiscordMessage_eq (channelId messageId : string) (env : Env) (w : World) :
  (Discord.deleteDiscordMessage channelId messageId env w).1 =
  Return (if truthy_str (DISCORD_BOT_TOKEN env)
          then match net w (Discord.delete_request channelId messageId
                              (default "" (DISCORD_BOT_TOKEN env))) with
               | NetOk r => ok r || (Js.status r =? 204)
               | NetFail _ => false
               end
          else false).
Proof.
  unfold Discord.deleteDiscordMessage, Discord.delete_request.
  destruct (truthy_str (DISCORD_BOT_TOKEN env)); simpl; [|done].
  unfold try_catch, mbind, M_bind, fetch.
  by destruct (net w _).
Qed.

Lemma deleteHuggingFaceFile_eq (pathInRepo : string) (env : Env) (w : World) :
  (HuggingFace.deleteHuggingFaceFile pathInRepo env w).1 =
  Return (if truthy_str (HF_TOKEN env) && truthy_str (HF_REPO env)
          then match net w (HuggingFace.commit_delete_request pathInRepo
                              (default "" (HF_TOKEN env)) (default "" (HF_REPO env))) with
               | NetOk r => ok r
               | NetFail _ => false
               end
          else false).
Proof.
  unfold HuggingFace.deleteHuggingFaceFile, HuggingFace.commit_delete_request.
  destruct (truthy_str (HF_TOKEN env)), (truthy_str (HF_REPO env)); simpl; try done.
  unfold try_catch, mbind, M_bind, fetch.
  by destruct (net w _).
Qed.

(** C6, as amended.  [deleteDiscordMessage] and [deleteHuggingFaceFile]
    return a boolean and never throw: false when the credentials are
    missing, when the request fails in transit and when the status is not a
    success.  [S3Client.deleteObject] returns true on a success status and
    throws otherwise: the transport failure itself, or an Error carrying
    the status and the provider's text. *)
Theorem delete_outcomes (this : S3.S3Client) (key channelId messageId pathInRepo : string)
    (env : Env) (w : World) :
  (Discord.deleteDiscordMessage channelId messageId env w).1 =
    Return (if truthy_str (DISCORD_BOT_TOKEN env)
            then match net w (Discord.delete_request channelId messageId
                                (default "" (DISCORD_BOT_TOKEN env))) with
                 | NetOk r => ok r || (Js.status r =? 204)
                 | NetFail _ => false
                 end
            else false)
  ∧ (HuggingFace.deleteHuggingFaceFile pathInRepo env w).1 =
    Return (if truthy_str (HF_TOKEN env) && truthy_str (HF_REPO env)
            then match net w (HuggingFace.commit_delete_request pathInRepo
                                (default "" (HF_TOKEN env)) (default "" (HF_REPO env))) with
                 | NetOk r => ok r
                 | NetFail _ => false
                 end
            else false)
  ∧ ∀ u, URL_parse (S3._getUrl this key) = Some u →
      ∃ rq, rq_url rq = S3._getUrl this key ∧ rq_method rq = "DELETE"
        ∧ (S3.deleteObject this key w).1 =
          match net w rq with
          | NetFail e => Throw e
          | NetOk r =>
              if ok r then Return true
              else Throw (Error ("S3 DeleteObject failed ("
                                 +:+ Number_toString (Js.status r)
                                 +:+ "): " +:+ resp_text r))
          end.
Proof.
  split; [apply deleteDiscordMessage_eq|].
  split; [apply deleteHuggingFaceFile_eq|].
  intros u Hu. eexists. split; [|split; [|by apply deleteObject_eq]]; done.
Qed.

(** Reading the provider's answer does not touch the world. *)
Lemma read_upload_response_world (response : Response) (w : World) :
  (Discord.read_upload_response response w).2 = w.
Proof.
  unfold Discord.read_upload_response, catch_default, try_catch, json, lift,
    mbind, M_bind, mret, M_ret, throw.
  repeat (case_match; simplify_eq/=; try done).
Qed.

Lemma uploadViaWebhook_sent (fileBuffer : list Byte.byte)
    (filename contentType webhookUrl : string) (w : World) :
  sent (Discord.uploadViaWebhook fileBuffer filename contentType webhookUrl w).2
  = sent w ++ [Discord.webhook_request fileBuffer filename contentType webhookUrl]
  ∧ ∃ result,
      (Discord.uploadViaWebhook fileBuffer filename contentType webhookUrl w).1
      = Return result.
Proof.
  unfold Discord.uploadViaWebhook, Discord.webhook_request, try_catch, mbind, M_bind, fetch.
  cbv zeta.
  destruct (net w _) as [e|r]; simpl; [by eauto|].
  match goal with
  | |- context [Discord.read_upload_response r ?w'] =>
      pose proof (read_upload_response_world r w') as Hw;
      destruct (Discord.read_upload_response r w') as [[res|e] w'']
  end; simpl in *; subst; simpl; eauto.
Qed.

(** C7.  With a webhook URL configured, [uploadToDiscord] is
    [uploadViaWebhook]: whatever else is configured and whatever the
    webhook answers, the call issues exactly one request, the webhook
    request, and resolves to the webhook path's result - a failure result
    included - without a request to the bot endpoint. *)
Theorem uploadToDiscord_webhook_exclusive (fileBuffer : list Byte.byte)
    (filename contentType : string) (env : Env) (w : World) (hook : string) :
  DISCORD_WEBHOOK_URL env = Some hook → hook ≠ "" →
  Discord.uploadToDiscord fileBuffer filename contentType env w
    = Discord.uploadViaWebhook fileBuffer filename contentType hook w
  ∧ sent (Discord.uploadToDiscord fileBuffer filename contentType env w).2
    = sent w ++ [Discord.webhook_request fileBuffer filename contentType hook]
  ∧ ∃ result,
      (Discord.uploadToDiscord fileBuffer filename contentType env w).1 = Return result.
Proof.
  intros Hhook Hne.
  assert (Discord.uploadToDiscord fileBuffer filename contentType env w
          = Discord.uploadViaWebhook fileBuffer filename contentType hook w) as ->.
  { unfold Discord.uploadToDiscord. rewrite Hhook. simpl.
    by rewrite bool_decide_eq_false_2. }
  split; [done|]. apply uploadViaWebhook_sent.
Qed.

End Adapters.

(** ** Numbers and their decimal text *)

Section Numbers.
Import Js.

Lemma is_digit_pretty_char (d : N) : is_digit (pretty_N_char d) = true.
Proof. unfold pretty_N_char. by repeat case_match. Qed.

Lemma digit_of_pretty_char (d : N) :
  (d < 10)%N → digit_of 10 (pretty_N_char d) = Some (Z.of_N d).
Proof.
  intros Hd.
  assert (d = 0 ∨ d = 1 ∨ d = 2 ∨ d = 3 ∨ d = 4 ∨ d = 5 ∨ d = 6 ∨ d = 7
          ∨ d = 8 ∨ d = 9)%N as Hcases by lia.
  repeat (destruct Hcases as [->|Hcases]; [reflexivity|]). by subst.
Qed.

Lemma is_digit_not_space (a : ascii) : is_digit a = true → Ascii.is_space a = false.
Proof. destruct a as [[] [] [] [] [] [] [] []]; by vm_compute. Qed.

Lemma pretty_N_go_digits (x : N) (s : string) :
  all_digits s = true → all_digits (pretty_N_go x s) = true.
Proof.
  revert s. induction (N.lt_wf_0 x) as [x _ IH]; intros s Hs.
  destruct (decide (x = 0)%N) as [->|Hx]; [by rewrite pretty_N_go_0|].
  rewrite pretty_N_go_step by lia.
  apply IH; [apply N.div_lt; lia|].
  simpl. by rewrite is_digit_pretty_char.
Qed.

Lemma digit_prefix_pretty (x : N) (s : string) (acc : option Z) :
  ∃ k : Z, 0 <= k ∧
    digit_prefix 10 (pretty_N_go x s) acc
    = digit_prefix 10 s (if (x =? 0)%N then acc
                         else Some (default 0 acc * 10 ^ k + Z.of_N x)).
Proof.
  revert s acc. induction (N.lt_wf_0 x) as [x _ IH]; intros s acc.
  destruct (N.eqb_spec x 0) as [->|Hx].
  { exists 0. by rewrite pretty_N_go_0. }
  rewrite pretty_N_go_step by lia.
  destruct (IH (x `div` 10)%N) with (s := String (pretty_N_char (x `mod` 10)) s)
    (acc := acc) as (k & Hk & ->); [apply N.div_lt; lia|].
  cbn [digit_prefix]. rewrite digit_of_pretty_char by (apply N.mod_lt; lia).
  pose proof (N.div_mod x 10 ltac:(lia)) as Hdm.
  destruct (N.eqb_spec (x `div` 10) 0) as [Hz|Hnz].
  - exists 1. split; [lia|]. do 2 f_equal. rewrite Hz in Hdm. lia.
  - exists (k + 1). split; [lia|]. do 2 f_equal. simpl.
    rewrite Z.pow_add_r by lia. lia.
Qed.

Lemma parse_unsigned_digits (s : string) :
  all_digits s = true → parse_unsigned s = digit_prefix 10 s None.
Proof.
  destruct s as [|a [|b rest]]; [done..|].
  intros (_ & (Hb & _)%andb_prop)%andb_prop. unfold parse_unsigned.
  case_bool_decide; simpl; [|done].
  repeat case_bool_decide; subst; simpl; done.
Qed.

Lemma parseInt_digits (a : ascii) (rest : string) :
  all_digits (String a rest) = true →
  parseInt (Some (String a rest)) = digit_prefix 10 (String a rest) None.
Proof.
  intros Hd. apply andb_prop in Hd as Hd'. destruct Hd' as [Ha _].
  unfold parseInt. cbn [skip_blanks]. rewrite is_digit_not_space by done.
  rewrite !bool_decide_eq_false_2 by (by intros ->).
  by apply parse_unsigned_digits.
Qed.

(** [parseInt(String(n))] is [n]. *)
Lemma parseInt_Number_toString (z : Z) :
  parseInt (Some (Number_toString z)) = Some z.
Proof.
  assert (∀ p : positive,
            all_digits (pretty_N_go (N.pos p) "") = true
            ∧ digit_prefix 10 (pretty_N_go (N.pos p) "") None = Some (Z.pos p)) as Hpos.
  { intros p. split; [by apply pretty_N_go_digits|].
    destruct (digit_prefix_pretty (N.pos p) "" None) as (k & Hk & ->). done. }
  unfold Number_toString, pretty, pretty_Z. destruct z as [|p|p]; [done|..].
  - unfold pretty, pretty_positive, pretty, pretty_N.
    rewrite decide_False by done.
    destruct (Hpos p) as [Hd Hv].
    destruct (pretty_N_go (N.pos p) "") as [|a rest]; [done|].
    by rewrite parseInt_digits.
  - unfold pretty, pretty_positive, pretty, pretty_N.
    rewrite decide_False by done.
    destruct (Hpos p) as [Hd Hv].
    unfold parseInt.
    change (skip_blanks ("-" +:+ pretty_N_go (N.pos p) ""))
      with (String "-" (pretty_N_go (N.pos p) "")).
    cbv iota beta. rewrite bool_decide_eq_true_2 by done.
    by rewrite parse_unsigned_digits, Hv.
Qed.

Lemma parseInt_or_Number_toString (z : Z) :
  parseInt_or (Some (Number_toString z)) 0 = z.
Proof.
  unfold parseInt_or. rewrite parseInt_Number_toString.
  by destruct (Z.eqb_spec z 0).
Qed.

End Numbers.

(** ** Guest admission *)

Section GuestQuota.
Import Js Guest.
Context `{Platform}.

Lemma checkGuestUpload_eq (request : HttpRequest) (env : Env) (fileSize : Z) (w : World) :
  checkGuestUpload request env fileSize w =
  (Return
     (let maxSize := parseInt_or (GUEST_MAX_FILE_SIZE env) (5 * 1024 * 1024) in
      let dailyLimit := parseInt_or (GUEST_DAILY_LIMIT env) 10 in
      let counter := guest_counter w (getClientIP request) (today_of w) in
      let pass := {| allowed := true; reason := None; status := None;
                     remaining := None |} in
      if negb (bool_decide (GUEST_UPLOAD env = Some "true"))
      then {| allowed := false; reason := Some "未启用访客上传，请登录后操作";
              status := Some 401; remaining := None |}
      else if maxSize <? fileSize
      then {| allowed := false;
              reason := Some ("访客上传限制：文件大小不能超过 "
                              +:+ toFixed0 maxSize (1024 * 1024) +:+ "MB");
              status := Some 413; remaining := None |}
      else if img_url env
      then match kv_fault w with
           | Some _ => pass
           | None =>
               if dailyLimit <=? counter
               then {| allowed := false;
                       reason := Some ("访客每日上传上限 " +:+ Number_toString dailyLimit
                                       +:+ " 次，今日已用完");
                       status := Some 429; remaining := Some 0 |}
               else {| allowed := true; reason := None; status := None;
                       remaining := Some (dailyLimit - counter) |}
           end
      else pass), w).
Proof.
  unfold checkGuestUpload. cbv zeta.
  destruct (negb (bool_decide (GUEST_UPLOAD env = Some "true"))); [done|].
  destruct (_ <? fileSize); [done|].
  unfold getTodayKey, Date_toISOString, mbind, M_bind, mret, M_ret. simpl.
  destruct (img_url env); [|done].
  unfold try_catch, kv_get, guest_counter, today_of.
  destruct (kv_fault w); [done|].
  by destruct (_ <=? _).
Qed.

Lemma incrementGuestCount_world (request : HttpRequest) (env : Env) (w : World) :
  (incrementGuestCount request env w).2 =
  if img_url env && bool_decide (GUEST_UPLOAD env = Some "true")
  then match kv_fault w with
       | Some _ => w
       | None =>
           with_kv w
             (<[guest_key (getClientIP request) (today_of w) :=
                  {| kv_value :=
                       Number_toString
                         (guest_counter w (getClientIP request) (today_of w) + 1);
                     kv_ttl := Some 86400; kv_written := clock_ms w |}]> (kv_data w))
       end
  else w.
Proof.
  unfold incrementGuestCount.
  destruct (img_url env), (bool_decide (GUEST_UPLOAD env = Some "true")); simpl; try done.
  unfold getTodayKey, Date_toISOString, try_catch, kv_get, kv_put,
    mbind, M_bind, mret, M_ret. simpl.
  destruct (kv_fault w) eqn:E; simpl; [done|]. by rewrite E.
Qed.

Lemma kv_lookup_put_eq (w : World) (k v : string) (ttl : Z) :
  0 < ttl →
  kv_lookup (with_kv w (<[k := {| kv_value := v; kv_ttl := Some ttl;
                                  kv_written := clock_ms w |}]> (kv_data w))) k = Some v.
Proof.
  intros Httl. unfold kv_lookup, kv_live. simpl. rewrite lookup_insert_eq. simpl.
  destruct (Z.ltb_spec (clock_ms w) (clock_ms w + ttl * 1000)); [done|lia].
Qed.

Lemma kv_lookup_put_ne (w : World) (k k' : string) (e : KVEntry) :
  k ≠ k' → kv_lookup (with_kv w (<[k := e]> (kv_data w))) k' = kv_lookup w k'.
Proof.
  intros Hne. unfold kv_lookup, kv_live. simpl. by rewrite lookup_insert_ne.
Qed.

Section Enabled.
Variables (request : HttpRequest) (env : Env).
Hypothesis enabled : GUEST_UPLOAD env = Some "true".
Hypothesis bound : img_url env = true.

Lemma increment_step (w : World) :
  kv_fault w = None →
  let w' := (incrementGuestCount request env w).2 in
  kv_fault w' = None ∧ clock_iso w' = clock_iso w
  ∧ guest_counter w' (getClientIP request) (today_of w)
    = guest_counter w (getClientIP request) (today_of w) + 1
  ∧ (∃ e, kv_data w' !! guest_key (getClientIP request) (today_of w) = Some e
          ∧ kv_ttl e = Some 86400)
  ∧ ∀ k, k ≠ guest_key (getClientIP request) (today_of w) →
         kv_data w' !! k = kv_data w !! k.
Proof.
  intros Hup. cbv zeta. rewrite incrementGuestCount_world, bound, enabled, Hup.
  rewrite bool_decide_eq_true_2 by done. simpl.
  split; [done|]. split; [done|]. split; [|split].
  - unfold guest_counter at 1. rewrite kv_lookup_put_eq by lia.
    apply parseInt_or_Number_toString.
  - rewrite lookup_insert_eq. eauto.
  - intros k Hk. by rewrite lookup_insert_ne.
Qed.

Lemma increments_counter (n : nat) (w : World) :
  kv_fault w = None →
  let w' := increments n request env w in
  kv_fault w' = None ∧ clock_iso w' = clock_iso w
  ∧ guest_counter w' (getClientIP request) (today_of w)
    = guest_counter w (getClientIP request) (today_of w) + Z.of_nat n
  ∧ ∀ k, k ≠ guest_key (getClientIP request) (today_of w) →
         kv_data w' !! k = kv_data w !! k.
Proof.
  intros Hup. induction n as [|n (Hf & Hc & Hn & Hk)].
  - cbv zeta. unfold increments. simpl.
    split; [done|]. split; [done|]. split; [lia|done].
  - cbv zeta in *. unfold increments in *. cbn [Nat.iter].
    set (wn := Nat.iter n _ w) in *.
    destruct (increment_step wn Hf) as (Hf' & Hc' & Hn' & _ & Hk').
    assert (today_of wn = today_of w) as Ht by (unfold today_of; by rewrite Hc).
    rewrite Ht in Hn', Hk'.
    split; [done|]. split; [exact (eq_trans Hc' Hc)|].
    split; [etrans; [exact Hn'|]; rewrite Hn; lia|].
    intros k Hne. etrans; [by apply Hk'|]. by apply Hk.
Qed.

End Enabled.

Lemma string_length_app (a b : string) :
  String.length (a +:+ b) = (String.length a + String.length b)%nat.
Proof.
  induction a as [|c a IH]; [done|].
  change (String c a +:+ b) with (String c (a +:+ b)). simpl. by rewrite IH.
Qed.

Lemma string_app_inv_tail (a b t : string) : a +:+ t = b +:+ t → a = b.
Proof.
  revert b. induction a as [|c a IH]; intros [|d b] Heq; [done|..].
  - apply (f_equal String.length) in Heq.
    rewrite !string_length_app in Heq. simpl in Heq. lia.
  - apply (f_equal String.length) in Heq.
    rewrite !string_length_app in Heq. simpl in Heq. lia.
  - change (String c (a +:+ t) = String d (b +:+ t)) in Heq.
    injection Heq as -> Heq. f_equal. by apply IH.
Qed.

Lemma guest_key_ip_inj (ip ip' today : string) :
  guest_key ip today = guest_key ip' today → ip = ip'.
Proof.
  unfold guest_key. intros Heq. apply (inj (String.app "guest:")) in Heq.
  by apply string_app_inv_tail in Heq.
Qed.

Lemma guest_key_day_inj (ip today today' : string) :
  guest_key ip today = guest_key ip today' → today = today'.
Proof.
  unfold guest_key. intros Heq.
  by do 3 apply (inj (String.app _)) in Heq.
Qed.

Lemma guest_counter_absent (w : World) (ip today : string) :
  kv_data w !! guest_key ip today = None → guest_counter w ip today = 0.
Proof. intros Hk. unfold guest_counter, kv_lookup. by rewrite Hk. Qed.

(** C8, as amended.  The order of the decisions of [checkGuestUpload] -
    401 when guest uploads are off, then 413 when the file exceeds the
    guest cap, then, without a store bound, an allowed result with no
    remaining count, and, with the store bound and answering, 429 with
    nothing remaining when the counter of this client address and UTC day
    has reached the daily limit and otherwise an allowed result with the
    difference remaining - and the effect of [incrementGuestCount] with
    the store bound and answering: it adds one to that same counter,
    written with a 24-hour time-to-live, so that after as many increments
    as the daily limit the next check is refused, while a check from
    another address, or on another day, is allowed with the full quota. *)
Theorem guest_quota (request request' : HttpRequest) (env : Env) (fileSize : Z)
    (w : World) (iso' : string) (ms' : Z) :
  let maxSize := parseInt_or (GUEST_MAX_FILE_SIZE env) (5 * 1024 * 1024) in
  let dailyLimit := parseInt_or (GUEST_DAILY_LIMIT env) 10 in
  let ip := getClientIP request in
  let today := today_of w in
  let counter := guest_counter w ip today in
  let check := λ rq w, (checkGuestUpload rq env fileSize w).1 in
  let full := {| allowed := true; reason := None; status := None;
                 remaining := Some dailyLimit |} in
  (GUEST_UPLOAD env ≠ Some "true" →
     ∃ why, check request w = Return {| allowed := false; reason := Some why;
                                        status := Some 401; remaining := None |})
  ∧ (GUEST_UPLOAD env = Some "true" → maxSize < fileSize →
     ∃ why, check request w = Return {| allowed := false; reason := Some why;
                                        status := Some 413; remaining := None |})
  ∧ (GUEST_UPLOAD env = Some "true" → fileSize <= maxSize → img_url env = false →
     check request w = Return {| allowed := true; reason := None; status := None;
                                 remaining := None |})
  ∧ (GUEST_UPLOAD env = Some "true" → fileSize <= maxSize →
     img_url env = true → kv_fault w = None →
     (dailyLimit <= counter →
        ∃ why, check request w = Return {| allowed := false; reason := Some why;
                                           status := Some 429; remaining := Some 0 |})
     ∧ (counter < dailyLimit →
        check request w = Return {| allowed := true; reason := None; status := None;
                                    remaining := Some (dailyLimit - counter) |})
     ∧ (let w1 := (incrementGuestCount request env w).2 in
        guest_counter w1 ip today = counter + 1
        ∧ ∃ e, kv_data w1 !! guest_key ip today = Some e ∧ kv_ttl e = Some 86400)
     ∧ (kv_data w !! guest_key ip today = None → 0 < dailyLimit →
        let wn := increments (Z.to_nat dailyLimit) request env w in
        (∃ why, check request wn = Return {| allowed := false; reason := Some why;
                                             status := Some 429; remaining := Some 0 |})
        ∧ (getClientIP request' ≠ ip →
           kv_data w !! guest_key (getClientIP request') today = None →
           check request' wn = Return full)
        ∧ (split_first "T" iso' ≠ today →
           kv_data w !! guest_key ip (split_first "T" iso') = None →
           check request (with_clock wn iso' ms') = Return full))).
Proof.
  cbv zeta. split; [|split; [|split]].
  - intros Hoff. rewrite checkGuestUpload_eq. cbv zeta.
    rewrite bool_decide_eq_false_2 by done. simpl. eauto.
  - intros Hon Hbig. rewrite checkGuestUpload_eq. cbv zeta.
    rewrite bool_decide_eq_true_2 by done. simpl.
    destruct (Z.ltb_spec (parseInt_or (GUEST_MAX_FILE_SIZE env) (5 * 1024 * 1024))
                fileSize); [eauto|lia].
  - intros Hon Hsmall Hunbound. rewrite checkGuestUpload_eq. cbv zeta.
    rewrite bool_decide_eq_true_2 by done. simpl.
    destruct (Z.ltb_spec (parseInt_or (GUEST_MAX_FILE_SIZE env) (5 * 1024 * 1024))
                fileSize); [lia|].
    by rewrite Hunbound.
  - intros Hon Hsmall Hbound Hup.
    assert (∀ rq w0, kv_fault w0 = None →
              (checkGuestUpload rq env fileSize w0).1 =
              Return (if parseInt_or (GUEST_DAILY_LIMIT env) 10
                         <=? guest_counter w0 (getClientIP rq) (today_of w0)
                      then {| allowed := false;
                              reason := Some ("访客每日上传上限 "
                                              +:+ Number_toString
                                                    (parseInt_or (GUEST_DAILY_LIMIT env) 10)
                                              +:+ " 次，今日已用完");
                              status := Some 429; remaining := Some 0 |}
                      else {| allowed := true; reason := None; status := None;
                              remaining :=
                                Some (parseInt_or (GUEST_DAILY_LIMIT env) 10
                                      - guest_counter w0 (getClientIP rq) (today_of w0)) |}))
      as Hcheck.
    { intros rq w0 Hup0. rewrite checkGuestUpload_eq. cbv zeta.
      rewrite bool_decide_eq_true_2 by done. simpl.
      destruct (Z.ltb_spec (parseInt_or (GUEST_MAX_FILE_SIZE env) (5 * 1024 * 1024))
                  fileSize); [lia|].
      by rewrite Hbound, Hup0. }
    split; [|split; [|split]].
    + intros Hfull. rewrite Hcheck by done.
      destruct (Z.leb_spec (parseInt_or (GUEST_DAILY_LIMIT env) 10)
                  (guest_counter w (getClientIP request) (today_of w))); [eauto|lia].
    + intros Hroom. rewrite Hcheck by done.
      destruct (Z.leb_spec (parseInt_or (GUEST_DAILY_LIMIT env) 10)
                  (guest_counter w (getClientIP request) (today_of w))); [lia|done].
    + destruct (increment_step request env Hon Hbound w Hup) as (_ & _ & Hn & He & _).
      by split.
    + intros Hfresh Hpos.
      destruct (increments_counter request env Hon Hbound
                  (Z.to_nat (parseInt_or (GUEST_DAILY_LIMIT env) 10)) w Hup)
        as (Hupn & Hclock & Hcount & Hothers).
      set (wn := increments _ request env w) in *.
      assert (today_of wn = today_of w) as Htoday
        by (unfold today_of; by rewrite Hclock).
      rewrite (guest_counter_absent _ _ _ Hfresh) in Hcount.
      split; [|split].
      * rewrite Hcheck by done. rewrite Htoday, Hcount.
        destruct (Z.leb_spec (parseInt_or (GUEST_DAILY_LIMIT env) 10)
                    (0 + Z.of_nat (Z.to_nat (parseInt_or (GUEST_DAILY_LIMIT env) 10))));
          [eauto|lia].
      * intros Hip Hnone. rewrite Hcheck by done. rewrite Htoday.
        rewrite guest_counter_absent.
        2:{ rewrite Hothers; [done|]. intros Heq. by apply guest_key_ip_inj in Heq. }
        destruct (Z.leb_spec (parseInt_or (GUEST_DAILY_LIMIT env) 10) 0); [lia|].
        by rewrite Z.sub_0_r.
      * intros Hday Hnone. rewrite Hcheck by done.
        change (today_of (with_clock wn iso' ms')) with (split_first "T" iso').
        rewrite guest_counter_absent.
        2:{ change (kv_data (with_clock wn iso' ms')) with (kv_data wn).
            rewrite Hothers; [done|]. intros Heq. by apply guest_key_day_inj in Heq. }
        destruct (Z.leb_spec (parseInt_or (GUEST_DAILY_LIMIT env) 10) 0); [lia|].
        by rewrite Z.sub_0_r.
Qed.

End GuestQuota.

(** ** Session initialisation and status *)

Section Init.
Import Js ChunkedUpload.
Context `{Platform}.
Variable isAuthRequired : Env → bool.
Variable checkAuthentication : Context → M bool.

Local Abbreviation admission :=
  (ChunkedUpload.admission isAuthRequired checkAuthentication).
Local Abbreviation onRequestPost :=
  (ChunkedUpload.onRequestPost isAuthRequired checkAuthentication).

Lemma get_prop_defined (k k' : string) (body x : jsval) :
  get_prop k body = Return x → ∃ x', get_prop k' body = Return x'.
Proof. destruct body; simpl; intros; simplify_eq; eauto. Qed.

Lemma admission_refusal (context : Context) (w w1 : World) (r : HttpResponse) :
  admission context w = (Return (Some r), w1) → res_status r = 403.
Proof.
  unfold ChunkedUpload.admission, mbind, M_bind, mret, M_ret.
  destruct (if isAuthRequired _ then _ else _) as [[[|]|e] w0]; [done| |done].
  simpl. rewrite checkGuestUpload_eq.
  destruct (negb (Guest.allowed _)); intros; by simplify_eq.
Qed.

(** What [onRequestPost] does once the caller is admitted and the five
    parameters are read off the body. *)
Lemma onRequestPost_validated (context : Context) (w w1 : World)
    (body fileName fileSize fileType totalChunks storageMode : jsval) :
  admission context w = (Return None, w1) →
  body_json (request context) = Return body →
  get_prop "fileName" body = Return fileName →
  get_prop "fileSize" body = Return fileSize →
  get_prop "fileType" body = Return fileType →
  get_prop "totalChunks" body = Return totalChunks →
  get_prop "storageMode" body = Return storageMode →
  onRequestPost context w =
  if falsy fileName || falsy fileSize || falsy totalChunks
  then (Return (respond 400 (VObj [("error", VStr "缺少必要参数")])), w1)
  else if gt_num fileSize MAX_FILE_SIZE
  then (Return (respond 400 (VObj [("error", VStr "文件大小超过限制 (最大 100MB)")])), w1)
  else
    let uploadId := next_upload_id w1 in
    let w2 := with_entropy_pos w1 (entropy_pos w1 + 16)%nat in
    let mode := if includes validModes storageMode then storageMode
                else VStr "telegram" in
    if img_url (env context)
    then match kv_fault w1 with
         | Some e => (Return (respond 500 (VObj [("error", VStr (message e))])), w2)
         | None =>
             (Return (respond 200 (VObj [("success", VBool true);
                                         ("uploadId", VStr uploadId);
                                         ("chunkSize", VNum CHUNK_SIZE)])),
              with_kv w2
                (<["upload:" +:+ uploadId :=
                     {| kv_value :=
                          JSON_stringify
                            (session uploadId fileName fileSize fileType totalChunks
                               mode (clock_ms w1));
                        kv_ttl := Some 3600; kv_written := clock_ms w1 |}]>
                   (kv_data w1)))
         end
    else (Return (respond 500
                    (VObj [("error", VStr (message (Native (NullDeref "put"))))])), w2).
Proof.
  intros Hadm Hbody Hn Hs Ht Hc Hm.
  unfold ChunkedUpload.onRequestPost, try_catch, mbind, M_bind at 1.
  rewrite Hadm. unfold lift, mbind, M_bind, mret, M_ret.
  rewrite Hbody, Hn, Hs, Ht, Hc, Hm.
  destruct (falsy fileName || falsy fileSize || falsy totalChunks); [done|].
  destruct (gt_num fileSize MAX_FILE_SIZE); [done|].
  unfold generateUploadId, getRandomValues, Date_now, img_url_put, kv_put, throw,
    mbind, M_bind, mret, M_ret. cbv zeta.
  destruct (img_url (env context)); [|done].
  simpl. by destruct (kv_fault w1).
Qed.

(** The hexadecimal text of a byte: two characters that determine it. *)
Lemma hex_byte_length (b : Byte.byte) :
  String.length (padStart 2 "0" (toString16 (Byte.to_N b))) = 2%nat.
Proof. destruct b; by vm_compute. Qed.

Lemma hex_byte_value (b : Byte.byte) :
  digit_prefix 16 (padStart 2 "0" (toString16 (Byte.to_N b))) None
  = Some (Z.of_N (Byte.to_N b)).
Proof. destruct b; by vm_compute. Qed.

Lemma hex_byte_inj (b b' : Byte.byte) :
  padStart 2 "0" (toString16 (Byte.to_N b)) = padStart 2 "0" (toString16 (Byte.to_N b')) →
  b = b'.
Proof.
  intros Heq. pose proof (hex_byte_value b) as Hb. rewrite Heq, hex_byte_value in Hb.
  assert (Byte.to_N b = Byte.to_N b') as Hn by (simplify_eq; lia).
  apply (f_equal Byte.of_N) in Hn. rewrite !Byte.of_to_N in Hn. by simplify_eq.
Qed.

Lemma string_app_inj_length (a a' b b' : string) :
  String.length a = String.length a' → a +:+ b = a' +:+ b' → a = a' ∧ b = b'.
Proof.
  revert a'. induction a as [|c a IH]; intros [|c' a'] Hlen Heq; try done.
  change (String c (a +:+ b) = String c' (a' +:+ b')) in Heq.
  injection Heq as -> Heq. simpl in Hlen.
  destruct (IH a') as [-> ->]; [lia|done|done].
Qed.

Lemma join_empty_cons (x : string) (l : list string) :
  join "" (x :: l) = x +:+ join "" l.
Proof.
  destruct l as [|y l]; simpl.
  - induction x as [|c x IH]; [done|].
    change (String c x +:+ "") with (String c (x +:+ "")). by rewrite <- IH.
  - done.
Qed.

Lemma hex_length (bs : list Byte.byte) :
  String.length (join "" ((λ b, padStart 2 "0" (toString16 (Byte.to_N b))) <$> bs))
  = (2 * length bs)%nat.
Proof.
  induction bs as [|b bs IH]; [done|].
  rewrite fmap_cons, join_empty_cons, string_length_app, hex_byte_length, IH.
  simpl. lia.
Qed.

(** Distinct byte strings of one length have distinct hexadecimal text. *)
Lemma hex_inj (bs bs' : list Byte.byte) :
  length bs = length bs' →
  join "" ((λ b, padStart 2 "0" (toString16 (Byte.to_N b))) <$> bs)
  = join "" ((λ b, padStart 2 "0" (toString16 (Byte.to_N b))) <$> bs') →
  bs = bs'.
Proof.
  revert bs'. induction bs as [|b bs IH]; intros [|b' bs'] Hlen Heq; try done.
  rewrite !fmap_cons, !join_empty_cons in Heq.
  apply string_app_inj_length in Heq as [Hb Hrest];
    [|by rewrite !hex_byte_length].
  apply hex_byte_inj in Hb as ->. f_equal. apply IH; [simpl in Hlen; lia|done].
Qed.


(** C4.  When [onRequestPost] answers 200, the caller was admitted and the
    five parameters were read; the storage mode was normalised to a
    member [tag] of the closed set, the supplied mode when it is a member
    and "telegram" otherwise; the upload identifier is the 32-character
    hexadecimal text of the next 16 bytes of the entropy source, which the
    call consumes, and different bytes give a different identifier; the
    store holds, under "upload:" + uploadId with a time-to-live of 3600
    seconds, the session with the normalised mode, no uploaded chunk and
    status "pending"; and the response body is { success, uploadId,
    chunkSize }. *)
Theorem init_success (context : Context) (w : World) (r : HttpResponse) :
  (onRequestPost context w).1 = Return r →
  res_status r = 200 →
  ∃ (w1 : World) (body fileName fileSize fileType totalChunks storageMode : jsval)
    (tag : string),
    admission context w = (Return None, w1)
    ∧ body_json (request context) = Return body
    ∧ get_prop "fileName" body = Return fileName
    ∧ get_prop "fileSize" body = Return fileSize
    ∧ get_prop "fileType" body = Return fileType
    ∧ get_prop "totalChunks" body = Return totalChunks
    ∧ get_prop "storageMode" body = Return storageMode
    ∧ tag ∈ validModes
    ∧ (storageMode = VStr tag
       ∨ (includes validModes storageMode = false ∧ tag = "telegram"))
    ∧ let uploadId := next_upload_id w1 in
      let w' := (onRequestPost context w).2 in
      String.length uploadId = 32%nat
      ∧ entropy_pos w' = (entropy_pos w1 + 16)%nat
      ∧ (∀ w0, next_upload_id w0 = uploadId →
               entropy w0 <$> seq (entropy_pos w0) 16
               = entropy w1 <$> seq (entropy_pos w1) 16)
      ∧ kv_data w' !! ("upload:" +:+ uploadId)
        = Some {| kv_value :=
                    JSON_stringify
                      (session uploadId fileName fileSize fileType totalChunks
                         (VStr tag) (clock_ms w1));
                  kv_ttl := Some 3600; kv_written := clock_ms w1 |}
      ∧ r = respond 200 (VObj [("success", VBool true);
                               ("uploadId", VStr uploadId);
                               ("chunkSize", VNum CHUNK_SIZE)]).
Proof.
  intros Hr Hok.
  destruct (admission context w) as [[[refusal|]|e] w1] eqn:Hadm.
  { (* refused: 403 *)
    apply admission_refusal in Hadm as H403.
    unfold ChunkedUpload.onRequestPost, try_catch, mbind, M_bind in Hr.
    rewrite Hadm in Hr. simpl in Hr. simplify_eq. lia. }
  2:{ unfold ChunkedUpload.onRequestPost, try_catch, mbind, M_bind in Hr.
      rewrite Hadm in Hr. simpl in Hr. by simplify_eq. }
  assert (∀ e', (Return (respond 500 e') : Outcome HttpResponse) = Return r → False)
    as H500 by (intros e' [= <-]; done).
  destruct (body_json (request context)) as [body|e] eqn:Hbody.
  2:{ unfold ChunkedUpload.onRequestPost, try_catch, mbind, M_bind, lift in Hr.
      rewrite Hadm, Hbody in Hr. simpl in Hr. by apply H500 in Hr. }
  destruct (get_prop "fileName" body) as [fileName|e] eqn:Hn.
  2:{ unfold ChunkedUpload.onRequestPost, try_catch, mbind, M_bind, lift in Hr.
      rewrite Hadm, Hbody, Hn in Hr. simpl in Hr. by apply H500 in Hr. }
  destruct (get_prop_defined _ "fileSize" _ _ Hn) as [fileSize Hs].
  destruct (get_prop_defined _ "fileType" _ _ Hn) as [fileType Ht].
  destruct (get_prop_defined _ "totalChunks" _ _ Hn) as [totalChunks Hc].
  destruct (get_prop_defined _ "storageMode" _ _ Hn) as [storageMode Hm].
  pose proof (onRequestPost_validated _ _ _ _ _ _ _ _ _ Hadm Hbody Hn Hs Ht Hc Hm) as Heq.
  rewrite Heq in Hr |- *. clear Heq.
  destruct (falsy fileName || falsy fileSize || falsy totalChunks);
    [simpl in Hr; by simplify_eq|].
  destruct (gt_num fileSize MAX_FILE_SIZE); [simpl in Hr; by simplify_eq|].
  cbv zeta in Hr |- *.
  destruct (img_url (env context)); [|simpl in Hr; by simplify_eq].
  destruct (kv_fault w1); [simpl in Hr; by simplify_eq|].
  simpl in Hr. injection Hr as <-.
  assert (∃ tag, tag ∈ validModes
                 ∧ (if includes validModes storageMode then storageMode
                    else VStr "telegram") = VStr tag
                 ∧ (storageMode = VStr tag
                    ∨ (includes validModes storageMode = false ∧ tag = "telegram")))
    as (tag & Htag & Hmode & Hsupplied).
  { destruct (includes validModes storageMode) eqn:Hin.
    - destruct storageMode; try done. simpl in Hin.
      apply bool_decide_eq_true_1 in Hin. eauto.
    - exists "telegram". split; [set_solver|]. by split; [|right]. }
  exists w1, body, fileName, fileSize, fileType, totalChunks, storageMode, tag.
  repeat (split; [done|]).
  cbn [snd]. split.
  { unfold next_upload_id. by rewrite hex_length, !length_fmap, length_seq. }
  split; [done|]. split.
  { intros w0 Hid. apply hex_inj; [by rewrite !length_fmap, !length_seq|done]. }
  split; [|done].
  simpl. rewrite lookup_insert_eq. by rewrite Hmode.
Qed.

(** C9, as amended.  When the store fails with [e]: the status handler
    answers 500 with the error's message in the body, not 404 - the
    answer it gives when the store works and holds no entry for the
    session - and [checkGuestUpload], past the switch and the size cap,
    allows the upload. *)
Theorem store_failure_policy (context : Context) (w : World) (u : URL)
    (uploadId : string) (e : Exn) (guest : HttpRequest) (fileSize : Z) :
  URL_parse (url (request context)) = Some u →
  fields_get "uploadId" (searchParams u) = Some uploadId → uploadId ≠ "" →
  img_url (env context) = true →
  (kv_fault w = Some e →
     (onRequestGet context w).1
     = Return (respond 500 (VObj [("error", VStr (message e))])))
  ∧ (kv_fault w = None → kv_lookup w ("upload:" +:+ uploadId) = None →
     (onRequestGet context w).1
     = Return (respond 404 (VObj [("error", VStr "上传任务不存在或已过期")])))
  ∧ (kv_fault w = Some e → GUEST_UPLOAD (env context) = Some "true" →
     fileSize <= parseInt_or (GUEST_MAX_FILE_SIZE (env context)) (5 * 1024 * 1024) →
     (Guest.checkGuestUpload guest (env context) fileSize w).1
     = Return {| Guest.allowed := true; Guest.reason := None;
                 Guest.status := None; Guest.remaining := None |}).
Proof.
  intros Hu Hid Hne Hbound.
  assert (truthy_str (Some uploadId) = true) as Htruthy
    by (simpl; by rewrite bool_decide_eq_false_2).
  split; [|split].
  - intros Hfault.
    unfold onRequestGet, new_URL, mbind, M_bind at 1. rewrite Hu. simpl.
    rewrite Hid, Htruthy. simpl.
    unfold try_catch, img_url_get_json, kv_get_json, kv_get, mbind, M_bind.
    by rewrite Hbound, Hfault.
  - intros Hup Habsent.
    unfold onRequestGet, new_URL, mbind, M_bind at 1. rewrite Hu. simpl.
    rewrite Hid, Htruthy. simpl.
    unfold try_catch, img_url_get_json, kv_get_json, kv_get, mbind, M_bind.
    by rewrite Hbound, Hup, Habsent.
  - intros Hfault Hon Hsmall. rewrite checkGuestUpload_eq. cbv zeta.
    rewrite bool_decide_eq_true_2 by done. simpl.
    destruct (Z.ltb_spec (parseInt_or (GUEST_MAX_FILE_SIZE (env context))
                            (5 * 1024 * 1024)) fileSize); [lia|].
    by rewrite Hbound, Hfault.
Qed.

End Init.

(** ** Closed examples on the sample runtime *)

Section Examples.
Import Js S3 Signed Sample.

Lemma ordinal_compare_consistent : Consistent ordinal_compare.
Proof.
  split.
  - intros a b. unfold ordinal_compare. rewrite (String.compare_antisym a b).
    by destruct (String.compare b a).
  - intros a b c. unfold ordinal_compare.
    destruct (String.compare a b) eqn:Hab; [|
      destruct (String.compare b c) eqn:Hbc; [| |lia] |lia].
    + apply String.compare_eq_iff in Hab as ->. done.
    + apply String.compare_eq_iff in Hbc as ->. by rewrite Hab.
    + intros _ _.
      assert (String.le a c) as Hle.
      { etrans; [instantiate (1 := b)|]; unfold String.le, String.leb;
          by rewrite ?Hab, ?Hbc. }
      unfold String.le, String.leb in Hle. by destruct (String.compare a c).
Qed.

(** C2, on two readings of the clock within one second, in worlds that
    differ in their store and in where the header object lives. *)
Lemma signRequest_deterministic_witness :
  authorization_after
    (signRequest "PUT" "https://s3.example.com/bkt/a.txt" 0%nat
       (PString "hello") credentials
       (holding (world "2024-01-02T03:04:05.678Z" noon_ms (NetOk (response 200 "" None)))
          [[("content-type", "text/plain")]]))
  = authorization_after
      (signRequest "PUT" "https://s3.example.com/bkt/a.txt" 1%nat
         (PString "hello") credentials
         (holding (world_down "2024-01-02T03:04:05.999Z" (noon_ms + 321)
                     (NetFail (External "offline")) (External "store down"))
            [[]; [("content-type", "text/plain")]])).
Proof.
  apply (signRequest_deterministic (H := platform) "PUT" "https://s3.example.com/bkt/a.txt"
           (PString "hello") credentials [("content-type", "text/plain")]);
    [reflexivity|reflexivity|].
  right. exists "2024-01-02T03:04:05", ".678Z", ".999Z".
  split; [reflexivity|]. split; [reflexivity|]. split; vm_compute; lia.
Defined.

(** C10, on a header object that already has a host entry in another
    case, beside an object that is left alone. *)
Lemma signRequest_frame_witness :
  ∃ w' : World,
    signRequest "GET" "https://s3.example.com/bkt/a.txt" 1%nat PNull credentials
      (holding (world noon noon_ms (NetOk (response 200 "" None)))
         [[("a", "b")]; [("Host", "other"); ("range", "bytes=0-9")]])
    = (Return 1%nat, w')
    ∧ obj_get "host" (contents w' 1%nat) = Some "s3.example.com"
    ∧ obj_get "Host" (contents w' 1%nat) = Some "other"
    ∧ obj_get "range" (contents w' 1%nat) = Some "bytes=0-9"
    ∧ heap w' !! 0%nat = Some [("a", "b")].
Proof.
  destruct (signRequest_frame (H := platform) "GET" "https://s3.example.com/bkt/a.txt"
              1%nat PNull credentials
              (holding (world noon noon_ms (NetOk (response 200 "" None)))
                 [[("a", "b")]; [("Host", "other"); ("range", "bytes=0-9")]])
              {| host := "s3.example.com"; pathname := "/bkt/a.txt";
                 searchParams := [] |}
              [("Host", "other"); ("range", "bytes=0-9")] eq_refl eq_refl)
    as (w' & Hret & _ & _ & Hhost & _ & Hframe & Hothers).
  exists w'. split; [exact Hret|]. split; [exact Hhost|].
  split; [|split; [|rewrite Hothers; [reflexivity|discriminate]]];
    (rewrite Hframe; [reflexivity|]); unfold written; intros Hin;
    repeat (apply elem_of_cons in Hin as [Heq|Hin]; [discriminate Heq|]);
    by apply elem_of_nil in Hin.
Defined.


(** C4, with a storage mode outside the closed set. *)
Lemma init_success_witness :
  ∃ (w1 : World) (tag : string) (e : KVEntry),
    tag ∈ ChunkedUpload.validModes
    ∧ kv_data (ChunkedUpload.onRequestPost open_door no_check (context 1000 "dropbox")
                 (world noon noon_ms (NetOk (response 200 "" None)))).2
        !! ("upload:" +:+ ChunkedUpload.next_upload_id w1) = Some e
    ∧ kv_ttl e = Some 3600.
Proof.
  destruct (init_success (H := platform) open_door no_check (context 1000 "dropbox")
              (world noon noon_ms (NetOk (response 200 "" None))) _ eq_refl eq_refl)
    as (w1 & body & fileName & fileSize & fileType & totalChunks & storageMode & tag
        & _ & _ & _ & _ & _ & _ & _ & Htag & _ & _ & _ & _ & Hkv & _).
  exists w1, tag. eexists. split; [exact Htag|]. split; [exact Hkv|reflexivity].
Defined.

(** C5, on a 404 answer to both calls, and on a 403 answer: with the
    provider's text to the GET, without a body to the HEAD. *)
Lemma s3_get_head_outcomes_witness :
  ((getObject client "a.txt" None
      (world noon noon_ms (NetOk (response 404 "NoSuchKey" None)))).1 = Return None
   ∧ (headObject client "a.txt"
        (world noon noon_ms (NetOk (response 404 "" None)))).1 = Return None)
  ∧ ((getObject client "a.txt" None
        (world noon noon_ms (NetOk (response 403 "AccessDenied" None)))).1
     = Throw (Error "S3 GetObject failed (403): AccessDenied")
     ∧ (headObject client "a.txt"
          (world noon noon_ms (NetOk (response 403 "" None)))).1
       = Throw (Error "S3 HeadObject failed (403)")).
Proof.
  split.
  - destruct (s3_get_head_outcomes (H := platform) client "a.txt" None
                (world noon noon_ms (NetOk (response 404 "NoSuchKey" None)))
                (world noon noon_ms (NetOk (response 404 "" None)))
                {| host := "s3.example.com"; pathname := "/bkt/a.txt";
                   searchParams := [] |}
                (response 404 "NoSuchKey" None) (response 404 "" None)
                eq_refl (λ _ _, eq_refl) (λ _ _, eq_refl) eq_refl)
      as (Hget & Hhead & _).
    split; [exact Hget|exact Hhead].
  - destruct (s3_get_head_outcomes (H := platform) client "a.txt" None
                (world noon noon_ms (NetOk (response 403 "AccessDenied" None)))
                (world noon noon_ms (NetOk (response 403 "" None)))
                {| host := "s3.example.com"; pathname := "/bkt/a.txt";
                   searchParams := [] |}
                (response 403 "AccessDenied" None) (response 403 "" None)
                eq_refl (λ _ _, eq_refl) (λ _ _, eq_refl) eq_refl)
      as (Hget & Hhead & _).
    split; [exact Hget|exact Hhead].
Defined.

(** C6, on a 204 answer to the S3 delete. *)
Lemma delete_outcomes_witness :
  ∃ rq, rq_url rq = "https://s3.example.com/bkt/a.txt" ∧ rq_method rq = "DELETE"
    ∧ (deleteObject client "a.txt"
         (world noon noon_ms (NetOk (response 204 "" None)))).1 = Return true.
Proof.
  destruct (delete_outcomes (H := platform) client "a.txt" "42" "1001" "uploads/a.png"
              deployment (world noon noon_ms (NetOk (response 204 "" None))))
    as (_ & _ & Hs3).
  destruct (Hs3 {| host := "s3.example.com"; pathname := "/bkt/a.txt";
                   searchParams := [] |} eq_refl) as (rq & Hurl & Hmethod & Hdel).
  exists rq. split; [exact Hurl|]. split; [exact Hmethod|exact Hdel].
Defined.

(** C6, against the claim as stated: on a 403 answer and on a transport
    failure [deleteObject] throws. *)
Lemma deleteObject_throws_on_failure :
  (deleteObject client "a.txt"
     (world noon noon_ms (NetOk (response 403 "AccessDenied" None)))).1
  = Throw (Error "S3 DeleteObject failed (403): AccessDenied")
  ∧ (deleteObject client "a.txt"
       (world noon noon_ms (NetFail (External "connection reset")))).1
    = Throw (External "connection reset").
Proof. split; vm_compute; reflexivity. Qed.

(** C7, with both mechanisms configured and a webhook that answers 500. *)
Lemma uploadToDiscord_webhook_exclusive_witness :
  sent (Discord.uploadToDiscord [Byte.x89; Byte.x50] "a.png" "image/png" deployment
          (world noon noon_ms (NetOk (response 500 "" None)))).2
  = [Discord.webhook_request [Byte.x89; Byte.x50] "a.png" "image/png"
       "https://discord.com/api/webhooks/1/t"]
  ∧ (Discord.uploadToDiscord [Byte.x89; Byte.x50] "a.png" "image/png" deployment
       (world noon noon_ms (NetOk (response 500 "" None)))).1
    = Return (Discord.Failure (VStr "HTTP 500")).
Proof.
  destruct (uploadToDiscord_webhook_exclusive (H := platform) [Byte.x89; Byte.x50]
              "a.png" "image/png" deployment
              (world noon noon_ms (NetOk (response 500 "" None)))
              "https://discord.com/api/webhooks/1/t" eq_refl ltac:(discriminate))
    as (_ & Hsent & _).
  split; [exact Hsent|]. vm_compute. reflexivity.
Defined.

(** C8, with a daily limit of three. *)
Lemma guest_quota_witness :
  (∃ why,
     (Guest.checkGuestUpload (request_from "203.0.113.7" VNull) deployment 1000
        (Guest.increments 3 (request_from "203.0.113.7" VNull) deployment
           (world noon noon_ms (NetOk (response 200 "" None))))).1
     = Return {| Guest.allowed := false; Guest.reason := Some why;
                 Guest.status := Some 429; Guest.remaining := Some 0 |})
  ∧ (Guest.checkGuestUpload (request_from "198.51.100.9" VNull) deployment 1000
       (Guest.increments 3 (request_from "203.0.113.7" VNull) deployment
          (world noon noon_ms (NetOk (response 200 "" None))))).1
    = Return {| Guest.allowed := true; Guest.reason := None;
                Guest.status := None; Guest.remaining := Some 3 |}
  ∧ (Guest.checkGuestUpload (request_from "203.0.113.7" VNull) deployment 1000
       (with_clock
          (Guest.increments 3 (request_from "203.0.113.7" VNull) deployment
             (world noon noon_ms (NetOk (response 200 "" None))))
          "2024-01-03T00:00:01.000Z" (noon_ms + 75355322))).1
    = Return {| Guest.allowed := true; Guest.reason := None;
                Guest.status := None; Guest.remaining := Some 3 |}.
Proof.
  destruct (guest_quota (H := platform) (request_from "203.0.113.7" VNull)
              (request_from "198.51.100.9" VNull) deployment 1000
              (world noon noon_ms (NetOk (response 200 "" None)))
              "2024-01-03T00:00:01.000Z" (noon_ms + 75355322))
    as (_ & _ & _ & Hquota).
  destruct Hquota as (_ & _ & _ & Hscenario);
    [reflexivity|vm_compute; discriminate|reflexivity|reflexivity|].
  destruct Hscenario as (Hrefused & Hother & Hnext);
    [vm_compute; reflexivity|reflexivity|].
  split; [exact Hrefused|]. split.
  - apply Hother; [discriminate|vm_compute; reflexivity].
  - apply Hnext; [discriminate|vm_compute; reflexivity].
Defined.



(** C8, against the claim as stated: on a deployment with guest uploads on
    and no store bound, the check after three increments - the daily limit
    - is still allowed, with no remaining count. *)
Lemma guest_without_store_is_never_limited :
  parseInt_or (GUEST_DAILY_LIMIT deployment_without_store) 10 = 3
  ∧ (Guest.checkGuestUpload (request_from "203.0.113.7" VNull) deployment_without_store 1000
       (Guest.increments 3 (request_from "203.0.113.7" VNull) deployment_without_store
          (world noon noon_ms (NetOk (response 200 "" None))))).1
    = Return {| Guest.allowed := true; Guest.reason := None;
                Guest.status := None; Guest.remaining := None |}.
Proof. split; vm_compute; reflexivity. Qed.

(** C9, with a store that rejects every call. *)
Lemma store_failure_policy_witness :
  (ChunkedUpload.onRequestGet (context 1000 "s3")
     (world_down noon noon_ms (NetOk (response 200 "" None)) (External "store down"))).1
  = Return (ChunkedUpload.respond 500 (VObj [("error", VStr "store down")]))
  ∧ (Guest.checkGuestUpload (request_from "203.0.113.7" VNull) deployment 1000
       (world_down noon noon_ms (NetOk (response 200 "" None)) (External "store down"))).1
    = Return {| Guest.allowed := true; Guest.reason := None;
                Guest.status := None; Guest.remaining := None |}.
Proof.
  destruct (store_failure_policy (H := platform) (context 1000 "s3")
              (world_down noon noon_ms (NetOk (response 200 "" None))
                 (External "store down"))
              {| host := "tgbed.example"; pathname := "/api/chunked-upload/init";
                 searchParams := [("uploadId", "0a1b")] |}
              "0a1b" (External "store down") (request_from "203.0.113.7" VNull) 1000
              eq_refl eq_refl ltac:(discriminate) eq_refl)
    as (Hstatus & _ & Hguest).
  split; [exact (Hstatus eq_refl)|].
  apply Hguest; [reflexivity|reflexivity|vm_compute; discriminate].
Defined.

(** C9, against the claim as stated: with the store failing, the status
    handler answers 500, not 404. *)
Lemma status_store_failure_is_500 :
  ChunkedUpload.status_of
    (ChunkedUpload.onRequestGet (context 1000 "s3")
       (world_down noon noon_ms (NetOk (response 200 "" None)) (External "store down"))).1
  = Some 500.
Proof. vm_compute. reflexivity. Qed.

(** The timestamp and an encoded path on the sample runtime. *)
Example amz_date_noon : amz_date noon = "20240102T030405Z".
Proof. reflexivity. Qed.

Example uriEncode_path :
  uriEncode "/bkt/my key/a(b)*.txt" false = "/bkt/my%20key/a%28b%29%2A.txt".
Proof. reflexivity. Qed.

Example arrayBufferToHex_bytes :
  arrayBufferToHex [Byte.x00; Byte.x0a; Byte.xff] = "000aff".
Proof. reflexivity. Qed.

End Examples.
(** * Further properties of the code

    ** Text helpers of the S3 client *)

Section Characters.
Import Js S3.

Lemma list_ascii_app (a b : string) :
  String.list_ascii_of_string (a +:+ b)
  = String.list_ascii_of_string a ++ String.list_ascii_of_string b.
Proof.
  induction a as [|c a IH]; [done|].
  change (String c a +:+ b) with (String c (a +:+ b)). simpl. by rewrite IH.
Qed.

(** A character of [s.replace(/c/g, r)] comes from [s] and is not [c], or
    comes from [r]. *)
Lemma replace_char_g_chars (c : ascii) (r s : string) (x : ascii) :
  x ∈ String.list_ascii_of_string (replace_char_g c r s) →
  (x ∈ String.list_ascii_of_string s ∧ x ≠ c) ∨ x ∈ String.list_ascii_of_string r.
Proof.
  induction s as [|a s IH]; simpl; [by intros ?%elem_of_nil|].
  destruct (decide (a = c)) as [->|Hne].
  - rewrite list_ascii_app, elem_of_app. intros [Hr|Hs]; [by right|].
    destruct (IH Hs) as [[Hin Hx]|Hr]; [left|by right].
    split; [by apply list_elem_of_further|done].
  - simpl. rewrite elem_of_cons. intros [->|Hs].
    + left. split; [apply list_elem_of_here|done].
    + destruct (IH Hs) as [[Hin Hx]|Hr]; [left|by right].
      split; [by apply list_elem_of_further|done].
Qed.

(** A character of [s.replace(/%2F/g, '/')] comes from [s] or is a
    slash. *)
Lemma replace_pct2F_g_chars (s : string) (x : ascii) :
  x ∈ String.list_ascii_of_string (replace_pct2F_g s) →
  x ∈ String.list_ascii_of_string s ∨ x = "/"%char.
Proof.
  remember (String.length s) as n eqn:Hn. revert s Hn.
  induction n as [n IH] using lt_wf_ind. intros s Hn.
  destruct s as [|a rest]; [by intros ?%elem_of_nil|].
  assert (x ∈ String.list_ascii_of_string (String a (replace_pct2F_g rest)) →
          x ∈ String.list_ascii_of_string (String a rest) ∨ x = "/"%char) as Hkeep.
  { simpl. rewrite !elem_of_cons. intros [->|Hin]; [by left; left|].
    destruct (IH (String.length rest) ltac:(simpl in Hn; lia) rest eq_refl Hin)
      as [Hr| ->]; [left; by right|by right]. }
  cbn [replace_pct2F_g].
  destruct rest as [|b [|c rest']]; [exact Hkeep..|].
  case_bool_decide as Hm; [|exact Hkeep].
  simpl. rewrite !elem_of_cons. intros [->|Hin]; [by right|].
  destruct (IH (String.length rest') ltac:(simpl in Hn; lia) rest' eq_refl Hin)
    as [Hr| ->]; [left; by do 3 right|by right].
Qed.

(** X1.  The output of [uriEncode] never contains one of the characters
    [!], ['], [(], [)] and [*], whatever [encodeURIComponent] leaves of
    them and whether slashes are encoded or not. *)
Theorem uriEncode_escapes_reserved `{Platform} (str : string) (encodeSlash : bool)
    (x : ascii) :
  x ∈ ["!"; "'"; "("; ")"; "*"]%char →
  x ∉ String.list_ascii_of_string (uriEncode str encodeSlash).
Proof.
  intros Hx Hin. unfold uriEncode in Hin. cbv zeta in Hin.
  assert (x ∈ String.list_ascii_of_string
            (replace_char_g "*" "%2A"
               (replace_char_g ")" "%29"
                  (replace_char_g "(" "%28"
                     (replace_char_g "'" "%27"
                        (replace_char_g "!" "%21" (encodeURIComponent str)))))))
    as Hin'.
  { destruct encodeSlash; simpl in Hin; [done|].
    apply replace_pct2F_g_chars in Hin as [Hin| ->]; [done|].
    exfalso. repeat (apply elem_of_cons in Hx as [Hx|Hx]; [discriminate Hx|]).
    by apply elem_of_nil in Hx. }
  clear Hin.
  assert (∀ r : string, x ∈ String.list_ascii_of_string r →
            r ∈ ["%21"; "%27"; "%28"; "%29"; "%2A"] → False) as Hfresh.
  { intros r Hr Hrs.
    repeat (apply elem_of_cons in Hrs as [->|Hrs];
            [simpl in Hr;
             repeat (apply elem_of_cons in Hr as [->|Hr];
                     [repeat (apply elem_of_cons in Hx as [Hx|Hx]; [discriminate Hx|]);
                      by apply elem_of_nil in Hx|]);
             by apply elem_of_nil in Hr|]).
    by apply elem_of_nil in Hrs. }
  apply replace_char_g_chars in Hin' as [[Hin' H5]|Hr];
    [|apply (Hfresh _ Hr); repeat first [apply list_elem_of_here|apply list_elem_of_further]].
  apply replace_char_g_chars in Hin' as [[Hin' H4]|Hr];
    [|apply (Hfresh _ Hr); repeat first [apply list_elem_of_here|apply list_elem_of_further]].
  apply replace_char_g_chars in Hin' as [[Hin' H3]|Hr];
    [|apply (Hfresh _ Hr); repeat first [apply list_elem_of_here|apply list_elem_of_further]].
  apply replace_char_g_chars in Hin' as [[Hin' H2]|Hr];
    [|apply (Hfresh _ Hr); repeat first [apply list_elem_of_here|apply list_elem_of_further]].
  apply replace_char_g_chars in Hin' as [[Hin' H1]|Hr];
    [|apply (Hfresh _ Hr); repeat first [apply list_elem_of_here|apply list_elem_of_further]].
  repeat (apply elem_of_cons in Hx as [->|Hx]; [done|]).
  by apply elem_of_nil in Hx.
Qed.

End Characters.

(** ** Hexadecimal text, endpoints and timestamps *)

Section Text.
Import Js S3 Signed.

Lemma hex_byte_chars (b : Byte.byte) :
  Forall (λ c, c ∈ String.list_ascii_of_string "0123456789abcdef")
    (String.list_ascii_of_string (padStart 2 "0" (toString16 (Byte.to_N b)))).
Proof.
  destruct b; vm_compute;
    repeat (apply Forall_cons; split;
            [repeat first [apply list_elem_of_here|apply list_elem_of_further]|]);
    apply Forall_nil_2.
Qed.

(** X2.  [arrayBufferToHex] writes two lower-case hexadecimal digits for
    every byte, and loses nothing: buffers with the same text are the same
    buffer. *)
Theorem arrayBufferToHex_faithful (buffer buffer' : list Byte.byte) :
  String.length (arrayBufferToHex buffer) = (2 * length buffer)%nat
  ∧ Forall (λ c, c ∈ String.list_ascii_of_string "0123456789abcdef")
      (String.list_ascii_of_string (arrayBufferToHex buffer))
  ∧ (arrayBufferToHex buffer = arrayBufferToHex buffer' → buffer = buffer').
Proof.
  unfold arrayBufferToHex. split; [apply hex_length|]. split.
  - induction buffer as [|b bs IH]; [apply Forall_nil_2|].
    rewrite fmap_cons, join_empty_cons, list_ascii_app.
    apply Forall_app. split; [apply hex_byte_chars|exact IH].
  - intros Heq. apply hex_inj; [|exact Heq].
    apply (f_equal String.length) in Heq. rewrite !hex_length in Heq. lia.
Qed.

Lemma strip_trailing_slash_app (e : string) :
  strip_trailing_slash (e +:+ "/") = e.
Proof.
  induction e as [|c e IH]; [done|].
  change (String c e +:+ "/") with (String c (e +:+ "/")).
  cbn [strip_trailing_slash].
  assert (bool_decide (e +:+ "/" = "") = false) as ->.
  { apply bool_decide_eq_false. by destruct e. }
  rewrite andb_false_r. by rewrite IH.
Qed.

Lemma strip_trailing_slash_id (e : string) :
  (∀ e', e ≠ e' +:+ "/") → strip_trailing_slash e = e.
Proof.
  induction e as [|c e IH]; [done|]. intros Hno.
  cbn [strip_trailing_slash].
  destruct (bool_decide (c = "/"%char) && bool_decide (e = "")) eqn:Hc.
  - apply andb_true_iff in Hc as [->%bool_decide_eq_true ->%bool_decide_eq_true].
    by destruct (Hno "").
  - f_equal. apply IH. intros e' ->. by apply (Hno (String c e')).
Qed.

(** X3.  The constructor drops one trailing slash of the endpoint and no
    more: a client made for the endpoint [e/] addresses its objects at
    [e/bucket/key], and so does a client made for an endpoint [e] that does
    not end in a slash. *)
Theorem constructor_endpoint_slash (e bucket accessKey secret key : string)
    (region : option string) :
  _getUrl (constructor {| cfg_endpoint := e +:+ "/"; cfg_region := region;
                          cfg_bucket := bucket; cfg_accessKeyId := accessKey;
                          cfg_secretAccessKey := secret |}) key
  = e +:+ "/" +:+ bucket +:+ "/" +:+ key
  ∧ ((∀ e', e ≠ e' +:+ "/") →
     _getUrl (constructor {| cfg_endpoint := e; cfg_region := region;
                             cfg_bucket := bucket; cfg_accessKeyId := accessKey;
                             cfg_secretAccessKey := secret |}) key
     = e +:+ "/" +:+ bucket +:+ "/" +:+ key).
Proof.
  unfold _getUrl, constructor. cbn [this_endpoint this_bucket cfg_endpoint cfg_bucket].
  split; [by rewrite strip_trailing_slash_app|].
  intros Hno. by rewrite strip_trailing_slash_id.
Qed.

(** X4.  [createS3Client] throws its configuration error exactly when the
    endpoint, the access key id, the secret key or the bucket is missing or
    empty.  Otherwise it returns a client that signs for the service [s3]
    with the configured keys, in the configured region or, when the region
    is missing or empty, in [us-east-1]. *)
Theorem createS3Client_config (env : Env) :
  (truthy_str (S3_ENDPOINT env) && truthy_str (S3_ACCESS_KEY_ID env)
   && truthy_str (S3_SECRET_ACCESS_KEY env) && truthy_str (S3_BUCKET env) = false →
   createS3Client env
   = Throw (Error "S3 配置不完整，需要 S3_ENDPOINT, S3_ACCESS_KEY_ID, S3_SECRET_ACCESS_KEY, S3_BUCKET"))
  ∧ (truthy_str (S3_ENDPOINT env) && truthy_str (S3_ACCESS_KEY_ID env)
     && truthy_str (S3_SECRET_ACCESS_KEY env) && truthy_str (S3_BUCKET env) = true →
     ∃ (client : S3Client) (accessKey secret bucket : string),
       createS3Client env = Return client
       ∧ S3_ACCESS_KEY_ID env = Some accessKey
       ∧ S3_SECRET_ACCESS_KEY env = Some secret
       ∧ S3_BUCKET env = Some bucket
       ∧ this_bucket client = bucket
       ∧ region (_getCredentials client) ≠ ""
       ∧ _getCredentials client
         = {| accessKeyId := accessKey; secretAccessKey := secret;
              region := if truthy_str (S3_REGION env)
                        then default "" (S3_REGION env) else "us-east-1";
              service := "s3" |}).
Proof.
  unfold createS3Client.
  destruct (truthy_str (S3_ENDPOINT env)) eqn:He,
    (truthy_str (S3_ACCESS_KEY_ID env)) eqn:Ha,
    (truthy_str (S3_SECRET_ACCESS_KEY env)) eqn:Hs,
    (truthy_str (S3_BUCKET env)) eqn:Hb; simpl; split; try done.
  intros _.
  destruct (S3_ACCESS_KEY_ID env) as [accessKey|]; [|done].
  destruct (S3_SECRET_ACCESS_KEY env) as [secret|]; [|done].
  destruct (S3_BUCKET env) as [bucket|]; [|done].
  eexists _, accessKey, secret, bucket. split; [done|].
  do 4 (split; [done|]).
  unfold _getCredentials, constructor, or_str. simpl.
  destruct (S3_REGION env) as [r|]; simpl.
  - destruct (bool_decide (r = "")) eqn:Hr; simpl.
    + by split.
    + rewrite Hr. simpl. split; [|done]. by apply bool_decide_eq_false in Hr.
  - by split.
Qed.

Lemma string_app_assoc (a b c : string) : (a +:+ b) +:+ c = a +:+ (b +:+ c).
Proof.
  induction a as [|x a IH]; [done|].
  change (String x (a +:+ b) +:+ c = String x (a +:+ b +:+ c)).
  change (String x ((a +:+ b) +:+ c) = String x (a +:+ b +:+ c)). by rewrite IH.
Qed.

Lemma string_app_nil_l (a : string) : "" +:+ a = a.
Proof. reflexivity. Qed.

Lemma substring_prefix (a b : string) :
  String.substring 0 (String.length a) (a +:+ b) = a.
Proof.
  induction a as [|x a IH]; [by destruct b|].
  change (String x a +:+ b) with (String x (a +:+ b)). simpl. by rewrite IH.
Qed.

Lemma substring_skip (a b : string) (n m : nat) :
  String.substring (String.length a + n) m (a +:+ b) = String.substring n m b.
Proof.
  induction a as [|x a IH]; [done|].
  change (String x a +:+ b) with (String x (a +:+ b)). simpl. exact IH.
Qed.

Lemma remove_chars_g_digits (cs : list ascii) (s : string) :
  (∀ c, c ∈ cs → is_digit c = false) →
  all_digits s = true → remove_chars_g cs s = s.
Proof.
  intros Hcs. induction s as [|a s IH]; [done|]. simpl.
  intros [Ha Hs]%andb_true_iff.
  destruct (decide (a ∈ cs)) as [Hin|_]; [by rewrite (Hcs a Hin) in Ha|].
  by rewrite IH.
Qed.

(** The date and the timestamp read off a clock text of the usual shape. *)
Lemma stamps_of_iso (Y Mo D h mi s frac : string) :
  String.length Y = 4%nat → String.length Mo = 2%nat → String.length D = 2%nat →
  String.length h = 2%nat → String.length mi = 2%nat → String.length s = 2%nat →
  all_digits Y = true → all_digits Mo = true → all_digits D = true →
  all_digits h = true → all_digits mi = true → all_digits s = true →
  let iso := Y +:+ "-" +:+ Mo +:+ "-" +:+ D +:+ "T" +:+ h +:+ ":" +:+ mi +:+ ":" +:+ s
             +:+ "." +:+ frac +:+ "Z" in
  date_stamp iso = Y +:+ Mo +:+ D
  ∧ amz_date iso = Y +:+ Mo +:+ D +:+ "T" +:+ h +:+ mi +:+ s +:+ "Z".
Proof.
  intros LY LMo LD Lh Lmi Ls HY HMo HD Hh Hmi Hs iso.
  assert (∀ c, c ∈ ["-"; ":"; "."; "T"; "Z"]%char → is_digit c = false) as H5.
  { intros c Hc. repeat (apply elem_of_cons in Hc as [->|Hc]; [done|]).
    by apply elem_of_nil in Hc. }
  assert (∀ c, c ∈ ["-"; ":"; "."; "Z"]%char → is_digit c = false) as H4.
  { intros c Hc. repeat (apply elem_of_cons in Hc as [->|Hc]; [done|]).
    by apply elem_of_nil in Hc. }
  assert (date_stamp iso = Y +:+ Mo +:+ D) as Hd.
  { unfold date_stamp, iso, substring. simpl Nat.min. simpl Nat.max. simpl Nat.sub.
    rewrite !remove_chars_g_app.
    rewrite (remove_chars_g_digits _ Y H5), (remove_chars_g_digits _ Mo H5),
      (remove_chars_g_digits _ D H5), (remove_chars_g_digits _ h H5),
      (remove_chars_g_digits _ mi H5), (remove_chars_g_digits _ s H5) by done.
    change (remove_chars_g ["-"; ":"; "."; "T"; "Z"]%char "-") with "".
    change (remove_chars_g ["-"; ":"; "."; "T"; "Z"]%char "T") with "".
    change (remove_chars_g ["-"; ":"; "."; "T"; "Z"]%char ":") with "".
    change (remove_chars_g ["-"; ":"; "."; "T"; "Z"]%char ".") with "".
    rewrite !string_app_nil_l.
    rewrite <- (string_app_assoc Mo), <- (string_app_assoc Y).
    replace 8%nat with (String.length (Y +:+ Mo +:+ D))
      by (rewrite !string_length_app; lia).
    by rewrite substring_prefix. }
  split; [exact Hd|]. unfold amz_date. rewrite Hd.
  rewrite !string_app_assoc. do 4 f_equal.
  unfold iso, substring. simpl Nat.min. simpl Nat.max. simpl Nat.sub.
  rewrite !remove_chars_g_app.
  rewrite (remove_chars_g_digits _ Y H4), (remove_chars_g_digits _ Mo H4),
    (remove_chars_g_digits _ D H4), (remove_chars_g_digits _ h H4),
    (remove_chars_g_digits _ mi H4), (remove_chars_g_digits _ s H4) by done.
  change (remove_chars_g ["-"; ":"; "."; "Z"]%char "-") with "".
  change (remove_chars_g ["-"; ":"; "."; "Z"]%char "T") with "T".
  change (remove_chars_g ["-"; ":"; "."; "Z"]%char ":") with "".
  change (remove_chars_g ["-"; ":"; "."; "Z"]%char ".") with "".
  rewrite !string_app_nil_l.
  rewrite <- (string_app_assoc D), <- (string_app_assoc Mo), <- (string_app_assoc Y).
  replace 9%nat with (String.length (Y +:+ Mo +:+ D +:+ "T") + 0)%nat
    by (rewrite !string_length_app; simpl; lia).
  rewrite substring_skip.
  rewrite <- (string_app_assoc mi), <- (string_app_assoc h).
  replace 6%nat with (String.length (h +:+ mi +:+ s))
    by (rewrite !string_length_app; lia).
  rewrite substring_prefix. by rewrite !string_app_assoc.
Qed.

(** X5.  On a clock that reads [YYYY-MM-DDThh:mm:ss.fffZ], [signRequest]
    stamps the request with [YYYYMMDDThhmmssZ]: the [x-amz-date] header it
    leaves in the object is the date, a [T], the time of day to the second
    and a [Z]. *)
Theorem signRequest_timestamp_format `{Platform} (method url : string) (headers : Ref)
    (body : Payload) (cred : Credentials) (w : World) (u : URL) (h0 : JsObject)
    (Y Mo D h mi s frac : string) :
  URL_parse url = Some u →
  heap w !! headers = Some h0 →
  clock_iso w = Y +:+ "-" +:+ Mo +:+ "-" +:+ D +:+ "T" +:+ h +:+ ":" +:+ mi +:+ ":" +:+ s
                +:+ "." +:+ frac +:+ "Z" →
  String.length Y = 4%nat ∧ all_digits Y = true →
  String.length Mo = 2%nat ∧ all_digits Mo = true →
  String.length D = 2%nat ∧ all_digits D = true →
  String.length h = 2%nat ∧ all_digits h = true →
  String.length mi = 2%nat ∧ all_digits mi = true →
  String.length s = 2%nat ∧ all_digits s = true →
  obj_get "x-amz-date" (contents (signRequest method url headers body cred w).2 headers)
  = Some (Y +:+ Mo +:+ D +:+ "T" +:+ h +:+ mi +:+ s +:+ "Z").
Proof.
  intros Hu Hh Hiso [LY HY] [LMo HMo] [LD HD] [Lh Hh'] [Lmi Hmi] [Ls Hs].
  rewrite (signRequest_eq _ _ _ _ _ _ _ Hh), Hu. cbn [snd].
  rewrite (contents_signed _ _ _ _ Hh).
  unfold signed_contents, required_headers. cbv zeta.
  rewrite !obj_get_set_ne by done. rewrite obj_get_set_eq.
  rewrite Hiso.
  by destruct (stamps_of_iso Y Mo D h mi s frac LY LMo LD Lh Lmi Ls HY HMo HD Hh' Hmi Hs)
    as [_ ->].
Qed.

End Text.

(** ** The S3 client, request by request *)

Section ClientRuns.
Import Js S3 Signed.
Context `{Platform}.

(** Signing a newly made object when the URL does not parse: the fault of
    [new URL], and the object left as it was made. *)
Lemma sign_fresh_fails {A : Type} (method url : string) (o : JsObject) (body : Payload)
    (cred : Credentials) (k : Ref → M A) (w : World) :
  URL_parse url = None →
  (fresh ← new_object o; signed ← signRequest method url fresh body cred; k signed) w
  = (Throw (Native (InvalidURL url)), with_heap w (heap w ++ [o])).
Proof.
  intros Hu. unfold mbind, M_bind. unfold new_object.
  rewrite (signRequest_eq _ _ _ _ _ _ o) by apply lookup_snoc_length.
  by rewrite Hu.
Qed.

(** What is left of a signed request once it is sent. *)
Lemma send_signed {A : Type} (rq : Request) (k : Response → M A) (w : World) :
  (response ← fetch rq; k response) w
  = match net w rq with
    | NetFail e => (Throw e, with_sent w (sent w ++ [rq]))
    | NetOk r => k r (with_sent w (sent w ++ [rq]))
    end.
Proof. unfold mbind, M_bind, fetch. by destruct (net w rq). Qed.

Lemma headObject_run (this : S3Client) (key : string) (w : World) :
  headObject this key w =
  match URL_parse (_getUrl this key) with
  | None => (Throw (Native (InvalidURL (_getUrl this key))), with_heap w (heap w ++ [[]]))
  | Some u =>
      let rq := {| rq_url := _getUrl this key; rq_method := "HEAD";
                   rq_headers := signed_contents "HEAD" u (clock_iso w) PNull
                                   (_getCredentials this) [];
                   rq_body := BodyNone |} in
      let w' := with_sent (with_heap w (heap w ++ [rq_headers rq])) (sent w ++ [rq]) in
      match net w rq with
      | NetFail e => (Throw e, w')
      | NetOk r =>
          (if ok r
           then Return (Some {| contentLength :=
                                  parseInt (or_str (resp_header r "content-length")
                                              (Some "0"));
                                head_contentType := resp_header r "content-type";
                                etag := resp_header r "etag";
                                lastModified := resp_header r "last-modified" |})
           else if Js.status r =? 404 then Return None
           else Throw (Error ("S3 HeadObject failed (" +:+ Number_toString (Js.status r)
                              +:+ ")")), w')
      end
  end.
Proof.
  unfold headObject. cbv zeta.
  destruct (URL_parse (_getUrl this key)) as [u|] eqn:Hu.
  - rewrite (sign_fresh_then _ _ _ _ _ _ _ _ Hu).
    unfold mbind at 1, M_bind at 1. unfold deref at 1, contents, with_heap.
    cbn [heap clock_iso clock_ms kv_data kv_fault net sent entropy entropy_pos fst snd].
    rewrite lookup_snoc_length. cbn [default from_option].
    rewrite send_signed.
    cbn [heap clock_iso clock_ms kv_data kv_fault net sent entropy entropy_pos fst snd].
    destruct (net w _) as [e|r]; [done|].
    unfold mret, M_ret, throw. destruct (ok r); simpl; [done|].
    by destruct (Js.status r =? 404).
  - by rewrite (sign_fresh_fails _ _ _ _ _ _ _ Hu).
Qed.

Lemma deleteObject_run (this : S3Client) (key : string) (w : World) :
  deleteObject this key w =
  match URL_parse (_getUrl this key) with
  | None => (Throw (Native (InvalidURL (_getUrl this key))), with_heap w (heap w ++ [[]]))
  | Some u =>
      let rq := {| rq_url := _getUrl this key; rq_method := "DELETE";
                   rq_headers := signed_contents "DELETE" u (clock_iso w) PNull
                                   (_getCredentials this) [];
                   rq_body := BodyNone |} in
      let w' := with_sent (with_heap w (heap w ++ [rq_headers rq])) (sent w ++ [rq]) in
      match net w rq with
      | NetFail e => (Throw e, w')
      | NetOk r =>
          (if ok r then Return true
           else Throw (Error ("S3 DeleteObject failed (" +:+ Number_toString (Js.status r)
                              +:+ "): " +:+ resp_text r)), w')
      end
  end.
Proof.
  unfold deleteObject. cbv zeta.
  destruct (URL_parse (_getUrl this key)) as [u|] eqn:Hu.
  - rewrite (sign_fresh_then _ _ _ _ _ _ _ _ Hu).
    unfold mbind at 1, M_bind at 1. unfold deref at 1, contents, with_heap.
    cbn [heap clock_iso clock_ms kv_data kv_fault net sent entropy entropy_pos fst snd].
    rewrite lookup_snoc_length. cbn [default from_option].
    rewrite send_signed.
    cbn [heap clock_iso clock_ms kv_data kv_fault net sent entropy entropy_pos fst snd].
    destruct (net w _) as [e|r]; [done|].
    rewrite not_ok_and_not by lia.
    unfold mret, M_ret, throw. by destruct (ok r).
  - by rewrite (sign_fresh_fails _ _ _ _ _ _ _ Hu).
Qed.

Lemma checkConnection_run (this : S3Client) (w : World) :
  let url := this_endpoint this +:+ "/" +:+ this_bucket this
             +:+ "?list-type=2&max-keys=1" in
  checkConnection this w =
  match URL_parse url with
  | None => (Throw (Native (InvalidURL url)), with_heap w (heap w ++ [[]]))
  | Some u =>
      let rq := {| rq_url := url; rq_method := "GET";
                   rq_headers := signed_contents "GET" u (clock_iso w) PNull
                                   (_getCredentials this) [];
                   rq_body := BodyNone |} in
      let w' := with_sent (with_heap w (heap w ++ [rq_headers rq])) (sent w ++ [rq]) in
      match net w rq with
      | NetFail e => (Throw e, w')
      | NetOk r => (Return (ok r), w')
      end
  end.
Proof.
  unfold checkConnection. cbv zeta.
  destruct (URL_parse _) as [u|] eqn:Hu.
  - rewrite (sign_fresh_then _ _ _ _ _ _ _ _ Hu).
    unfold mbind at 1, M_bind at 1. unfold deref at 1, contents, with_heap.
    cbn [heap clock_iso clock_ms kv_data kv_fault net sent entropy entropy_pos fst snd].
    rewrite lookup_snoc_length. cbn [default from_option].
    rewrite send_signed.
    cbn [heap clock_iso clock_ms kv_data kv_fault net sent entropy entropy_pos fst snd].
    by destruct (net w _) as [e|r].
  - by rewrite (sign_fresh_fails _ _ _ _ _ _ _ Hu).
Qed.

Lemma bind_run {A B : Type} (m : M A) (f : A → M B) (w w' : World) (a : A) :
  m w = (Return a, w') → (x ← m; f x) w = f a w'.
Proof. intros Hm. unfold mbind, M_bind. by rewrite Hm. Qed.

Lemma assign_snoc (w : World) (l : list JsObject) (o : JsObject) (k v : string) :
  obj_assign (length l) k v (with_heap w (l ++ [o]))
  = (Return tt, with_heap w (l ++ [obj_set k v o])).
Proof.
  unfold obj_assign, with_heap.
  cbn [heap clock_iso clock_ms kv_data kv_fault net sent entropy entropy_pos].
  by rewrite alter_snoc_length.
Qed.

(** Copying the last object of the heap, signing the copy and going on. *)
Lemma sign_copy_then {A : Type} (method url : string) (l : list JsObject) (o : JsObject)
    (body : Payload) (cred : Credentials) (k : Ref → M A) (w : World) :
  (copy ← (o ← deref (length l); new_object o);
   signed ← signRequest method url copy body cred; k signed) (with_heap w (l ++ [o]))
  = match URL_parse url with
    | None => (Throw (Native (InvalidURL url)), with_heap w (l ++ [o; o]))
    | Some u =>
        k (S (length l))
          (with_heap w (l ++ [o; signed_contents method u (clock_iso w) body cred o]))
    end.
Proof.
  assert (∀ F : Ref → M A,
            (copy ← (o ← deref (length l); new_object o); F copy) (with_heap w (l ++ [o]))
            = (copy ← new_object o; F copy) (with_heap w (l ++ [o]))) as ->.
  { intros F. unfold mbind, M_bind, deref, contents. simpl.
    by rewrite lookup_snoc_length. }
  destruct (URL_parse url) as [u|] eqn:Hu.
  - rewrite (sign_fresh_then _ _ _ _ _ _ _ _ Hu). simpl.
    rewrite length_app. simpl. rewrite Nat.add_1_r.
    by rewrite <- app_assoc.
  - rewrite (sign_fresh_fails _ _ _ _ _ _ _ Hu). simpl. by rewrite <- app_assoc.
Qed.

Lemma getObject_run (this : S3Client) (key : string) (range : option string)
    (w : World) :
  getObject this key range w =
  match URL_parse (_getUrl this key) with
  | None => (Throw (Native (InvalidURL (_getUrl this key))),
             with_heap w (heap w ++ [get_headers range; get_headers range]))
  | Some u =>
      let rq := {| rq_url := _getUrl this key; rq_method := "GET";
                   rq_headers := signed_contents "GET" u (clock_iso w) PNull
                                   (_getCredentials this) (get_headers range);
                   rq_body := BodyNone |} in
      let w' := with_sent (with_heap w (heap w ++ [get_headers range; rq_headers rq]))
                  (sent w ++ [rq]) in
      match net w rq with
      | NetFail e => (Throw e, w')
      | NetOk r =>
          (if ok r then Return (Some r)
           else if Js.status r =? 404 then Return None
           else Throw (Error ("S3 GetObject failed (" +:+ Number_toString (Js.status r)
                              +:+ "): " +:+ resp_text r)), w')
      end
  end.
Proof.
  unfold getObject. cbv zeta.
  erewrite bind_run by reflexivity.
  assert ((if truthy_str range
           then obj_assign (length (heap w)) "range" (default "" range)
           else mret ()) (with_heap w (heap w ++ [[]]))
          = (Return tt, with_heap w (heap w ++ [get_headers range]))) as Hrange.
  { unfold get_headers. destruct (truthy_str range); [apply assign_snoc|done]. }
  rewrite (bind_run _ _ _ _ _ Hrange).
  rewrite sign_copy_then.
  destruct (URL_parse (_getUrl this key)) as [u|]; [|done].
  unfold mbind at 1, M_bind at 1. unfold deref at 1, contents, with_heap.
  cbn [heap clock_iso clock_ms kv_data kv_fault net sent entropy entropy_pos fst snd].
  replace ((heap w ++ [get_headers range;
                       signed_contents "GET" u (clock_iso w) PNull (_getCredentials this)
                         (get_headers range)]) !! S (length (heap w)))
    with (Some (signed_contents "GET" u (clock_iso w) PNull (_getCredentials this)
                  (get_headers range))).
  2:{ rewrite lookup_app_r by lia.
      by replace (S (length (heap w)) - length (heap w))%nat with 1%nat by lia. }
  cbn [default from_option].
  rewrite send_signed.
  cbn [heap clock_iso clock_ms kv_data kv_fault net sent entropy entropy_pos fst snd].
  destruct (net w _) as [e|r]; [done|].
  rewrite not_ok_and_not by lia.
  unfold mret, M_ret, throw. destruct (ok r); simpl; [done|].
  by destruct (Js.status r =? 404).
Qed.

Lemma assign_all_snoc (w : World) (l : list JsObject) (entries : list (string * string))
    (o : JsObject) :
  foldr (λ kv (rest : M unit),
           let hKey := if String.prefix "x-amz-meta-" kv.1 then kv.1
                       else "x-amz-meta-" +:+ kv.1 in
           _ ← obj_assign (length l) hKey kv.2; rest)
        (mret tt) entries (with_heap w (l ++ [o]))
  = (Return tt,
     with_heap w (l ++ [foldl (λ headers kv, obj_set (meta_key kv.1) kv.2 headers) o
                          entries])).
Proof.
  revert o. induction entries as [|kv entries IH]; intros o; [done|].
  cbn [foldr foldl]. cbv zeta.
  rewrite (bind_run _ _ _ _ _ (assign_snoc _ _ _ _ _)).
  by rewrite IH.
Qed.

Lemma putObject_run (this : S3Client) (key : string) (body : Payload)
    (options : PutOptions) (w : World) :
  putObject this key body options w =
  match URL_parse (_getUrl this key) with
  | None => (Throw (Native (InvalidURL (_getUrl this key))),
             with_heap w (heap w ++ [put_headers body options; put_headers body options]))
  | Some u =>
      let rq := {| rq_url := _getUrl this key; rq_method := "PUT";
                   rq_headers := signed_contents "PUT" u (clock_iso w) body
                                   (_getCredentials this) (put_headers body options);
                   rq_body := payload_body body |} in
      let w' := with_sent
                  (with_heap w (heap w ++ [put_headers body options; rq_headers rq]))
                  (sent w ++ [rq]) in
      match net w rq with
      | NetFail e => (Throw e, w')
      | NetOk r =>
          (if ok r then Return (resp_header r "etag")
           else Throw (Error ("S3 PutObject failed (" +:+ Number_toString (Js.status r)
                              +:+ "): " +:+ resp_text r)), w')
      end
  end.
Proof.
  unfold putObject. cbv zeta.
  erewrite bind_run by reflexivity.
  set (h1 := if truthy_str (contentType options)
             then obj_set "content-type" (default "" (contentType options)) []
             else [] : JsObject).
  assert ((if truthy_str (contentType options)
           then obj_assign (length (heap w)) "content-type"
                  (default "" (contentType options))
           else mret ()) (with_heap w (heap w ++ [[]]))
          = (Return tt, with_heap w (heap w ++ [h1]))) as Hstep1.
  { unfold h1. destruct (truthy_str (contentType options)); [apply assign_snoc|done]. }
  rewrite (bind_run _ _ _ _ _ Hstep1).
  set (h2 := match payload_length body with
             | Some n => obj_set "content-length" (Number_toString (Z.of_nat n)) h1
             | None => h1
             end).
  assert (match payload_length body with
          | Some n => obj_assign (length (heap w)) "content-length"
                        (Number_toString (Z.of_nat n))
          | None => mret ()
          end (with_heap w (heap w ++ [h1]))
          = (Return tt, with_heap w (heap w ++ [h2]))) as Hstep2.
  { unfold h2. destruct (payload_length body); [apply assign_snoc|done]. }
  rewrite (bind_run _ _ _ _ _ Hstep2).
  assert (match metadata options with
          | Some meta =>
              foldr (λ kv (rest : M unit),
                       let hKey := if String.prefix "x-amz-meta-" kv.1 then kv.1
                                   else "x-amz-meta-" +:+ kv.1 in
                       _ ← obj_assign (length (heap w)) hKey kv.2; rest)
                    (mret tt) (Object_entries meta)
          | None => mret ()
          end (with_heap w (heap w ++ [h2]))
          = (Return tt, with_heap w (heap w ++ [put_headers body options]))) as Hstep3.
  { unfold put_headers. cbv zeta. fold h1. fold h2.
    destruct (metadata options); [apply assign_all_snoc|done]. }
  rewrite (bind_run _ _ _ _ _ Hstep3).
  rewrite sign_copy_then.
  destruct (URL_parse (_getUrl this key)) as [u|]; [|done].
  unfold mbind at 1, M_bind at 1. unfold deref at 1, contents, with_heap.
  cbn [heap clock_iso clock_ms kv_data kv_fault net sent entropy entropy_pos fst snd].
  replace ((heap w ++ [put_headers body options;
                       signed_contents "PUT" u (clock_iso w) body (_getCredentials this)
                         (put_headers body options)]) !! S (length (heap w)))
    with (Some (signed_contents "PUT" u (clock_iso w) body (_getCredentials this)
                  (put_headers body options))).
  2:{ rewrite lookup_app_r by lia.
      by replace (S (length (heap w)) - length (heap w))%nat with 1%nat by lia. }
  cbn [default from_option].
  rewrite send_signed.
  cbn [heap clock_iso clock_ms kv_data kv_fault net sent entropy entropy_pos fst snd].
  destruct (net w _) as [e|r]; [done|].
  unfold mret, M_ret, throw. by destruct (ok r).
Qed.

End ClientRuns.

Section ClientProperties.
Import Js S3 Signed.
Context `{Platform}.

(** X6.  When the object URL does not parse, [putObject], [getObject],
    [headObject] and [deleteObject] throw the fault of [new URL] and send
    no request. *)
Theorem s3_invalid_url_sends_nothing (this : S3Client) (key : string)
    (range : option string) (body : Payload) (options : PutOptions) (w : World) :
  URL_parse (_getUrl this key) = None →
  ((putObject this key body options w).1
     = Throw (Native (InvalidURL (_getUrl this key)))
   ∧ sent (putObject this key body options w).2 = sent w)
  ∧ ((getObject this key range w).1 = Throw (Native (InvalidURL (_getUrl this key)))
     ∧ sent (getObject this key range w).2 = sent w)
  ∧ ((headObject this key w).1 = Throw (Native (InvalidURL (_getUrl this key)))
     ∧ sent (headObject this key w).2 = sent w)
  ∧ ((deleteObject this key w).1 = Throw (Native (InvalidURL (_getUrl this key)))
     ∧ sent (deleteObject this key w).2 = sent w).
Proof.
  intros Hu.
  rewrite putObject_run, getObject_run, headObject_run, deleteObject_run, Hu.
  by repeat split.
Qed.

(** X7.  [putObject] sends one request - a PUT of the body to the object
    URL - and returns the [etag] header of a success answer; on any other
    status it throws an Error carrying the status and the provider's text,
    and a transport failure is thrown as it is. *)
Theorem putObject_outcomes (this : S3Client) (key : string) (body : Payload)
    (options : PutOptions) (w : World) (u : URL) :
  URL_parse (_getUrl this key) = Some u →
  ∃ rq : Request,
    sent (putObject this key body options w).2 = sent w ++ [rq]
    ∧ rq_url rq = _getUrl this key ∧ rq_method rq = "PUT"
    ∧ rq_body rq = payload_body body
    ∧ (putObject this key body options w).1 =
      match net w rq with
      | NetFail e => Throw e
      | NetOk r =>
          if ok r then Return (resp_header r "etag")
          else Throw (Error ("S3 PutObject failed (" +:+ Number_toString (Js.status r)
                             +:+ "): " +:+ resp_text r))
      end.
Proof.
  intros Hu. rewrite putObject_run, Hu. cbv zeta.
  eexists. split; [by destruct (net w _)|].
  do 3 (split; [reflexivity|]).
  by destruct (net w _) as [e|r].
Qed.

(** X9.  [checkConnection] sends one GET that lists at most one key of the
    bucket and returns whether the answer is a success status: no status
    makes it throw, a transport failure does. *)
Theorem checkConnection_outcomes (this : S3Client) (w : World) (u : URL) :
  URL_parse (this_endpoint this +:+ "/" +:+ this_bucket this
             +:+ "?list-type=2&max-keys=1") = Some u →
  ∃ rq : Request,
    sent (checkConnection this w).2 = sent w ++ [rq]
    ∧ rq_url rq = this_endpoint this +:+ "/" +:+ this_bucket this
                  +:+ "?list-type=2&max-keys=1"
    ∧ rq_method rq = "GET" ∧ rq_body rq = BodyNone
    ∧ (checkConnection this w).1 =
      match net w rq with
      | NetFail e => Throw e
      | NetOk r => Return (ok r)
      end.
Proof.
  intros Hu. pose proof (checkConnection_run this w) as Hrun. cbv zeta in Hrun.
  rewrite Hrun, Hu.
  eexists. split; [by destruct (net w _)|].
  do 3 (split; [reflexivity|]).
  by destruct (net w _) as [e|r].
Qed.

Lemma obj_get_set (k k' v : string) (o : JsObject) :
  obj_get k (obj_set k' v o) = if decide (k' = k) then Some v else obj_get k o.
Proof.
  destruct (decide (k' = k)) as [->|Hne];
    [apply obj_get_set_eq|by apply obj_get_set_ne].
Qed.

(** Signing sets the four headers and leaves every other name as it was. *)
Lemma signed_contents_get (method : string) (u : URL) (iso : string) (body : Payload)
    (cred : Credentials) (h0 : JsObject) (k : string) :
  k ≠ "Authorization" →
  obj_get k (signed_contents method u iso body cred h0)
  = if decide (k = "host") then Some (host u)
    else if decide (k = "x-amz-content-sha256") then Some (content_hash body)
    else if decide (k = "x-amz-date") then Some (amz_date iso)
    else obj_get k h0.
Proof.
  intros H1.
  unfold signed_contents, required_headers. cbv zeta.
  rewrite !obj_get_set.
  destruct (decide ("Authorization" = k)) as [<-|_]; [done|].
  destruct (decide ("host" = k)) as [<-|H2]; [done|].
  destruct (decide (k = "host")) as [->|_]; [done|].
  destruct (decide ("x-amz-content-sha256" = k)) as [<-|H3]; [done|].
  destruct (decide (k = "x-amz-content-sha256")) as [->|_]; [done|].
  destruct (decide ("x-amz-date" = k)) as [<-|H4]; [done|].
  by destruct (decide (k = "x-amz-date")) as [->|_].
Qed.

Lemma signed_contents_authorization (method : string) (u : URL) (iso : string)
    (body : Payload) (cred : Credentials) (h0 : JsObject) :
  is_Some (obj_get "Authorization" (signed_contents method u iso body cred h0)).
Proof. unfold signed_contents. cbv zeta. rewrite obj_get_set_eq. by eexists. Qed.

(** X10.  Every request of [getObject] is signed for the moment it is
    made: it carries the host of the URL, the timestamp of the clock, the
    content hash of an empty payload and an Authorization header, and
    beside them the [range] header when a non-empty range was asked for,
    and none otherwise. *)
Theorem getObject_request_signed (this : S3Client) (key : string)
    (range : option string) (w : World) (u : URL) :
  URL_parse (_getUrl this key) = Some u →
  ∃ rq : Request,
    sent (getObject this key range w).2 = sent w ++ [rq]
    ∧ rq_url rq = _getUrl this key ∧ rq_method rq = "GET" ∧ rq_body rq = BodyNone
    ∧ obj_get "host" (rq_headers rq) = Some (host u)
    ∧ obj_get "x-amz-date" (rq_headers rq) = Some (amz_date (clock_iso w))
    ∧ obj_get "x-amz-content-sha256" (rq_headers rq) = Some (sha256Hex (Str ""))
    ∧ is_Some (obj_get "Authorization" (rq_headers rq))
    ∧ obj_get "range" (rq_headers rq) = (if truthy_str range then range else None).
Proof.
  intros Hu. rewrite getObject_run, Hu. cbv zeta.
  eexists. split; [by destruct (net w _)|].
  cbn [rq_url rq_method rq_body rq_headers].
  do 3 (split; [reflexivity|]).
  split; [rewrite signed_contents_get by done; by rewrite decide_True|].
  split; [rewrite signed_contents_get by done;
          by rewrite !decide_False, decide_True by done|].
  split; [rewrite signed_contents_get by done;
          by rewrite decide_False, decide_True by done|].
  split; [apply signed_contents_authorization|].
  rewrite signed_contents_get by done. rewrite !decide_False by done.
  unfold get_headers, truthy_str. destruct range as [r|]; [|done].
  destruct (bool_decide (r = "")); cbn [negb]; [done|].
  cbn [obj_get default from_option]. by rewrite decide_True.
Qed.

(** X28.  What [headObject] reads off a success answer: the content type,
    the entity tag and the modification date are the headers of the answer
    as they are, absent ones included; the content length is the number
    whose decimal text the content-length header holds, and 0 when that
    header is missing or empty. *)
Theorem headObject_metadata (this : S3Client) (key : string) (w : World) (u : URL)
    (r : Response) :
  URL_parse (_getUrl this key) = Some u →
  (∀ rq, rq_url rq = _getUrl this key → net w rq = NetOk r) →
  ok r = true →
  ∃ info : HeadInfo,
    (headObject this key w).1 = Return (Some info)
    ∧ head_contentType info = resp_header r "content-type"
    ∧ etag info = resp_header r "etag"
    ∧ lastModified info = resp_header r "last-modified"
    ∧ (truthy_str (resp_header r "content-length") = false →
       contentLength info = Some 0)
    ∧ (∀ n, resp_header r "content-length" = Some (Number_toString n) →
         contentLength info = Some n).
Proof.
  intros Hu Hnet Hok. rewrite headObject_run, Hu. cbv zeta.
  rewrite Hnet by reflexivity. rewrite Hok. cbn [fst].
  eexists. split; [reflexivity|].
  cbn [head_contentType etag lastModified contentLength].
  do 3 (split; [reflexivity|]). split.
  - intros Hmissing. unfold or_str. by rewrite Hmissing.
  - intros n Hn. rewrite Hn. unfold or_str.
    assert (truthy_str (Some (Number_toString n)) = true) as ->.
    { unfold truthy_str. apply negb_true_iff, bool_decide_eq_false.
      intros Hempty. pose proof (parseInt_Number_toString n) as Hp.
      by rewrite Hempty in Hp. }
    apply parseInt_Number_toString.
Qed.

Lemma prefix_app (p s : string) : String.prefix p (p +:+ s) = true.
Proof.
  induction p as [|c p IH]; [by destruct s|].
  change (String c p +:+ s) with (String c (p +:+ s)). simpl.
  by destruct (Ascii.ascii_dec c c).
Qed.

Lemma meta_key_prefix (k : string) : String.prefix "x-amz-meta-" (meta_key k) = true.
Proof.
  unfold meta_key. destruct (String.prefix "x-amz-meta-" k) eqn:Hk; [done|].
  apply prefix_app.
Qed.

(** What the metadata loop leaves in the header object. *)
Lemma meta_fold_get (entries : list (string * string)) (h : JsObject) (name : string) :
  String.prefix "x-amz-meta-" name = false →
  obj_get name (foldl (λ headers kv, obj_set (meta_key kv.1) kv.2 headers) h entries)
  = obj_get name h.
Proof.
  intros Hname. revert h. induction entries as [|kv entries IH]; intros h; [done|].
  simpl. rewrite IH, obj_get_set.
  destruct (decide (meta_key kv.1 = name)) as [<-|_]; [|done].
  by rewrite meta_key_prefix in Hname.
Qed.

Lemma meta_fold_keeps (entries : list (string * string)) (h : JsObject) (name : string) :
  is_Some (obj_get name h) →
  is_Some (obj_get name
             (foldl (λ headers kv, obj_set (meta_key kv.1) kv.2 headers) h entries)).
Proof.
  revert h. induction entries as [|kv entries IH]; intros h Hh; [done|].
  simpl. apply IH. rewrite obj_get_set. by destruct (decide (meta_key kv.1 = name)).
Qed.

Lemma meta_fold_sets (entries : list (string * string)) (h : JsObject) (k v : string) :
  (k, v) ∈ entries →
  is_Some (obj_get (meta_key k)
             (foldl (λ headers kv, obj_set (meta_key kv.1) kv.2 headers) h entries)).
Proof.
  revert h. induction entries as [|kv entries IH]; intros h Hin;
    [by apply elem_of_nil in Hin|].
  simpl. apply elem_of_cons in Hin as [<-|Hin]; [|by apply IH].
  apply meta_fold_keeps. simpl. rewrite obj_get_set_eq. by eexists.
Qed.

Lemma meta_fold_names (entries : list (string * string)) (h : JsObject) (name : string) :
  is_Some (obj_get name
             (foldl (λ headers kv, obj_set (meta_key kv.1) kv.2 headers) h entries)) →
  is_Some (obj_get name h) ∨ String.prefix "x-amz-meta-" name = true.
Proof.
  destruct (String.prefix "x-amz-meta-" name) eqn:Hname; [by right|].
  rewrite meta_fold_get by done. by left.
Qed.

Lemma obj_get_elem (k : string) (o : JsObject) :
  is_Some (obj_get k o) → ∃ v, (k, v) ∈ o.
Proof.
  induction o as [|[k' v'] o IH]; simpl; [by intros [? [=]]|].
  destruct (decide (k' = k)) as [->|_].
  - intros _. exists v'. apply list_elem_of_here.
  - intros [v Hv]%IH. exists v. by apply list_elem_of_further.
Qed.

(** X8.  The headers of the request [putObject] sends: [content-type] is
    the content type asked for, when one was; [content-length] is the
    number of bytes of a buffer body, and is not set for a text body; every
    metadata key is sent under a name that starts with [x-amz-meta-]; and
    there is no header beside these and the four of the signer, so that
    metadata can overwrite none of them. *)
Theorem putObject_headers (this : S3Client) (key : string) (body : Payload)
    (options : PutOptions) (w : World) (u : URL) :
  URL_parse (_getUrl this key) = Some u →
  ∃ rq : Request,
    sent (putObject this key body options w).2 = sent w ++ [rq]
    ∧ obj_get "content-type" (rq_headers rq)
      = (if truthy_str (contentType options) then contentType options else None)
    ∧ obj_get "content-length" (rq_headers rq)
      = ((λ n, Number_toString (Z.of_nat n)) <$> payload_length body)
    ∧ (∀ meta k, metadata options = Some meta → is_Some (obj_get k meta) →
         is_Some (obj_get (meta_key k) (rq_headers rq))
         ∧ String.prefix "x-amz-meta-" (meta_key k) = true)
    ∧ (∀ name, is_Some (obj_get name (rq_headers rq)) →
         name ∈ ["content-type"; "content-length"; "x-amz-date";
                 "x-amz-content-sha256"; "host"; "Authorization"]
         ∨ String.prefix "x-amz-meta-" name = true).
Proof.
  intros Hu. rewrite putObject_run, Hu. cbv zeta.
  eexists. split; [by destruct (net w _)|].
  cbn [rq_headers].
  set (h1 := if truthy_str (contentType options)
             then obj_set "content-type" (default "" (contentType options)) []
             else [] : JsObject).
  set (h2 := match payload_length body with
             | Some n => obj_set "content-length" (Number_toString (Z.of_nat n)) h1
             | None => h1
             end).
  assert (∀ name, String.prefix "x-amz-meta-" name = false →
            obj_get name (put_headers body options) = obj_get name h2) as Hplain.
  { intros name Hname. unfold put_headers. cbv zeta. fold h1. fold h2.
    destruct (metadata options); [by apply meta_fold_get|done]. }
  assert (obj_get "content-type" h2
          = if truthy_str (contentType options) then contentType options else None)
    as Htype.
  { assert (obj_get "content-type" h2 = obj_get "content-type" h1) as ->.
    { unfold h2. destruct (payload_length body); [|done]. by rewrite obj_get_set_ne. }
    unfold h1, truthy_str. destruct (contentType options) as [t|]; [|done].
    destruct (bool_decide (t = "")); cbn [negb]; [done|].
    cbn [obj_set obj_get default from_option]. by rewrite decide_True. }
  assert (obj_get "content-length" h2
          = ((λ n, Number_toString (Z.of_nat n)) <$> payload_length body)) as Hlength.
  { unfold h2. destruct (payload_length body) as [n|]; simpl.
    - by rewrite obj_get_set_eq.
    - unfold h1. destruct (truthy_str (contentType options)); [|done].
      cbn [obj_set obj_get]. by rewrite decide_False. }
  split; [rewrite signed_contents_get by done; rewrite !decide_False by done;
          by rewrite Hplain|].
  split; [rewrite signed_contents_get by done; rewrite !decide_False by done;
          by rewrite Hplain|].
  split.
  - intros meta k Hmeta Hk. split; [|apply meta_key_prefix].
    assert (meta_key k ≠ "Authorization") as Hauth.
    { intros Ha. pose proof (meta_key_prefix k) as Hp. by rewrite Ha in Hp. }
    rewrite signed_contents_get by done.
    destruct (decide (meta_key k = "host")) as [Ha|_];
      [pose proof (meta_key_prefix k) as Hp; by rewrite Ha in Hp|].
    destruct (decide (meta_key k = "x-amz-content-sha256")) as [Ha|_];
      [pose proof (meta_key_prefix k) as Hp; by rewrite Ha in Hp|].
    destruct (decide (meta_key k = "x-amz-date")) as [Ha|_];
      [pose proof (meta_key_prefix k) as Hp; by rewrite Ha in Hp|].
    unfold put_headers. cbv zeta. rewrite Hmeta.
    apply obj_get_elem in Hk as [v Hv].
    apply (meta_fold_sets _ _ k v). by rewrite Object_entries_perm.
  - intros name.
    destruct (decide (name = "Authorization")) as [->|Hauth];
      [intros _; left; repeat first [apply list_elem_of_here|apply list_elem_of_further]|].
    rewrite signed_contents_get by done.
    destruct (decide (name = "host")) as [->|_];
      [intros _; left; repeat first [apply list_elem_of_here|apply list_elem_of_further]|].
    destruct (decide (name = "x-amz-content-sha256")) as [->|_];
      [intros _; left; repeat first [apply list_elem_of_here|apply list_elem_of_further]|].
    destruct (decide (name = "x-amz-date")) as [->|_];
      [intros _; left; repeat first [apply list_elem_of_here|apply list_elem_of_further]|].
    destruct (String.prefix "x-amz-meta-" name) eqn:Hname; [by right|].
    rewrite Hplain by done. intros Hsome. left.
    assert (∀ k v o, is_Some (obj_get name (obj_set k v o)) →
              name = k ∨ is_Some (obj_get name o)) as Hset.
    { intros k v o. rewrite obj_get_set.
      destruct (decide (k = name)) as [<-|_]; [by left|by right]. }
    unfold h2, h1 in Hsome.
    destruct (payload_length body);
      [apply Hset in Hsome as [->|Hsome];
       [repeat first [apply list_elem_of_here|apply list_elem_of_further]|]|];
      (destruct (truthy_str (contentType options));
       [apply Hset in Hsome as [->|Hsome];
        [repeat first [apply list_elem_of_here|apply list_elem_of_further]|]|]);
      simpl in Hsome; by destruct Hsome.
Qed.

End ClientProperties.

(** ** Guest admission *)

Section GuestProperties.
Import Js Guest.
Context `{Platform}.

Lemma or_str_truthy (a b : option string) :
  truthy_str b = true → truthy_str (or_str a b) = true.
Proof. intros Hb. unfold or_str. by destruct (truthy_str a) eqn:Ha. Qed.

(** X11.  [getClientIP] never returns the empty string: an empty header is
    passed over like a missing one and the last resort is [0.0.0.0].  A
    non-empty CF-Connecting-IP header wins over the others; without it, the
    address is the first element of X-Forwarded-For, trimmed, when that is
    not empty; and with neither of the two and no X-Real-IP it is
    [0.0.0.0]. *)
Theorem getClientIP_never_empty (request : HttpRequest) :
  getClientIP request ≠ ""
  ∧ (truthy_str (headers_get request "CF-Connecting-IP") = true →
     headers_get request "CF-Connecting-IP" = Some (getClientIP request))
  ∧ (∀ forwarded,
       truthy_str (headers_get request "CF-Connecting-IP") = false →
       headers_get request "X-Forwarded-For" = Some forwarded →
       trim (split_first "," forwarded) ≠ "" →
       getClientIP request = trim (split_first "," forwarded))
  ∧ (truthy_str (headers_get request "CF-Connecting-IP") = false →
     headers_get request "X-Forwarded-For" = None →
     truthy_str (headers_get request "X-Real-IP") = false →
     getClientIP request = "0.0.0.0").
Proof.
  unfold getClientIP.
  set (cf := headers_get request "CF-Connecting-IP").
  set (xff := headers_get request "X-Forwarded-For").
  set (real := headers_get request "X-Real-IP").
  split; [|split; [|split]].
  - assert (truthy_str (or_str cf (or_str ((λ s, trim (split_first "," s)) <$> xff)
                                     (or_str real (Some "0.0.0.0")))) = true) as Ht.
    { do 3 apply or_str_truthy. done. }
    destruct (or_str cf _) as [s|]; [|done]. simpl in *.
    intros ->. by rewrite bool_decide_eq_true_2 in Ht.
  - intros Hcf. unfold or_str at 1. rewrite Hcf. by destruct cf.
  - intros forwarded Hcf -> Hne. unfold or_str at 1. rewrite Hcf.
    unfold or_str at 1. cbn [fmap option_fmap option_map truthy_str].
    by rewrite bool_decide_eq_false_2.
  - intros Hcf -> Hreal. unfold or_str at 1. rewrite Hcf.
    unfold or_str. cbn [fmap option_fmap option_map truthy_str]. by rewrite Hreal.
Qed.

(** X12.  [checkGuestUpload] never throws and changes nothing: it returns a
    result and leaves the world, the store included, as it found it.  A
    refusal always carries a reason and one of the statuses 401, 413 and
    429; an allowance carries neither; and a remaining count is never
    negative, and is positive exactly on an allowance. *)
Theorem checkGuestUpload_result (request : HttpRequest) (env : Env) (fileSize : Z)
    (w : World) :
  ∃ r : GuestCheck,
    checkGuestUpload request env fileSize w = (Return r, w)
    ∧ (allowed r = false →
       is_Some (reason r) ∧ ∃ n, status r = Some n ∧ n ∈ [401; 413; 429])
    ∧ (allowed r = true → reason r = None ∧ status r = None)
    ∧ (∀ n, remaining r = Some n → 0 <= n ∧ (allowed r = true ↔ 0 < n)).
Proof.
  rewrite checkGuestUpload_eq. eexists. split; [reflexivity|]. cbv zeta.
  destruct (negb (bool_decide (GUEST_UPLOAD env = Some "true"))).
  { cbn [allowed reason status remaining]. split; [|by split].
    intros _. split; [by eexists|]. exists 401. split; [done|].
    apply list_elem_of_here. }
  destruct (_ <? fileSize).
  { cbn [allowed reason status remaining]. split; [|by split].
    intros _. split; [by eexists|]. exists 413. split; [done|].
    apply list_elem_of_further, list_elem_of_here. }
  destruct (img_url env); [|cbn [allowed reason status remaining]; by repeat split].
  destruct (kv_fault w); [cbn [allowed reason status remaining]; by repeat split|].
  destruct (Z.leb_spec (parseInt_or (GUEST_DAILY_LIMIT env) 10)
              (guest_counter w (getClientIP request) (today_of w))) as [Hle|Hlt];
    cbn [allowed reason status remaining].
  - split; [|split; [done|]].
    + intros _. split; [by eexists|]. exists 429. split; [done|].
      do 2 apply list_elem_of_further. apply list_elem_of_here.
    + intros n [= <-]. split; [lia|]. split; [done|lia].
  - split; [done|]. split; [done|].
    intros n [= <-]. split; [lia|]. split; [lia|done].
Qed.

(** X13.  [incrementGuestCount] never throws, whatever the store does.  It
    writes at most the counter of the caller's address and day - every
    other key of the store is as before, and so are the clock and the
    requests sent - and it changes nothing at all when guest uploads are
    off, the store is not bound or the store fails. *)
Theorem incrementGuestCount_frame (request : HttpRequest) (env : Env) (w : World) :
  let w' := (incrementGuestCount request env w).2 in
  (incrementGuestCount request env w).1 = Return tt
  ∧ (∀ k, k ≠ guest_key (getClientIP request) (today_of w) →
          kv_data w' !! k = kv_data w !! k)
  ∧ clock_iso w' = clock_iso w ∧ clock_ms w' = clock_ms w ∧ sent w' = sent w
  ∧ (img_url env = false ∨ GUEST_UPLOAD env ≠ Some "true" ∨ is_Some (kv_fault w) →
     w' = w).
Proof.
  cbv zeta. split.
  - unfold incrementGuestCount.
    destruct (negb (img_url env) || negb (bool_decide (GUEST_UPLOAD env = Some "true")));
      [done|].
    unfold getTodayKey, Date_toISOString, try_catch, kv_get, kv_put,
      mbind, M_bind, mret, M_ret. simpl.
    destruct (kv_fault w) eqn:E; simpl; [done|]. by rewrite E.
  - rewrite incrementGuestCount_world.
    destruct (img_url env), (bool_decide_reflect (GUEST_UPLOAD env = Some "true"));
      simpl; try (repeat split; try done; intros [?|[?|[? ?]]]; done).
    destruct (kv_fault w) eqn:E.
    + by repeat split.
    + simpl. split; [intros k Hk; by rewrite lookup_insert_ne|].
      repeat split; try done. intros [?|[?|[? ?]]]; done.
Qed.

(** X14.  What [getGuestConfig] tells the front end is what
    [checkGuestUpload] enforces.  With guest uploads off the two limits are
    shown as 0 and every check is refused with 401.  With guest uploads on
    neither limit is ever 0 - a configured 0 falls back to the default -
    and a file is refused with 413 exactly when its size exceeds the shown
    [maxFileSize]. *)
Theorem getGuestConfig_matches_check (request : HttpRequest) (env : Env) (fileSize : Z)
    (w : World) :
  let config := getGuestConfig env in
  let outcome := (checkGuestUpload request env fileSize w).1 in
  (enabled config = false →
   maxFileSize config = 0 ∧ dailyLimit config = 0
   ∧ ∃ r, outcome = Return r ∧ status r = Some 401)
  ∧ (enabled config = true →
     maxFileSize config ≠ 0 ∧ dailyLimit config ≠ 0
     ∧ (maxFileSize config < fileSize ↔ ∃ r, outcome = Return r ∧ status r = Some 413)
     ∧ ∀ r, outcome = Return r → status r ≠ Some 401).
Proof.
  cbv zeta. rewrite checkGuestUpload_eq. unfold getGuestConfig. cbv zeta.
  cbn [enabled maxFileSize dailyLimit fst].
  assert (∀ s d, d ≠ 0 → parseInt_or s d ≠ 0) as Hnz.
  { intros s d Hd. unfold parseInt_or. destruct (parseInt s) as [n|]; [|done].
    by destruct (Z.eqb_spec n 0). }
  destruct (bool_decide (GUEST_UPLOAD env = Some "true")); cbn [negb].
  - split; [done|]. intros _.
    split; [by apply Hnz|]. split; [by apply Hnz|].
    destruct (Z.ltb_spec (parseInt_or (GUEST_MAX_FILE_SIZE env) (5 * 1024 * 1024))
                fileSize) as [Hbig|Hsmall].
    + split; [|by intros r [= <-]].
      split; [intros _; by eexists|done].
    + split.
      * split; [lia|]. intros (r & Hr & Hs). exfalso.
        destruct (img_url env); [|by simplify_eq].
        destruct (kv_fault w); [by simplify_eq|].
        destruct (_ <=? _); by simplify_eq.
      * intros r Hr.
        destruct (img_url env); [|by simplify_eq].
        destruct (kv_fault w); [by simplify_eq|].
        destruct (_ <=? _); by simplify_eq.
  - split; [|done]. intros _. split; [done|]. split; [done|]. by eexists.
Qed.

End GuestProperties.

(** ** Chunked upload: the two handlers together *)

Section Handlers.
Import Js ChunkedUpload.
Context `{Platform}.
Variable isAuthRequired : Env → bool.
Variable checkAuthentication : Context → M bool.

Local Abbreviation admission :=
  (ChunkedUpload.admission isAuthRequired checkAuthentication).
Local Abbreviation onRequestPost :=
  (ChunkedUpload.onRequestPost isAuthRequired checkAuthentication).

Lemma admission_response (context : Context) (w w1 : World) (r : HttpResponse) :
  admission context w = (Return (Some r), w1) →
  r = respond 403 (VObj [("error", VStr "访客不支持分片上传，请使用普通上传")]).
Proof.
  unfold ChunkedUpload.admission, mbind, M_bind, mret, M_ret.
  destruct (if isAuthRequired _ then _ else _) as [[[|]|e] w0]; [done| |done].
  simpl. rewrite checkGuestUpload_eq.
  destruct (negb (Guest.allowed _)); intros; by simplify_eq.
Qed.

(** The store is not written while the caller is admitted, provided the
    authentication check does not write it. *)
Lemma admission_store (context : Context) (w : World) :
  (∀ w0, kv_data (checkAuthentication context w0).2 = kv_data w0) →
  kv_data (admission context w).2 = kv_data w.
Proof.
  intros Hauth.
  unfold ChunkedUpload.admission, mbind, M_bind, mret, M_ret.
  destruct (isAuthRequired (env context)); [|done].
  pose proof (Hauth w) as Hw.
  destruct (checkAuthentication context w) as [[[|]|e] w0]; simpl in *; [done| |done].
  rewrite checkGuestUpload_eq. by destruct (negb (Guest.allowed _)).
Qed.

(** Every way [onRequestPost] can end.  [w1] is the world the admission of
    the caller leaves. *)
Local Ltac early :=
  eexists; split; [reflexivity|]; split; [reflexivity|]; assumption.

Lemma onRequestPost_run (context : Context) (w : World) :
  let w1 := (admission context w).2 in
  let w2 := with_entropy_pos w1 (entropy_pos w1 + 16)%nat in
  (∃ r, onRequestPost context w = (Return r, w1)
        ∧ res_headers r = json_headers ∧ res_status r ∈ [403; 400; 500])
  ∨ (∃ r, onRequestPost context w = (Return r, w2)
          ∧ res_headers r = json_headers ∧ res_status r = 500
          ∧ (img_url (env context) = false ∨ is_Some (kv_fault w1)))
  ∨ (∃ body fileName fileSize fileType totalChunks storageMode : jsval,
       let uploadId := next_upload_id w1 in
       let mode := if includes validModes storageMode then storageMode
                   else VStr "telegram" in
       body_json (request context) = Return body
       ∧ get_prop "fileName" body = Return fileName
       ∧ get_prop "fileSize" body = Return fileSize
       ∧ get_prop "fileType" body = Return fileType
       ∧ get_prop "totalChunks" body = Return totalChunks
       ∧ get_prop "storageMode" body = Return storageMode
       ∧ onRequestPost context w
       = (Return (respond 200 (VObj [("success", VBool true);
                                     ("uploadId", VStr uploadId);
                                     ("chunkSize", VNum CHUNK_SIZE)])),
          with_kv w2
            (<["upload:" +:+ uploadId :=
                 {| kv_value :=
                      JSON_stringify
                        (session uploadId fileName fileSize fileType totalChunks
                           mode (clock_ms w1));
                    kv_ttl := Some 3600; kv_written := clock_ms w1 |}]>
               (kv_data w1)))
       ∧ img_url (env context) = true ∧ kv_fault w1 = None).
Proof.
  cbv zeta.
  assert ((403 : Z) ∈ [403; 400; 500]) as H403 by apply list_elem_of_here.
  assert ((400 : Z) ∈ [403; 400; 500]) as H400
    by apply list_elem_of_further, list_elem_of_here.
  assert ((500 : Z) ∈ [403; 400; 500]) as H500
    by (do 2 apply list_elem_of_further; apply list_elem_of_here).
  destruct (admission context w) as [[[refusal|]|e] w1] eqn:Hadm; cbn [snd].
  { left. apply admission_response in Hadm as Hr. subst refusal.
    unfold ChunkedUpload.onRequestPost, try_catch, mbind, M_bind.
    rewrite Hadm. early. }
  2:{ left. unfold ChunkedUpload.onRequestPost, try_catch, mbind, M_bind.
      rewrite Hadm. early. }
  destruct (body_json (request context)) as [body|e] eqn:Hbody.
  2:{ left. unfold ChunkedUpload.onRequestPost, try_catch, mbind, M_bind, lift.
      rewrite Hadm, Hbody. early. }
  destruct (get_prop "fileName" body) as [fileName|e] eqn:Hn.
  2:{ left. unfold ChunkedUpload.onRequestPost, try_catch, mbind, M_bind, lift.
      rewrite Hadm, Hbody, Hn. early. }
  destruct (get_prop_defined _ "fileSize" _ _ Hn) as [fileSize Hs].
  destruct (get_prop_defined _ "fileType" _ _ Hn) as [fileType Ht].
  destruct (get_prop_defined _ "totalChunks" _ _ Hn) as [totalChunks Hc].
  destruct (get_prop_defined _ "storageMode" _ _ Hn) as [storageMode Hm].
  rewrite (onRequestPost_validated _ _ _ _ _ _ _ _ _ _ _ Hadm Hbody Hn Hs Ht Hc Hm).
  destruct (falsy fileName || falsy fileSize || falsy totalChunks);
    [left; early|].
  destruct (gt_num fileSize MAX_FILE_SIZE); [left; early|].
  cbv zeta.
  destruct (img_url (env context)).
  - destruct (kv_fault w1) as [e|].
    + right. left. eexists. split; [reflexivity|]. split; [done|]. split; [done|].
      right. by eexists.
    + right. right. exists body, fileName, fileSize, fileType, totalChunks, storageMode.
      do 6 (split; [done|]). split; [reflexivity|]. by split.
  - right. left. eexists. split; [reflexivity|]. split; [done|]. split; [done|].
    by left.
Qed.

(** X15.  [onRequestPost] never throws, not even when the authentication
    check, the body or the store does: it always answers with a JSON
    response whose status is 200, 400, 403 or 500. *)
Theorem onRequestPost_always_answers (context : Context) (w : World) :
  ∃ r : HttpResponse,
    (onRequestPost context w).1 = Return r
    ∧ res_status r ∈ [200; 400; 403; 500]
    ∧ res_headers r = json_headers.
Proof.
  destruct (onRequestPost_run context w)
    as [(r & -> & Hh & Hs)|[(r & -> & Hh & Hs & _)
       |(body & a & b & c & d & m & _ & _ & _ & _ & _ & _ & -> & _)]].
  - exists r. split; [done|]. split; [|done].
    repeat (apply elem_of_cons in Hs as [->|Hs]);
      [repeat first [apply list_elem_of_here|apply list_elem_of_further]..|].
    by apply elem_of_nil in Hs.
  - exists r. split; [done|]. split; [|done]. rewrite Hs.
    repeat first [apply list_elem_of_here|apply list_elem_of_further].
  - eexists. split; [done|]. split; [|done]. apply list_elem_of_here.
Qed.

(** X16.  An init that is not answered 200 stores nothing: whenever the
    status is 400, 403 or 500, the store holds what it held before - given
    that the authentication check itself does not write to it. *)
Theorem onRequestPost_failure_stores_nothing (context : Context) (w : World)
    (r : HttpResponse) :
  (∀ w0, kv_data (checkAuthentication context w0).2 = kv_data w0) →
  (onRequestPost context w).1 = Return r →
  res_status r ≠ 200 →
  kv_data (onRequestPost context w).2 = kv_data w.
Proof.
  intros Hauth Hr Hs. rewrite <- (admission_store context w Hauth).
  destruct (onRequestPost_run context w)
    as [(r' & Heq & _)|[(r' & Heq & _)
       |(body & a & b & c & d & m & _ & _ & _ & _ & _ & _ & Heq & _)]];
    rewrite Heq in Hr |- *; [done|done|].
  simpl in Hr. by simplify_eq.
Qed.

Lemma onRequestGet_run (context : Context) (w : World) (u : URL) :
  URL_parse (url (request context)) = Some u →
  onRequestGet context w =
  (Return
     (match fields_get "uploadId" (searchParams u) with
      | Some uploadId =>
          if bool_decide (uploadId = "")
          then respond 400 (VObj [("error", VStr "缺少 uploadId")])
          else if img_url (env context)
          then match kv_fault w with
               | Some e => respond 500 (VObj [("error", VStr (message e))])
               | None =>
                   match kv_lookup w ("upload:" +:+ uploadId) with
                   | None => respond 404 (VObj [("error", VStr "上传任务不存在或已过期")])
                   | Some text =>
                       match JSON_parse text with
                       | None =>
                           respond 500
                             (VObj [("error", VStr (message (Native JSONSyntax)))])
                       | Some taskData =>
                           if falsy taskData
                           then respond 404
                                  (VObj [("error", VStr "上传任务不存在或已过期")])
                           else respond 200
                                  (VObj (spread [("success", VBool true)] taskData))
                       end
                   end
               end
          else respond 500 (VObj [("error", VStr (message (Native (NullDeref "get"))))])
      | None => respond 400 (VObj [("error", VStr "缺少 uploadId")])
      end), w).
Proof.
  intros Hu. unfold onRequestGet, new_URL, mbind, M_bind at 1. rewrite Hu.
  cbv zeta. unfold mret at 1, M_ret at 1.
  destruct (fields_get "uploadId" (searchParams u)) as [uploadId|]; [|done].
  unfold truthy_str. destruct (bool_decide (uploadId = "")); cbn [negb]; [done|].
  unfold try_catch, img_url_get_json, kv_get_json, kv_get, mbind, M_bind, throw,
    mret, M_ret.
  destruct (img_url (env context)); [|done].
  destruct (kv_fault w); [done|].
  cbn [default from_option].
  destruct (kv_lookup w _) as [text|]; [|done].
  destruct (JSON_parse text) as [v|]; [|done].
  by destruct (falsy v).
Qed.

(** X17.  [onRequestGet] reads and never writes: it leaves the world as it
    found it.  It throws only when the URL of the request does not parse;
    otherwise it answers with a JSON response whose status is 200, 400,
    404 or 500, and a request without an [uploadId], or with an empty one,
    is answered 400 without the store being consulted. *)
Theorem onRequestGet_reads_only (context : Context) (w : World) :
  (onRequestGet context w).2 = w
  ∧ (URL_parse (url (request context)) = None →
     (onRequestGet context w).1 = Throw (Native (InvalidURL (url (request context)))))
  ∧ (∀ u, URL_parse (url (request context)) = Some u →
       (∃ r, (onRequestGet context w).1 = Return r
             ∧ res_status r ∈ [200; 400; 404; 500] ∧ res_headers r = json_headers)
       ∧ (truthy_str (fields_get "uploadId" (searchParams u)) = false →
          (onRequestGet context w).1
          = Return (respond 400 (VObj [("error", VStr "缺少 uploadId")])))).
Proof.
  destruct (URL_parse (url (request context))) as [u|] eqn:Hu.
  - rewrite (onRequestGet_run _ _ _ Hu). split; [done|]. split; [done|].
    intros ? [= <-]. cbn [fst]. split.
    + eexists. split; [reflexivity|].
      assert ((200 : Z) ∈ [200; 400; 404; 500]) as H200 by apply list_elem_of_here.
      assert ((400 : Z) ∈ [200; 400; 404; 500]) as H400
        by apply list_elem_of_further, list_elem_of_here.
      assert ((404 : Z) ∈ [200; 400; 404; 500]) as H404
        by (do 2 apply list_elem_of_further; apply list_elem_of_here).
      assert ((500 : Z) ∈ [200; 400; 404; 500]) as H500
        by (do 3 apply list_elem_of_further; apply list_elem_of_here).
      destruct (fields_get "uploadId" (searchParams u)) as [uploadId|]; [|by split].
      destruct (bool_decide (uploadId = "")); [by split|].
      destruct (img_url (env context)); [|by split].
      destruct (kv_fault w); [by split|].
      destruct (kv_lookup w _) as [text|]; [|by split].
      destruct (JSON_parse text) as [v|]; [|by split].
      destruct (falsy v); by split.
    + unfold truthy_str.
      destruct (fields_get "uploadId" (searchParams u)) as [uploadId|]; [|done].
      by destruct (bool_decide (uploadId = "")).
  - unfold onRequestGet, new_URL, mbind, M_bind at 1. rewrite Hu.
    split; [done|]. by split.
Qed.

Lemma spread_session (uploadId : string)
    (fileName fileSize fileType totalChunks mode : jsval) (createdAt : Z) :
  spread [("success", VBool true)]
    (session uploadId fileName fileSize fileType totalChunks mode createdAt)
  = [("success", VBool true);
     ("uploadId", VStr uploadId);
     ("fileName", fileName);
     ("fileSize", fileSize);
     ("fileType", fileType);
     ("totalChunks", totalChunks);
     ("storageMode", mode);
     ("uploadedChunks", VArr []);
     ("createdAt", VNum createdAt);
     ("status", VStr "pending")].
Proof. reflexivity. Qed.

(** X18.  A session can be read back.  After an init that is answered 200
    with an [uploadId], a status request for that [uploadId] - made while
    the store holds what the init left, is bound and answers, and the JSON
    text of the session parses back to the session - is answered 200 with
    the session: the identifier, the file parameters as the init request
    gave them, the normalised storage mode, no uploaded chunk, the time of
    the init and the status "pending".  That holds for the hour the session
    lives; from then on the status request is answered 404. *)
Theorem init_then_status (context status_context : Context) (w later : World)
    (r : HttpResponse) (u : URL) :
  (onRequestPost context w).1 = Return r →
  res_status r = 200 →
  kv_data later = kv_data (onRequestPost context w).2 →
  kv_fault later = None →
  img_url (env status_context) = true →
  URL_parse (url (request status_context)) = Some u →
  ∃ (uploadId : string) (body fileName fileSize fileType totalChunks storageMode : jsval),
    let createdAt := clock_ms (admission context w).2 in
    let mode := if includes validModes storageMode then storageMode
                else VStr "telegram" in
    let task := session uploadId fileName fileSize fileType totalChunks mode createdAt in
    r = respond 200 (VObj [("success", VBool true); ("uploadId", VStr uploadId);
                           ("chunkSize", VNum CHUNK_SIZE)])
    ∧ uploadId = next_upload_id (admission context w).2
    ∧ uploadId ≠ ""
    ∧ body_json (request context) = Return body
    ∧ get_prop "fileName" body = Return fileName
    ∧ get_prop "fileSize" body = Return fileSize
    ∧ get_prop "fileType" body = Return fileType
    ∧ get_prop "totalChunks" body = Return totalChunks
    ∧ get_prop "storageMode" body = Return storageMode
    ∧ (fields_get "uploadId" (searchParams u) = Some uploadId →
       JSON_parse (JSON_stringify task) = Some task →
       (clock_ms later < createdAt + 3600 * 1000 →
        (onRequestGet status_context later).1
        = Return (respond 200
                    (VObj [("success", VBool true);
                           ("uploadId", VStr uploadId);
                           ("fileName", fileName);
                           ("fileSize", fileSize);
                           ("fileType", fileType);
                           ("totalChunks", totalChunks);
                           ("storageMode", mode);
                           ("uploadedChunks", VArr []);
                           ("createdAt", VNum createdAt);
                           ("status", VStr "pending")])))
       ∧ (createdAt + 3600 * 1000 <= clock_ms later →
          (onRequestGet status_context later).1
          = Return (respond 404 (VObj [("error", VStr "上传任务不存在或已过期")])))).
Proof.
  intros Hr Hok Hkv Hup Hbound Hu.
  destruct (onRequestPost_run context w)
    as [(r' & Heq & _ & Hs)|[(r' & Heq & _ & Hs & _)
       |(body & a & b & c & d & m & Hb & Hn & Hz & Ht & Hc & Hm & Heq & _)]];
    rewrite Heq in Hr, Hkv; cbn [fst snd] in Hr, Hkv.
  { exfalso. injection Hr as <-. rewrite Hok in Hs.
    repeat (apply elem_of_cons in Hs as [Hs|Hs]; [done|]). by apply elem_of_nil in Hs. }
  { exfalso. injection Hr as <-. lia. }
  injection Hr as <-.
  set (w1 := (admission context w).2) in *.
  assert (next_upload_id w1 ≠ "") as Hne.
  { intros Hempty. pose proof (hex_length (entropy w1 <$> seq (entropy_pos w1) 16)) as Hlen.
    unfold next_upload_id in Hempty. rewrite Hempty in Hlen.
    rewrite length_fmap, length_seq in Hlen. simpl in Hlen. lia. }
  exists (next_upload_id w1), body, a, b, c, d, m. cbv zeta.
  do 9 (split; [done|]).
  intros Hid Hparse.
  rewrite (onRequestGet_run _ _ _ Hu), Hid, Hbound, Hup.
  rewrite bool_decide_eq_false_2 by done. cbn [fst].
  unfold kv_lookup. rewrite Hkv. cbn [kv_data with_kv].
  rewrite lookup_insert_eq. unfold kv_live. cbn [kv_ttl kv_written kv_value].
  split.
  - intros Hlive.
    destruct (Z.ltb_spec (clock_ms later) (clock_ms w1 + 3600 * 1000)); [|lia].
    rewrite Hparse. cbn [falsy]. by rewrite spread_session.
  - intros Hdead.
    by destruct (Z.ltb_spec (clock_ms later) (clock_ms w1 + 3600 * 1000)); [lia|].
Qed.

End Handlers.

(** ** The Discord module beyond the webhook *)

Section DiscordProperties.
Import Js Discord.
Context `{Platform}.

(** Both upload paths: the request is sent, the answer is read, and
    whatever is thrown on the way becomes a failure result. *)
Lemma upload_run (rq : Request) (w : World) :
  try_catch (response ← fetch rq; read_upload_response response)
    (λ error, mret (Failure (VStr (message error)))) w
  = (Return (match net w rq with
             | NetFail e => Failure (VStr (message e))
             | NetOk r =>
                 match (read_upload_response r (with_sent w (sent w ++ [rq]))).1 with
                 | Return result => result
                 | Throw e => Failure (VStr (message e))
                 end
             end), with_sent w (sent w ++ [rq])).
Proof.
  unfold try_catch, mbind, M_bind, fetch.
  destruct (net w rq) as [e|r]; [done|].
  pose proof (read_upload_response_world r (with_sent w (sent w ++ [rq]))) as Hw.
  destruct (read_upload_response r _) as [[result|e] w']; simpl in *; by subst.
Qed.

Lemma uploadViaBot_run (fileBuffer : list Byte.byte)
    (filename contentType botToken channelId : string) (w : World) :
  let rq := bot_request fileBuffer filename contentType botToken channelId in
  uploadViaBot fileBuffer filename contentType botToken channelId w
  = (Return (match net w rq with
             | NetFail e => Failure (VStr (message e))
             | NetOk r =>
                 match (read_upload_response r (with_sent w (sent w ++ [rq]))).1 with
                 | Return result => result
                 | Throw e => Failure (VStr (message e))
                 end
             end), with_sent w (sent w ++ [rq])).
Proof. apply upload_run. Qed.

Lemma uploadViaWebhook_run (fileBuffer : list Byte.byte)
    (filename contentType webhookUrl : string) (w : World) :
  let rq := webhook_request fileBuffer filename contentType webhookUrl in
  uploadViaWebhook fileBuffer filename contentType webhookUrl w
  = (Return (match net w rq with
             | NetFail e => Failure (VStr (message e))
             | NetOk r =>
                 match (read_upload_response r (with_sent w (sent w ++ [rq]))).1 with
                 | Return result => result
                 | Throw e => Failure (VStr (message e))
                 end
             end), with_sent w (sent w ++ [rq])).
Proof. apply upload_run. Qed.

(** X19.  Without a webhook URL, [uploadToDiscord] uploads through the
    bot when both the bot token and the channel are configured: it sends
    one request, a POST to the channel's messages with the token in the
    Authorization header, and resolves to a result.  When either of the
    two is missing it sends nothing and resolves to a failure that says
    Discord is not configured.  In neither case does it throw. *)
Theorem uploadToDiscord_without_webhook (fileBuffer : list Byte.byte)
    (filename contentType : string) (env : Env) (w : World) :
  truthy_str (DISCORD_WEBHOOK_URL env) = false →
  (truthy_str (DISCORD_BOT_TOKEN env) && truthy_str (DISCORD_CHANNEL_ID env) = true →
   ∃ (botToken channelId : string) (result : UploadResult),
     DISCORD_BOT_TOKEN env = Some botToken ∧ DISCORD_CHANNEL_ID env = Some channelId
     ∧ uploadToDiscord fileBuffer filename contentType env w
       = (Return result,
          with_sent w
            (sent w ++ [{| rq_url := "https://discord.com/api/v10/channels/"
                                     +:+ channelId +:+ "/messages";
                           rq_method := "POST";
                           rq_headers := [("Authorization", "Bot " +:+ botToken)];
                           rq_body := upload_form fileBuffer filename contentType |}])))
  ∧ (truthy_str (DISCORD_BOT_TOKEN env) && truthy_str (DISCORD_CHANNEL_ID env) = false →
     uploadToDiscord fileBuffer filename contentType env w
     = (Return (Failure (VStr "Discord 未配置 Webhook URL 或 Bot Token")), w)).
Proof.
  intros Hhook. unfold uploadToDiscord. rewrite Hhook. split.
  - intros Hbot. rewrite Hbot.
    destruct (DISCORD_BOT_TOKEN env) as [botToken|]; [|done].
    destruct (DISCORD_CHANNEL_ID env) as [channelId|];
      [|by rewrite andb_false_r in Hbot].
    exists botToken, channelId. eexists. split; [done|]. split; [done|].
    cbn [default from_option]. pose proof uploadViaBot_run as Hrun.
    cbv zeta in Hrun. rewrite Hrun. reflexivity.
  - intros Hbot. by rewrite Hbot.
Qed.

Local Ltac run :=
  unfold catch_default, try_catch, json, lift, mbind, M_bind, mret, M_ret, throw;
  cbv beta iota zeta; cbn [negb fst snd].

(** The answer both upload paths read, case by case. *)
Lemma read_upload_response_cases (r : Response) (w : World) :
  let result := (read_upload_response r w).1 in
  (ok r = false → resp_json r = None →
   result = Return (Failure (VStr ("HTTP " +:+ Number_toString (Js.status r)))))
  ∧ (∀ err msg, ok r = false → resp_json r = Some err →
       get_prop "message" err = Return msg →
       result = Return (Failure (if truthy msg then msg
                                 else VStr ("HTTP " +:+ Number_toString (Js.status r)))))
  ∧ (∀ err e, ok r = false → resp_json r = Some err →
       get_prop "message" err = Throw e → result = Throw e)
  ∧ (ok r = true → resp_json r = None → result = Throw (Native JSONSyntax))
  ∧ (∀ msg e, ok r = true → resp_json r = Some msg →
       get_prop "attachments" msg = Throw e → result = Throw e)
  ∧ (∀ msg attachments, ok r = true → resp_json r = Some msg →
       get_prop "attachments" msg = Return attachments →
       falsy (opt_index0 attachments) = true →
       result = Return (Failure (VStr "未获取到附件信息")))
  ∧ (∀ msg attachments, ok r = true → resp_json r = Some msg →
       get_prop "attachments" msg = Return attachments →
       falsy (opt_index0 attachments) = false →
       ∃ channel_id id attachment_id attachment_filename attachment_size,
         get_prop "channel_id" msg = Return channel_id
         ∧ get_prop "id" msg = Return id
         ∧ get_prop "id" (opt_index0 attachments) = Return attachment_id
         ∧ get_prop "filename" (opt_index0 attachments) = Return attachment_filename
         ∧ get_prop "size" (opt_index0 attachments) = Return attachment_size
         ∧ result = Return (Success channel_id id attachment_id attachment_filename
                              attachment_size)).
Proof.
  cbv zeta. unfold read_upload_response.
  split; [|split; [|split; [|split; [|split; [|split]]]]].
  - intros -> Hj. run. rewrite Hj. run. done.
  - intros err msg -> Hj Hm. run. rewrite Hj. run. rewrite Hm. run. done.
  - intros err e -> Hj Hm. run. rewrite Hj. run. rewrite Hm. run. done.
  - intros -> Hj. run. rewrite Hj. run. done.
  - intros msg e -> Hj Ha. run. rewrite Hj. run. rewrite Ha. run. done.
  - intros msg attachments -> Hj Ha Hf. run. rewrite Hj. run. rewrite Ha. run.
    rewrite Hf. done.
  - intros msg attachments -> Hj Ha Hf.
    destruct (get_prop_defined _ "channel_id" _ _ Ha) as [channel_id Hc].
    destruct (get_prop_defined _ "id" _ _ Ha) as [id Hi].
    assert (∀ k, ∃ x, get_prop k (opt_index0 attachments) = Return x) as Hatt.
    { intros k. destruct (opt_index0 attachments); simpl in *; try done; eauto. }
    destruct (Hatt "id") as [aid Haid].
    destruct (Hatt "filename") as [afn Hafn].
    destruct (Hatt "size") as [asz Hasz].
    exists channel_id, id, aid, afn, asz.
    do 5 (split; [done|]).
    run. rewrite Hj. run. rewrite Ha. run. rewrite Hf. run.
    rewrite Hc. run. rewrite Hi. run. rewrite Haid. run. rewrite Hafn. run.
    rewrite Hasz. run. done.
Qed.

(** X20.  How an upload through the bot ends, by what the provider
    answered.  A transport failure, an answer that is not JSON where JSON
    is read, and a JSON answer that is null all become a failure result
    carrying the error's message.  A refusal status becomes a failure
    carrying the [message] of the JSON answer, or [HTTP] and the status
    when there is none; a success answer without a first attachment
    becomes a failure; and a success answer with one becomes a success
    result carrying the channel, the message and the attachment read off
    the answer. *)
Theorem uploadViaBot_results (fileBuffer : list Byte.byte)
    (filename contentType botToken channelId : string) (w : World) :
  let rq := bot_request fileBuffer filename contentType botToken channelId in
  let result := (uploadViaBot fileBuffer filename contentType botToken channelId w).1 in
  (∀ e, net w rq = NetFail e → result = Return (Failure (VStr (message e))))
  ∧ (∀ r, net w rq = NetOk r → ok r = false →
       (resp_json r = None →
        result = Return (Failure (VStr ("HTTP " +:+ Number_toString (Js.status r)))))
       ∧ (∀ err msg, resp_json r = Some err → get_prop "message" err = Return msg →
            result = Return (Failure (if truthy msg then msg
                                      else VStr ("HTTP "
                                                 +:+ Number_toString (Js.status r)))))
       ∧ (∀ err e, resp_json r = Some err → get_prop "message" err = Throw e →
            result = Return (Failure (VStr (message e)))))
  ∧ (∀ r, net w rq = NetOk r → ok r = true →
       (resp_json r = None →
        result = Return (Failure (VStr (message (Native JSONSyntax)))))
       ∧ (∀ msg e, resp_json r = Some msg → get_prop "attachments" msg = Throw e →
            result = Return (Failure (VStr (message e))))
       ∧ (∀ msg attachments, resp_json r = Some msg →
            get_prop "attachments" msg = Return attachments →
            (falsy (opt_index0 attachments) = true →
             result = Return (Failure (VStr "未获取到附件信息")))
            ∧ (falsy (opt_index0 attachments) = false →
               ∃ channel_id id attachment_id attachment_filename attachment_size,
                 get_prop "channel_id" msg = Return channel_id
                 ∧ get_prop "id" msg = Return id
                 ∧ get_prop "id" (opt_index0 attachments) = Return attachment_id
                 ∧ get_prop "filename" (opt_index0 attachments)
                   = Return attachment_filename
                 ∧ get_prop "size" (opt_index0 attachments) = Return attachment_size
                 ∧ result = Return (Success channel_id id attachment_id
                                      attachment_filename attachment_size)))).
Proof.
  cbv zeta. pose proof uploadViaBot_run as Hrun. cbv zeta in Hrun. rewrite Hrun.
  cbn [fst]. clear Hrun.
  set (rq := bot_request fileBuffer filename contentType botToken channelId).
  split; [by intros e ->|]. split.
  - intros r -> Hok.
    destruct (read_upload_response_cases r (with_sent w (sent w ++ [rq])))
      as (H1 & H2 & H3 & _). cbv zeta in *.
    split; [intros Hj; by rewrite H1|]. split.
    + intros err msg Hj Hm. by rewrite (H2 err msg).
    + intros err e Hj Hm. by rewrite (H3 err e).
  - intros r -> Hok.
    destruct (read_upload_response_cases r (with_sent w (sent w ++ [rq])))
      as (_ & _ & _ & H4 & H5 & H6 & H7). cbv zeta in *.
    split; [intros Hj; by rewrite H4|]. split.
    + intros msg e Hj Ha. by rewrite (H5 msg e).
    + intros msg attachments Hj Ha. split.
      * intros Hf. by rewrite (H6 msg attachments).
      * intros Hf.
        destruct (H7 msg attachments Hok Hj Ha Hf)
          as (c & i & a & f & s & Hc & Hi & Haid & Hafn & Hasz & ->).
        by exists c, i, a, f, s.
Qed.

Lemma read_upload_response_outcome (r : Response) (w w0 : World) :
  (read_upload_response r w).1 = (read_upload_response r w0).1.
Proof.
  unfold read_upload_response, catch_default, try_catch, json, lift,
    mbind, M_bind, mret, M_ret, throw.
  repeat (case_match; simplify_eq/=; try done).
Qed.

(** X27.  The two upload paths differ in the request they send and in
    nothing else: when the provider gives the webhook request and the bot
    request the same answer, or fails both in the same way, the two paths
    resolve to the same result. *)
Theorem upload_paths_agree (fileBuffer : list Byte.byte)
    (filename contentType webhookUrl botToken channelId : string) (w w0 : World) :
  net w (webhook_request fileBuffer filename contentType webhookUrl)
  = net w0 (bot_request fileBuffer filename contentType botToken channelId) →
  (uploadViaWebhook fileBuffer filename contentType webhookUrl w).1
  = (uploadViaBot fileBuffer filename contentType botToken channelId w0).1.
Proof.
  intros Hnet. pose proof uploadViaWebhook_run as Hw. pose proof uploadViaBot_run as Hb.
  cbv zeta in Hw, Hb. rewrite Hw, Hb, Hnet. cbn [fst].
  destruct (net w0 _) as [e|r]; [done|].
  by rewrite (read_upload_response_outcome r _ w0),
    (read_upload_response_outcome r (with_sent w0 _) w0).
Qed.

Lemma getDiscordFileUrl_run (channelId messageId botToken : string) (env : Env)
    (w : World) :
  DISCORD_BOT_TOKEN env = Some botToken → botToken ≠ "" →
  let rq := message_request channelId messageId botToken in
  let w' := with_sent w (sent w ++ [rq]) in
  getDiscordFileUrl channelId messageId env w
  = match net w rq with
    | NetFail e => (Throw e, w')
    | NetOk r =>
        (if ok r
         then match resp_json r with
              | None => Throw (Native JSONSyntax)
              | Some msg =>
                  match get_prop "attachments" msg with
                  | Throw e => Throw e
                  | Return attachments =>
                      let attachment := opt_index0 attachments in
                      let field k := match get_prop k attachment with
                                     | Return x => x
                                     | Throw _ => VUndefined
                                     end in
                      if falsy attachment then Return None
                      else Return (Some {| file_url := field "url";
                                           file_filename := field "filename";
                                           file_size := field "size";
                                           file_contentType := field "content_type" |})
                  end
              end
         else if Js.status r =? 404 then Return None
         else Throw (Error ("Discord API error: " +:+ Number_toString (Js.status r))),
         w')
    end.
Proof.
  intros Htoken Hne. cbv zeta. unfold getDiscordFileUrl. cbv zeta. rewrite Htoken.
  unfold truthy_str. rewrite bool_decide_eq_false_2 by done. cbn [negb default from_option].
  rewrite send_signed. destruct (net w _) as [e|r]; [done|].
  destruct (ok r); cbn [negb]; [|by destruct (Js.status r =? 404)].
  unfold json, mbind, M_bind, lift, mret, M_ret, throw.
  destruct (resp_json r) as [msg|]; [|done].
  destruct (get_prop "attachments" msg) as [attachments|e]; [|done].
  destruct (falsy (opt_index0 attachments)) eqn:Hf; [done|].
  assert (∀ k, ∃ x, get_prop k (opt_index0 attachments) = Return x) as Hatt.
  { intros k. destruct (opt_index0 attachments); simpl in *; try done; eauto. }
  destruct (Hatt "url") as [a ->], (Hatt "filename") as [b ->],
    (Hatt "size") as [c ->], (Hatt "content_type") as [d ->].
  done.
Qed.

(** X21.  [getDiscordFileUrl] throws, without a request, when the bot
    token is missing or empty.  With a token it sends one GET for the
    message and returns null when the answer is 404 or the message has no
    first attachment; any other refusal status makes it throw an Error
    carrying the status, and a transport failure or an answer that is not
    JSON is thrown as it is: nothing is caught here. *)
Theorem getDiscordFileUrl_outcomes (channelId messageId : string) (env : Env)
    (w : World) :
  let outcome := (getDiscordFileUrl channelId messageId env w).1 in
  let w' := (getDiscordFileUrl channelId messageId env w).2 in
  (truthy_str (DISCORD_BOT_TOKEN env) = false →
   outcome = Throw (Error "需要 DISCORD_BOT_TOKEN 才能获取文件") ∧ w' = w)
  ∧ (∀ botToken, DISCORD_BOT_TOKEN env = Some botToken → botToken ≠ "" →
       let rq := {| rq_url := "https://discord.com/api/v10/channels/" +:+ channelId
                              +:+ "/messages/" +:+ messageId;
                    rq_method := "GET";
                    rq_headers := [("Authorization", "Bot " +:+ botToken)];
                    rq_body := BodyNone |} in
       sent w' = sent w ++ [rq]
       ∧ (∀ e, net w rq = NetFail e → outcome = Throw e)
       ∧ (∀ r, net w rq = NetOk r →
            (ok r = false → Js.status r = 404 → outcome = Return None)
            ∧ (ok r = false → Js.status r ≠ 404 →
               outcome = Throw (Error ("Discord API error: "
                                       +:+ Number_toString (Js.status r))))
            ∧ (ok r = true → resp_json r = None → outcome = Throw (Native JSONSyntax))
            ∧ (∀ msg attachments, ok r = true → resp_json r = Some msg →
                 get_prop "attachments" msg = Return attachments →
                 (falsy (opt_index0 attachments) = true → outcome = Return None)
                 ∧ (falsy (opt_index0 attachments) = false →
                    ∃ info, outcome = Return (Some info)
                      ∧ get_prop "url" (opt_index0 attachments)
                        = Return (file_url info)
                      ∧ get_prop "filename" (opt_index0 attachments)
                        = Return (file_filename info)
                      ∧ get_prop "size" (opt_index0 attachments)
                        = Return (file_size info)
                      ∧ get_prop "content_type" (opt_index0 attachments)
                        = Return (file_contentType info))))).
Proof.
  cbv zeta. split.
  - intros Htoken. unfold getDiscordFileUrl. cbv zeta. by rewrite Htoken.
  - intros botToken Htoken Hne.
    pose proof (getDiscordFileUrl_run channelId messageId botToken env w Htoken Hne)
      as Hrun.
    cbv zeta in Hrun. rewrite Hrun. clear Hrun.
    assert (message_request channelId messageId botToken
            = {| rq_url := "https://discord.com/api/v10/channels/" +:+ channelId
                           +:+ "/messages/" +:+ messageId;
                 rq_method := "GET";
                 rq_headers := [("Authorization", "Bot " +:+ botToken)];
                 rq_body := BodyNone |}) as ->.
    { unfold message_request, bot_messages_url. f_equal.
      rewrite !string_app_assoc. reflexivity. }
    split; [by destruct (net w _)|].
    split; [by intros e ->|].
    intros r ->. cbn [fst].
    split; [intros -> ->; done|].
    split; [intros -> Hs; by destruct (Z.eqb_spec (Js.status r) 404)|].
    split; [by intros -> ->|].
    intros msg attachments -> -> ->. split; [by intros ->|].
    intros Hf. rewrite Hf.
    assert (∀ k, ∃ x, get_prop k (opt_index0 attachments) = Return x) as Hatt.
    { intros k. destruct (opt_index0 attachments); simpl in *; try done; eauto. }
    destruct (Hatt "url") as [a Ha], (Hatt "filename") as [b Hb],
      (Hatt "size") as [c Hc], (Hatt "content_type") as [d Hd].
    rewrite Ha, Hb, Hc, Hd. eexists. split; [reflexivity|]. by repeat split.
Qed.

End DiscordProperties.

(** ** Connection checks and the HuggingFace module *)

Section Probes.
Import Js.
Context `{Platform}.

Local Ltac run :=
  unfold catch_default, try_catch, json, lift, mbind, M_bind, mret, M_ret, throw;
  cbv beta iota zeta; cbn [negb fst snd].

(** One probe of [checkDiscordConnection]: the request is sent; the probe
    returns a connection when the answer is a success and its JSON can be
    read, and falls through otherwise. *)
Lemma probe_run (rq : Request) (k : jsval → M (option Discord.Connection)) (w : World) :
  (∀ data w0, (k data w0).2 = w0) →
  ∃ found : option Discord.Connection,
    try_catch
      (response ← fetch rq;
       if ok response then mbind k (json response) else mret None)
      (λ e, mret None) w
    = (Return found, with_sent w (sent w ++ [rq]))
    ∧ (∀ c, found = Some c →
         ∃ r data, net w rq = NetOk r ∧ ok r = true ∧ resp_json r = Some data
                   ∧ (k data (with_sent w (sent w ++ [rq]))).1 = Return (Some c)).
Proof.
  intros Hk. unfold try_catch. rewrite send_signed.
  destruct (net w rq) as [e|r]; [by exists None|].
  destruct (ok r) eqn:Hok; [|by exists None].
  unfold json. destruct (resp_json r) as [data|] eqn:Hj; [|by exists None].
  unfold mbind, M_bind, mret at 1, M_ret at 1.
  pose proof (Hk data (with_sent w (sent w ++ [rq]))) as Hw.
  destruct (k data _) as [[found|e] w'] eqn:Hkd; simpl in Hw; subst w'.
  - exists found. split; [done|]. intros c ->. exists r, data.
    by rewrite Hkd.
  - by exists None.
Qed.

Lemma checkDiscordConnection_run (env : Env) (w : World) :
  let hook := Discord.webhook_probe (default "" (DISCORD_WEBHOOK_URL env)) in
  let bot := Discord.bot_probe (default "" (DISCORD_BOT_TOKEN env)) in
  (∃ name channelId r data,
     Discord.checkDiscordConnection env w
     = (Return (Discord.Connected "webhook" name channelId),
        with_sent w (sent w ++ [hook]))
     ∧ truthy_str (DISCORD_WEBHOOK_URL env) = true
     ∧ net w hook = NetOk r ∧ ok r = true ∧ resp_json r = Some data
     ∧ get_prop "name" data = Return name
     ∧ get_prop "channel_id" data = Return channelId)
  ∨ (∃ c,
       Discord.checkDiscordConnection env w
       = (Return c,
          with_sent w
            (sent w ++ (if truthy_str (DISCORD_WEBHOOK_URL env) then [hook] else [])
                    ++ (if truthy_str (DISCORD_BOT_TOKEN env) then [bot] else [])))
       ∧ (c = Discord.NotConnected
          ∨ ∃ name, c = Discord.Connected "bot" name
                          (Discord.env_value (DISCORD_CHANNEL_ID env))
                    ∧ truthy_str (DISCORD_BOT_TOKEN env) = true)).
Proof.
  cbv zeta. unfold Discord.checkDiscordConnection.
  set (hook := Discord.webhook_probe (default "" (DISCORD_WEBHOOK_URL env))).
  set (bot := Discord.bot_probe (default "" (DISCORD_BOT_TOKEN env))).
  set (kh := λ data : jsval,
         (name ← lift (get_prop "name" data);
          channel_id ← lift (get_prop "channel_id" data);
          mret (Some (Discord.Connected "webhook" name channel_id)))
         : M (option Discord.Connection)).
  set (kb := λ data : jsval,
         (username ← lift (get_prop "username" data);
          mret (Some (Discord.Connected "bot" username
                        (Discord.env_value (DISCORD_CHANNEL_ID env)))))
         : M (option Discord.Connection)).
  assert (∀ data w0, (kh data w0).2 = w0) as Hkh.
  { intros data w0. unfold kh. run.
    destruct (get_prop "name" data); [|done].
    by destruct (get_prop "channel_id" data). }
  assert (∀ data w0, (kb data w0).2 = w0) as Hkb.
  { intros data w0. unfold kb. run. by destruct (get_prop "username" data). }
  assert (∀ data w0 c, (kh data w0).1 = Return (Some c) →
            ∃ name channelId, c = Discord.Connected "webhook" name channelId
              ∧ get_prop "name" data = Return name
              ∧ get_prop "channel_id" data = Return channelId) as Hkh'.
  { intros data w0 c. unfold kh. run.
    destruct (get_prop "name" data) as [name|]; [|done].
    destruct (get_prop "channel_id" data) as [ch|]; [|done].
    intros [= <-]. by exists name, ch. }
  assert (∀ data w0 c, (kb data w0).1 = Return (Some c) →
            ∃ name, c = Discord.Connected "bot" name
                          (Discord.env_value (DISCORD_CHANNEL_ID env))) as Hkb'.
  { intros data w0 c. unfold kb. run.
    destruct (get_prop "username" data) as [name|]; [|done].
    intros [= <-]. by eexists. }
  assert (∀ w0 : World,
            ∃ c, ((if truthy_str (DISCORD_BOT_TOKEN env)
                   then try_catch
                          (response ← fetch bot;
                           if ok response then mbind kb (json response) else mret None)
                          (λ e, mret None)
                   else mret None)
                  ≫= λ viaBot : option Discord.Connection,
                       match viaBot with
                       | Some connection => mret connection
                       | None => mret Discord.NotConnected
                       end) w0
                 = (Return c,
                    with_sent w0
                      (sent w0 ++ (if truthy_str (DISCORD_BOT_TOKEN env)
                                   then [bot] else [])))
                 ∧ (c = Discord.NotConnected
                    ∨ ∃ name, c = Discord.Connected "bot" name
                                    (Discord.env_value (DISCORD_CHANNEL_ID env))
                              ∧ truthy_str (DISCORD_BOT_TOKEN env) = true)) as Hbot.
  { intros w0. unfold mbind at 1, M_bind at 1.
    destruct (truthy_str (DISCORD_BOT_TOKEN env)) eqn:Ht.
    - destruct (probe_run bot kb w0 Hkb) as (found & -> & Hfound).
      destruct found as [c|].
      + destruct (Hfound c eq_refl) as (r & data & _ & _ & _ & Hk).
        destruct (Hkb' _ _ _ Hk) as (name & ->).
        eexists. split; [reflexivity|]. right. by exists name.
      + eexists. split; [reflexivity|]. by left.
    - exists Discord.NotConnected. split; [|by left].
      unfold mret, M_ret. f_equal. destruct w0; unfold with_sent; simpl.
      by rewrite app_nil_r. }
  destruct (truthy_str (DISCORD_WEBHOOK_URL env)) eqn:Hhook.
  - destruct (probe_run hook kh w Hkh) as (found & Hrun & Hfound).
    destruct found as [c|].
    + left. destruct (Hfound c eq_refl) as (r & data & Hnet & Hok & Hj & Hk).
      destruct (Hkh' _ _ _ Hk) as (name & ch & -> & Hn & Hc).
      exists name, ch, r, data.
      unfold mbind at 1, M_bind at 1. by rewrite Hrun.
    + right. destruct (Hbot (with_sent w (sent w ++ [hook]))) as (c & Hrun' & Hc).
      exists c. split; [|done].
      unfold mbind at 1, M_bind at 1. rewrite Hrun. cbv beta iota. rewrite Hrun'.
      unfold with_sent. simpl. by rewrite <- app_assoc.
  - right. destruct (Hbot w) as (c & Hrun' & Hc). exists c. split; [|done].
    unfold mbind at 1, M_bind at 1. unfold mret at 1, M_ret at 1. cbv beta iota.
    by rewrite Hrun'.
Qed.

(** X22.  [checkDiscordConnection] never throws and sends at most two
    requests, the probe of the webhook and then the probe of the bot, each
    only if it is configured.  With neither a webhook URL nor a bot token
    it sends nothing and reports no connection.  It reports a webhook
    connection only when the webhook answered its probe with a success
    status and a JSON body, and then the bot is not probed; in every other
    case each configured probe was sent, the webhook's first, and the
    report is a bot connection or none. *)
Theorem checkDiscordConnection_probes (env : Env) (w : World) :
  let outcome := (Discord.checkDiscordConnection env w).1 in
  let w' := (Discord.checkDiscordConnection env w).2 in
  let hook := Discord.webhook_probe (default "" (DISCORD_WEBHOOK_URL env)) in
  let bot := Discord.bot_probe (default "" (DISCORD_BOT_TOKEN env)) in
  (∃ c, outcome = Return c)
  ∧ (truthy_str (DISCORD_WEBHOOK_URL env) = false →
     truthy_str (DISCORD_BOT_TOKEN env) = false →
     outcome = Return Discord.NotConnected ∧ sent w' = sent w)
  ∧ (∀ name channelId, outcome = Return (Discord.Connected "webhook" name channelId) →
       sent w' = sent w ++ [hook]
       ∧ truthy_str (DISCORD_WEBHOOK_URL env) = true
       ∧ ∃ r data, net w hook = NetOk r ∧ ok r = true ∧ resp_json r = Some data
                   ∧ get_prop "name" data = Return name
                   ∧ get_prop "channel_id" data = Return channelId)
  ∧ ((∀ name channelId,
        outcome ≠ Return (Discord.Connected "webhook" name channelId)) →
     sent w' = sent w
               ++ (if truthy_str (DISCORD_WEBHOOK_URL env) then [hook] else [])
               ++ (if truthy_str (DISCORD_BOT_TOKEN env) then [bot] else [])
     ∧ (outcome = Return Discord.NotConnected
        ∨ ∃ name, outcome = Return (Discord.Connected "bot" name
                                      (Discord.env_value (DISCORD_CHANNEL_ID env)))
                  ∧ truthy_str (DISCORD_BOT_TOKEN env) = true)).
Proof.
  cbv zeta.
  destruct (checkDiscordConnection_run env w)
    as [(name & ch & r & data & -> & Hhook & Hnet & Hok & Hj & Hn & Hc)
       |(c & -> & Hc)]; cbn [fst snd sent with_sent].
  - split; [by eexists|]. split; [intros Hf; by rewrite Hf in Hhook|].
    split.
    + intros name' ch' [= <- <-]. split; [done|]. split; [done|]. by exists r, data.
    + intros Hnot. by destruct (Hnot name ch).
  - split; [by eexists|]. split.
    + intros Hh Hb. rewrite Hh, Hb, app_nil_r. split; [|done].
      destruct Hc as [->|(name & _ & Ht)]; [done|congruence].
    + split.
      * intros name ch [= ->]. destruct Hc as [[=]|(name' & [=] & _)].
      * intros _. split; [done|].
        destruct Hc as [->|(name & -> & Ht)]; [by left|right; by exists name].
Qed.

End Probes.

Section HuggingFaceProperties.
Import Js HuggingFace.
Context `{Platform}.

Local Ltac run :=
  unfold catch_default, try_catch, json, lift, mbind, M_bind, mret, M_ret, throw;
  cbv beta iota zeta; cbn [negb fst snd].

Lemma uploadToHuggingFace_run (fileBuffer : list Byte.byte)
    (pathInRepo fileName token repo : string) (env : Env) (w : World) :
  HF_TOKEN env = Some token → token ≠ "" → HF_REPO env = Some repo → repo ≠ "" →
  let rq := commit_upload_request fileBuffer pathInRepo fileName token repo in
  uploadToHuggingFace fileBuffer pathInRepo fileName env w
  = (Return
       (match net w rq with
        | NetFail e => UploadFailed (message e)
        | NetOk r =>
            if ok r
            then match resp_json r with
                 | None => UploadFailed (message (Native JSONSyntax))
                 | Some result =>
                     match get_prop "commitOid" result with
                     | Return commitOid => Uploaded commitOid
                     | Throw e => UploadFailed (message e)
                     end
                 end
            else UploadFailed ("HF 上传失败 (" +:+ Number_toString (Js.status r)
                               +:+ "): " +:+ resp_text r)
        end), with_sent w (sent w ++ [rq])).
Proof.
  intros Ht Hte Hr Hre. cbv zeta. unfold uploadToHuggingFace. cbv zeta.
  rewrite Ht, Hr. unfold truthy_str. rewrite !bool_decide_eq_false_2 by done.
  cbn [negb orb default from_option]. unfold try_catch. rewrite send_signed.
  unfold commit_upload_request.
  destruct (net w _) as [e|r]; [done|].
  destruct (ok r); cbn [negb]; [|done].
  run. destruct (resp_json r) as [result|]; [|done].
  by destruct (get_prop "commitOid" result).
Qed.

(** X23.  [uploadToHuggingFace] never throws.  Without a token or a
    repository it sends nothing and resolves to a configuration failure.
    Otherwise it sends one commit request and resolves to a success
    carrying the [commitOid] of a success answer, or to a failure: with
    the status and the provider's text on a refusal status, and with the
    error's message when the request fails in transit, when the success
    answer is not JSON, or when it is the JSON [null]. *)
Theorem uploadToHuggingFace_outcomes (fileBuffer : list Byte.byte)
    (pathInRepo fileName : string) (env : Env) (w : World) :
  let outcome := (uploadToHuggingFace fileBuffer pathInRepo fileName env w).1 in
  let w' := (uploadToHuggingFace fileBuffer pathInRepo fileName env w).2 in
  (truthy_str (HF_TOKEN env) && truthy_str (HF_REPO env) = false →
   outcome = Return (UploadFailed "HuggingFace 配置不完整") ∧ w' = w)
  ∧ (∀ token repo,
       HF_TOKEN env = Some token → token ≠ "" → HF_REPO env = Some repo → repo ≠ "" →
       let rq := commit_upload_request fileBuffer pathInRepo fileName token repo in
       sent w' = sent w ++ [rq]
       ∧ (∀ e, net w rq = NetFail e → outcome = Return (UploadFailed (message e)))
       ∧ (∀ r, net w rq = NetOk r →
            (ok r = false →
             outcome = Return (UploadFailed ("HF 上传失败 ("
                                             +:+ Number_toString (Js.status r)
                                             +:+ "): " +:+ resp_text r)))
            ∧ (ok r = true → resp_json r = None →
               outcome = Return (UploadFailed (message (Native JSONSyntax))))
            ∧ (∀ result commitOid, ok r = true → resp_json r = Some result →
                 get_prop "commitOid" result = Return commitOid →
                 outcome = Return (Uploaded commitOid))
            ∧ (∀ result e, ok r = true → resp_json r = Some result →
                 get_prop "commitOid" result = Throw e →
                 outcome = Return (UploadFailed (message e))))).
Proof.
  cbv zeta. split.
  - intros Hmissing. unfold uploadToHuggingFace. cbv zeta.
    destruct (truthy_str (HF_TOKEN env)), (truthy_str (HF_REPO env)); by simplify_eq.
  - intros token repo Ht Hte Hr Hre.
    pose proof (uploadToHuggingFace_run fileBuffer pathInRepo fileName token repo env w
                  Ht Hte Hr Hre) as Hrun.
    cbv zeta in Hrun. rewrite Hrun. clear Hrun. cbn [fst snd sent with_sent].
    split; [done|]. split; [by intros e ->|].
    intros r ->. split; [by intros ->|]. split; [by intros -> ->|].
    split; [by intros result oid -> -> ->|]. by intros result e -> -> ->.
Qed.

(** X24.  [getHuggingFaceFile] sends one GET for the public URL of the
    file - the URL [getHuggingFacePublicUrl] gives - with the token in the
    Authorization header exactly when a token is configured and a Range
    header exactly when a non-empty range is asked for.  It hands back the
    provider's answer whatever its status, a 404 included, and a transport
    failure is thrown as it is. *)
Theorem getHuggingFaceFile_request (pathInRepo : string) (env : Env)
    (range : option string) (w : World) :
  ∃ rq : Request,
    sent (getHuggingFaceFile pathInRepo env range w).2 = sent w ++ [rq]
    ∧ rq_url rq = getHuggingFacePublicUrl pathInRepo env
    ∧ rq_method rq = "GET" ∧ rq_body rq = BodyNone
    ∧ obj_get "Authorization" (rq_headers rq)
      = (if truthy_str (HF_TOKEN env)
         then Some ("Bearer " +:+ default "" (HF_TOKEN env)) else None)
    ∧ obj_get "Range" (rq_headers rq) = (if truthy_str range then range else None)
    ∧ (∀ name, is_Some (obj_get name (rq_headers rq)) →
         name = "Authorization" ∨ name = "Range")
    ∧ (getHuggingFaceFile pathInRepo env range w).1
      = match net w rq with
        | NetFail e => Throw e
        | NetOk r => Return r
        end.
Proof.
  unfold getHuggingFaceFile, getHuggingFacePublicUrl, fetch. cbv zeta.
  eexists. split; [by destruct (net w _)|].
  cbn [rq_url rq_method rq_body rq_headers].
  do 3 (split; [reflexivity|]).
  split; [|split; [|split; [|by destruct (net w _)]]].
  - destruct (HF_TOKEN env) as [t|]; unfold truthy_str;
      [destruct (bool_decide (t = "")); cbn [negb]|];
      destruct range as [r|];
      try (destruct (bool_decide (r = "")); cbn [negb]);
      cbn [obj_set obj_get]; rewrite ?obj_get_set; cbn [obj_get];
      rewrite ?decide_True, ?decide_False by done; done.
  - destruct (HF_TOKEN env) as [t|]; unfold truthy_str;
      [destruct (bool_decide (t = "")); cbn [negb]|];
      destruct range as [r|];
      try (destruct (bool_decide (r = "")); cbn [negb]);
      cbn [obj_set obj_get]; rewrite ?obj_get_set; cbn [obj_get];
      rewrite ?decide_True, ?decide_False by done; done.
  - intros name.
    assert (∀ k v o, is_Some (obj_get name (obj_set k v o)) →
              name = k ∨ is_Some (obj_get name o)) as Hset.
    { intros k v o. rewrite obj_get_set.
      destruct (decide (k = name)) as [<-|_]; [by left|by right]. }
    intros Hsome.
    destruct (truthy_str range);
      [apply Hset in Hsome as [->|Hsome]; [by right|]|];
      (destruct (truthy_str (HF_TOKEN env));
       [apply Hset in Hsome as [->|Hsome]; [by left|]|]);
      simpl in Hsome; by destruct Hsome.
Qed.

(** X25.  [checkHuggingFaceConnection] never throws.  Without a token or
    a repository it sends nothing and reports no connection; otherwise it
    sends one request, and it reports a connection exactly when that
    request is answered with a success status and a JSON body that is not
    null, with the [id] and [private] fields read off it. *)
Theorem checkHuggingFaceConnection_outcomes (env : Env) (w : World) :
  let outcome := (checkHuggingFaceConnection env w).1 in
  let w' := (checkHuggingFaceConnection env w).2 in
  (∃ c, outcome = Return c)
  ∧ (truthy_str (HF_TOKEN env) && truthy_str (HF_REPO env) = false →
     outcome = Return NotConnected ∧ w' = w)
  ∧ (∀ token repo,
       HF_TOKEN env = Some token → token ≠ "" → HF_REPO env = Some repo → repo ≠ "" →
       let rq := {| rq_url := "https://huggingface.co/api/datasets/" +:+ repo;
                    rq_method := "GET";
                    rq_headers := [("Authorization", "Bearer " +:+ token)];
                    rq_body := BodyNone |} in
       sent w' = sent w ++ [rq]
       ∧ ∀ id private,
           outcome = Return (Connected id private)
           ↔ ∃ r data, net w rq = NetOk r ∧ ok r = true ∧ resp_json r = Some data
                       ∧ get_prop "id" data = Return id
                       ∧ get_prop "private" data = Return private).
Proof.
  cbv zeta. unfold checkHuggingFaceConnection.
  destruct (truthy_str (HF_TOKEN env)) eqn:Ht; cbn [negb orb andb];
    [|split; [by eexists|]; split; [done|]; intros token repo Htok Hne;
      rewrite Htok in Ht; unfold truthy_str in Ht;
      by rewrite bool_decide_eq_false_2 in Ht].
  destruct (truthy_str (HF_REPO env)) eqn:Hr; cbn [negb orb andb];
    [|split; [by eexists|]; split; [done|]; intros token repo _ _ Hrepo Hne;
      rewrite Hrepo in Hr; unfold truthy_str in Hr;
      by rewrite bool_decide_eq_false_2 in Hr].
  unfold try_catch. rewrite send_signed.
  set (rq := repo_probe (default "" (HF_TOKEN env)) (default "" (HF_REPO env))).
  assert (∃ c, (match net w rq with
                | NetFail e => (Throw e, with_sent w (sent w ++ [rq]))
                | NetOk r =>
                    (if ok r
                     then data ← json r;
                          id ← lift (get_prop "id" data);
                          private ← lift (get_prop "private" data);
                          mret (Connected id private)
                     else mret NotConnected) (with_sent w (sent w ++ [rq]))
                end = (c, with_sent w (sent w ++ [rq])))
               ∧ ∀ id private,
                   c = Return (Connected id private)
                   ↔ ∃ r data, net w rq = NetOk r ∧ ok r = true
                               ∧ resp_json r = Some data
                               ∧ get_prop "id" data = Return id
                               ∧ get_prop "private" data = Return private)
    as (c & -> & Hc).
  { destruct (net w rq) as [e|r].
    { eexists. split; [reflexivity|]. intros id private.
      split; [done|]. by intros (r & data & [=] & _). }
    destruct (ok r) eqn:Hok.
    2:{ eexists. split; [reflexivity|]. intros id private.
        split; [done|]. intros (r' & data & [= <-] & Hok' & _). congruence. }
    run. destruct (resp_json r) as [data|] eqn:Hj.
    2:{ eexists. split; [reflexivity|]. intros id private.
        split; [done|]. intros (r' & data & [= <-] & _ & Hj' & _). congruence. }
    destruct (get_prop "id" data) as [id0|e] eqn:Hi.
    2:{ eexists. split; [reflexivity|]. intros id private.
        split; [done|]. intros (r' & data' & [= <-] & _ & Hj' & Hi' & _). congruence. }
    destruct (get_prop "private" data) as [p0|e] eqn:Hp.
    2:{ eexists. split; [reflexivity|]. intros id private.
        split; [done|].
        intros (r' & data' & [= <-] & _ & Hj' & _ & Hp'). congruence. }
    eexists. split; [reflexivity|]. intros id private. split.
    - intros [= <- <-]. by exists r, data.
    - intros (r' & data' & [= <-] & _ & Hj' & Hi' & Hp'). congruence. }
  split; [destruct c; by eexists|]. split; [done|].
  intros token repo Htok _ Hrepo _. unfold rq, repo_probe in *.
  rewrite Htok, Hrepo in *. cbn [default from_option] in *.
  split; [by destruct c|].
  intros id private. rewrite <- Hc. by destruct c as [[]|].
Qed.

End HuggingFaceProperties.

(** ** Base64 text of a buffer *)

Section Base64.
Import Js HuggingFace.

Lemma binary_string (bytes : list Byte.byte) (binary : string) :
  String.list_ascii_of_string
    (foldl (λ binary b, binary +:+ String (Ascii.ascii_of_byte b) "") binary bytes)
  = String.list_ascii_of_string binary ++ (Ascii.ascii_of_byte <$> bytes).
Proof.
  revert binary. induction bytes as [|b bytes IH]; intros binary; simpl.
  - by rewrite app_nil_r.
  - rewrite IH, list_ascii_app. simpl. by rewrite <- app_assoc.
Qed.

Lemma N_of_ascii_of_byte (b : Byte.byte) :
  Ascii.N_of_ascii (Ascii.ascii_of_byte b) = Byte.to_N b.
Proof. by destruct b. Qed.

(** The Base64 text of a buffer is the Base64 text of its bytes. *)
Lemma arrayBufferToBase64_units (buffer : list Byte.byte) :
  arrayBufferToBase64 buffer = btoa_units (Byte.to_N <$> buffer).
Proof.
  unfold arrayBufferToBase64, btoa. cbv zeta. rewrite binary_string. simpl.
  rewrite <- list_fmap_compose. f_equal. apply list_fmap_ext.
  intros i b _. apply N_of_ascii_of_byte.
Qed.

Lemma base64_digit_index (n : N) :
  (n < 64)%N →
  String.index 0 (String (base64_digit n) "") base64_alphabet = Some (N.to_nat n).
Proof.
  intros Hn.
  assert (n ∈ (N.of_nat <$> seq 0 64)) as Hin.
  { apply list_elem_of_fmap. exists (N.to_nat n). split; [lia|].
    apply elem_of_seq. lia. }
  cbv [seq fmap list_fmap] in Hin.
  repeat (apply elem_of_cons in Hin as [->|Hin]; [by vm_compute|]).
  by apply elem_of_nil in Hin.
Qed.

Lemma base64_digit_inj (n m : N) :
  (n < 64)%N → (m < 64)%N → base64_digit n = base64_digit m → n = m.
Proof.
  intros Hn Hm Heq. pose proof (base64_digit_index n Hn) as Hi.
  rewrite Heq, (base64_digit_index m Hm) in Hi. simplify_eq. lia.
Qed.

Lemma base64_digit_not_pad (n : N) : (n < 64)%N → base64_digit n ≠ "="%char.
Proof.
  intros Hn Heq. pose proof (base64_digit_index n Hn) as Hi.
  rewrite Heq in Hi. by vm_compute in Hi.
Qed.

Lemma string_get_beyond (s : string) (i : nat) :
  (String.length s ≤ i)%nat → String.get i s = None.
Proof.
  revert i. induction s as [|c s IH]; intros i Hi; [done|].
  simpl in Hi. destruct i as [|i]; [lia|]. simpl. apply IH. lia.
Qed.

Lemma base64_digit_alphabet (n : N) :
  base64_digit n ∈ String.list_ascii_of_string (base64_alphabet +:+ "=").
Proof.
  destruct (decide (n < 64)%N) as [Hn|Hn].
  - assert (n ∈ (N.of_nat <$> seq 0 64)) as Hin.
    { apply list_elem_of_fmap. exists (N.to_nat n). split; [lia|].
      apply elem_of_seq. lia. }
    cbv [seq fmap list_fmap] in Hin.
    repeat (apply elem_of_cons in Hin as [->|Hin];
            [vm_compute;
             repeat first [apply list_elem_of_here|apply list_elem_of_further]|]).
    by apply elem_of_nil in Hin.
  - assert (base64_digit n = "="%char) as ->.
    { unfold base64_digit.
      assert (String.get (N.to_nat n) base64_alphabet = None) as ->; [|done].
      apply string_get_beyond.
      change (String.length base64_alphabet) with 64%nat. lia. }
    vm_compute. repeat first [apply list_elem_of_here|apply list_elem_of_further].
Qed.

(** Four digits hold three bytes. *)
Lemma base64_group_inj (a b c a' b' c' : N) :
  (a < 256)%N → (b < 256)%N → (c < 256)%N →
  (a' < 256)%N → (b' < 256)%N → (c' < 256)%N →
  base64_digit (a / 4) = base64_digit (a' / 4) →
  base64_digit (a mod 4 * 16 + b / 16) = base64_digit (a' mod 4 * 16 + b' / 16) →
  base64_digit (b mod 16 * 4 + c / 64) = base64_digit (b' mod 16 * 4 + c' / 64) →
  base64_digit (c mod 64) = base64_digit (c' mod 64) →
  a = a' ∧ b = b' ∧ c = c'.
Proof.
  intros Ha Hb Hc Ha' Hb' Hc' H1 H2 H3 H4.
  pose proof (N.Div0.div_mod a 4). pose proof (N.Div0.div_mod a' 4).
  pose proof (N.Div0.div_mod b 16). pose proof (N.Div0.div_mod b' 16).
  pose proof (N.Div0.div_mod c 64). pose proof (N.Div0.div_mod c' 64).
  pose proof (N.mod_upper_bound a 4 ltac:(lia)).
  pose proof (N.mod_upper_bound a' 4 ltac:(lia)).
  pose proof (N.mod_upper_bound b 16 ltac:(lia)).
  pose proof (N.mod_upper_bound b' 16 ltac:(lia)).
  pose proof (N.mod_upper_bound c 64 ltac:(lia)).
  pose proof (N.mod_upper_bound c' 64 ltac:(lia)).
  assert (a / 4 < 64)%N by (apply N.Div0.div_lt_upper_bound; lia).
  assert (a' / 4 < 64)%N by (apply N.Div0.div_lt_upper_bound; lia).
  assert (b / 16 < 16)%N by (apply N.Div0.div_lt_upper_bound; lia).
  assert (b' / 16 < 16)%N by (apply N.Div0.div_lt_upper_bound; lia).
  assert (c / 64 < 4)%N by (apply N.Div0.div_lt_upper_bound; lia).
  assert (c' / 64 < 4)%N by (apply N.Div0.div_lt_upper_bound; lia).
  apply base64_digit_inj in H1; [|lia..].
  apply base64_digit_inj in H2; [|lia..].
  apply base64_digit_inj in H3; [|lia..].
  apply base64_digit_inj in H4; [|lia..].
  lia.
Qed.

Lemma btoa_units_inj (l l' : list N) :
  Forall (λ n, (n < 256)%N) l → Forall (λ n, (n < 256)%N) l' →
  btoa_units l = btoa_units l' → l = l'.
Proof.
  remember (length l) as k eqn:Hk. revert l l' Hk.
  induction k as [k IH] using lt_wf_ind. intros l l' Hk Hl Hl' Heq.
  assert (∀ n, (n < 256)%N → (n / 4 < 64)%N) as Hq4
    by (intros n Hn; apply N.Div0.div_lt_upper_bound; lia).
  assert (∀ a b, (a < 256)%N → (b < 256)%N → (a mod 4 * 16 + b / 16 < 64)%N) as Hq2.
  { intros a b Ha Hb. pose proof (N.mod_upper_bound a 4 ltac:(lia)).
    assert (b / 16 < 16)%N by (apply N.Div0.div_lt_upper_bound; lia). lia. }
  assert (∀ b c, (b < 256)%N → (c < 256)%N → (b mod 16 * 4 + c / 64 < 64)%N) as Hq3.
  { intros b c Hb Hc. pose proof (N.mod_upper_bound b 16 ltac:(lia)).
    assert (c / 64 < 4)%N by (apply N.Div0.div_lt_upper_bound; lia). lia. }
  assert (∀ n, (n mod 64 < 64)%N) as Hq1
    by (intros n; apply N.mod_upper_bound; lia).
  assert (∀ a, (a < 256)%N → (a mod 4 * 16 < 64)%N) as Hp2.
  { intros a Ha. pose proof (N.mod_upper_bound a 4 ltac:(lia)). lia. }
  assert (∀ b, (b < 256)%N → (b mod 16 * 4 < 64)%N) as Hp3.
  { intros b Hb. pose proof (N.mod_upper_bound b 16 ltac:(lia)). lia. }
  destruct l as [|a [|b [|c rest]]], l' as [|a' [|b' [|c' rest']]];
    cbn [btoa_units] in Heq; try discriminate Heq;
    repeat match goal with
           | Hf : Forall _ (_ :: _) |- _ => apply Forall_cons in Hf as [? Hf]
           end.
  - done.
  - (* one byte each *)
    injection Heq as E1 E2.
    apply base64_digit_inj in E1; [|by auto..].
    apply base64_digit_inj in E2; [|by auto..].
    pose proof (N.Div0.div_mod a 4). pose proof (N.Div0.div_mod a' 4).
    f_equal. lia.
  - (* one byte against two: the third character is a pad or a digit *)
    exfalso. injection Heq as _ _ E3. symmetry in E3.
    by apply base64_digit_not_pad in E3; [|auto].
  - exfalso. injection Heq as _ _ E3 _. symmetry in E3.
    by apply base64_digit_not_pad in E3; [|auto].
  - exfalso. injection Heq as _ _ E3.
    by apply base64_digit_not_pad in E3; [|auto].
  - (* two bytes each *)
    injection Heq as E1 E2 E3.
    apply base64_digit_inj in E1; [|by auto..].
    apply base64_digit_inj in E2; [|by auto..].
    apply base64_digit_inj in E3; [|by auto..].
    pose proof (N.Div0.div_mod a 4). pose proof (N.Div0.div_mod a' 4).
    pose proof (N.Div0.div_mod b 16). pose proof (N.Div0.div_mod b' 16).
    pose proof (N.mod_upper_bound a 4 ltac:(lia)).
    pose proof (N.mod_upper_bound a' 4 ltac:(lia)).
    assert (b / 16 < 16)%N by (apply N.Div0.div_lt_upper_bound; lia).
    assert (b' / 16 < 16)%N by (apply N.Div0.div_lt_upper_bound; lia).
    assert (a = a') by lia. assert (b = b') by lia. by subst.
  - (* two bytes against three or more *)
    exfalso. injection Heq as _ _ _ E4 _. symmetry in E4.
    by apply base64_digit_not_pad in E4.
  - exfalso. injection Heq as _ _ E3 _.
    by apply base64_digit_not_pad in E3; [|auto].
  - exfalso. injection Heq as _ _ _ E4 _.
    by apply base64_digit_not_pad in E4.
  - (* three bytes or more each *)
    injection Heq as E1 E2 E3 E4 Hrest.
    destruct (base64_group_inj a b c a' b' c') as (-> & -> & ->); try done.
    do 3 f_equal.
    apply (IH (length rest)); [simpl in Hk; lia|done..].
Qed.

Lemma btoa_units_length (l : list N) :
  String.length (btoa_units l) = (4 * ((length l + 2) / 3))%nat.
Proof.
  remember (length l) as k eqn:Hk. revert l Hk.
  induction k as [k IH] using lt_wf_ind. intros l Hk.
  destruct l as [|a [|b [|c rest]]]; subst k; try done.
  cbn [btoa_units String.length length].
  rewrite (IH (length rest)) by (simpl; lia || done).
  replace (S (S (S (length rest))) + 2)%nat with (1 * 3 + (length rest + 2))%nat by lia.
  rewrite Nat.div_add_l by lia. lia.
Qed.

Lemma btoa_units_chars (l : list N) :
  Forall (λ c, c ∈ String.list_ascii_of_string (base64_alphabet +:+ "="))
    (String.list_ascii_of_string (btoa_units l)).
Proof.
  assert ("="%char ∈ String.list_ascii_of_string (base64_alphabet +:+ "=")) as Hpad.
  { vm_compute. repeat first [apply list_elem_of_here|apply list_elem_of_further]. }
  remember (length l) as k eqn:Hk. revert l Hk.
  induction k as [k IH] using lt_wf_ind. intros l Hk.
  destruct l as [|a [|b [|c rest]]]; cbn [btoa_units String.list_ascii_of_string].
  - apply Forall_nil_2.
  - repeat (apply Forall_cons; split; [first [apply base64_digit_alphabet|exact Hpad]|]).
    apply Forall_nil_2.
  - repeat (apply Forall_cons; split; [first [apply base64_digit_alphabet|exact Hpad]|]).
    apply Forall_nil_2.
  - repeat (apply Forall_cons; split; [apply base64_digit_alphabet|]).
    apply (IH (length rest)); [subst k; simpl; lia|done].
Qed.

(** X26.  [arrayBufferToBase64] writes four characters of the Base64
    alphabet, padding included, for every three bytes or part of three,
    and loses nothing: buffers with the same Base64 text are the same
    buffer. *)
Theorem arrayBufferToBase64_faithful (buffer buffer' : list Byte.byte) :
  String.length (arrayBufferToBase64 buffer) = (4 * ((length buffer + 2) / 3))%nat
  ∧ Forall (λ c, c ∈ String.list_ascii_of_string (base64_alphabet +:+ "="))
      (String.list_ascii_of_string (arrayBufferToBase64 buffer))
  ∧ (arrayBufferToBase64 buffer = arrayBufferToBase64 buffer' → buffer = buffer').
Proof.
  rewrite !arrayBufferToBase64_units. split; [|split].
  - by rewrite btoa_units_length, length_fmap.
  - apply btoa_units_chars.
  - intros Heq.
    assert (∀ l : list Byte.byte, Forall (λ n, (n < 256)%N) (Byte.to_N <$> l)) as Hb.
    { intros l. apply Forall_fmap, Forall_forall. intros b _. simpl.
      pose proof (Byte.to_N_bounded b). lia. }
    apply btoa_units_inj in Heq; [|apply Hb..].
    assert (Inj (=) (=) Byte.to_N) as Hinj.
    { intros a b Hab. apply (f_equal Byte.of_N) in Hab.
      rewrite !Byte.of_to_N in Hab. by simplify_eq. }
    revert Heq. apply (inj (fmap Byte.to_N)).
Qed.

End Base64.

(** ** Closed examples for the further properties *)

Section FurtherExamples.
Import Js S3 Signed Sample.

(** X1, on a key with brackets and a star. *)
Lemma uriEncode_escapes_reserved_witness :
("("%char ∉ String.list_ascii_of_string (uriEncode (H := platform) "a(b)*" true))
  ∧ uriEncode (H := platform) "a(b)*" true = "a%28b%29%2A".
Proof.
  split; [|reflexivity].
  apply (uriEncode_escapes_reserved (H := platform) "a(b)*" true "("%char).
  do 2 apply list_elem_of_further. apply list_elem_of_here.
Defined.

(** X5, at the sample clock. *)
Lemma signRequest_timestamp_format_witness :
  obj_get "x-amz-date"
    (contents
       (signRequest (H := platform) "GET" "https://s3.example.com/bkt/a.txt" 0%nat PNull
          credentials
          (holding (world noon noon_ms (NetOk (response 200 "" None))) [[]])).2 0%nat)
  = Some "20240102T030405Z".
Proof.
  apply (signRequest_timestamp_format (H := platform) "GET"
           "https://s3.example.com/bkt/a.txt" 0%nat PNull credentials
           (holding (world noon noon_ms (NetOk (response 200 "" None))) [[]])
           {| host := "s3.example.com"; pathname := "/bkt/a.txt"; searchParams := [] |}
           [] "2024" "01" "02" "03" "04" "05" "678");
    first [reflexivity|split; reflexivity].
Defined.

(** X6, on a client whose endpoint has no scheme. *)
Lemma s3_invalid_url_sends_nothing_witness :
  (deleteObject (H := platform) client_without_scheme "a.txt"
     (world noon noon_ms (NetOk (response 204 "" None)))).1
  = Throw (Native (InvalidURL "s3.example.com/bkt/a.txt"))
  ∧ sent (deleteObject (H := platform) client_without_scheme "a.txt"
            (world noon noon_ms (NetOk (response 204 "" None)))).2 = [].
Proof.
  destruct (s3_invalid_url_sends_nothing (H := platform) client_without_scheme "a.txt"
              None PNull put_options (world noon noon_ms (NetOk (response 204 "" None)))
              eq_refl) as (_ & _ & _ & Hthrow & Hsent).
  split; [exact Hthrow|exact Hsent].
Defined.

(** X7, on a refusal of the provider. *)
Lemma putObject_outcomes_witness :
  (putObject (H := platform) client "a.txt" (PString "hello") put_options
     (world noon noon_ms (NetOk (response 403 "AccessDenied" None)))).1
  = Throw (Error "S3 PutObject failed (403): AccessDenied").
Proof.
  destruct (putObject_outcomes (H := platform) client "a.txt" (PString "hello")
              put_options (world noon noon_ms (NetOk (response 403 "AccessDenied" None)))
              {| host := "s3.example.com"; pathname := "/bkt/a.txt"; searchParams := [] |}
              eq_refl) as (rq & _ & _ & _ & _ & Hout).
  rewrite Hout. reflexivity.
Defined.

(** X8, with a content type, a two-byte body and two metadata keys, one of
    them already prefixed. *)
Lemma putObject_headers_witness :
  ∃ rq : Request,
    sent (putObject (H := platform) client "a.txt" (PUint8Array [Byte.x01; Byte.x02])
            put_options (world noon noon_ms (NetOk (response 200 "" None)))).2 = [rq]
    ∧ obj_get "content-type" (rq_headers rq) = Some "text/plain"
    ∧ obj_get "content-length" (rq_headers rq) = Some "2"
    ∧ is_Some (obj_get "x-amz-meta-owner" (rq_headers rq))
    ∧ is_Some (obj_get "x-amz-meta-kind" (rq_headers rq)).
Proof.
  destruct (putObject_headers (H := platform) client "a.txt"
              (PUint8Array [Byte.x01; Byte.x02]) put_options
              (world noon noon_ms (NetOk (response 200 "" None)))
              {| host := "s3.example.com"; pathname := "/bkt/a.txt"; searchParams := [] |}
              eq_refl) as (rq & Hsent & Htype & Hlength & Hmeta & _).
  exists rq. split; [exact Hsent|]. split; [exact Htype|]. split; [exact Hlength|].
  split.
  - apply (Hmeta [("owner", "me"); ("x-amz-meta-kind", "note")] "owner" eq_refl).
    exists "me". reflexivity.
  - apply (Hmeta [("owner", "me"); ("x-amz-meta-kind", "note")] "x-amz-meta-kind" eq_refl).
    exists "note". reflexivity.
Defined.

(** X28, on an object of 1234 bytes. *)
Lemma headObject_metadata_witness :
  ∃ info : HeadInfo,
    (headObject (H := platform) client "a.txt"
       (world noon noon_ms (NetOk head_answer))).1 = Return (Some info)
    ∧ contentLength info = Some 1234 ∧ S3.etag info = Some "abc"
    ∧ lastModified info = None.
Proof.
  destruct (headObject_metadata (H := platform) client "a.txt"
              (world noon noon_ms (NetOk head_answer))
              {| host := "s3.example.com"; pathname := "/bkt/a.txt"; searchParams := [] |}
              head_answer eq_refl (λ _ _, eq_refl) eq_refl)
    as (info & Hinfo & _ & Hetag & Hdate & _ & Hlength).
  exists info. split; [exact Hinfo|]. split; [exact (Hlength 1234 eq_refl)|].
  split; [exact Hetag|exact Hdate].
Defined.

(** X9, on a refusal: the check is false, it does not throw. *)
Lemma checkConnection_outcomes_witness :
  (checkConnection (H := platform) client
     (world noon noon_ms (NetOk (response 403 "AccessDenied" None)))).1 = Return false.
Proof.
  destruct (checkConnection_outcomes (H := platform) client
              (world noon noon_ms (NetOk (response 403 "AccessDenied" None)))
              {| host := "s3.example.com"; pathname := "/bkt";
                 searchParams := [("list-type", "2"); ("max-keys", "1")] |}
              eq_refl) as (rq & _ & _ & _ & _ & Hout).
  rewrite Hout. reflexivity.
Defined.

(** X10, with a range. *)
Lemma getObject_request_signed_witness :
  ∃ rq : Request,
    sent (getObject (H := platform) client "a.txt" (Some "bytes=0-9")
            (world noon noon_ms (NetOk (response 206 "0123456789" None)))).2 = [rq]
    ∧ obj_get "host" (rq_headers rq) = Some "s3.example.com"
    ∧ obj_get "x-amz-date" (rq_headers rq) = Some "20240102T030405Z"
    ∧ obj_get "range" (rq_headers rq) = Some "bytes=0-9".
Proof.
  destruct (getObject_request_signed (H := platform) client "a.txt" (Some "bytes=0-9")
              (world noon noon_ms (NetOk (response 206 "0123456789" None)))
              {| host := "s3.example.com"; pathname := "/bkt/a.txt"; searchParams := [] |}
              eq_refl) as (rq & Hsent & _ & _ & _ & Hhost & Hdate & _ & _ & Hrange).
  exists rq. split; [exact Hsent|]. split; [exact Hhost|].
  split; [exact Hdate|exact Hrange].
Defined.

(** X16, on a body whose size is 0. *)
Lemma onRequestPost_failure_stores_nothing_witness :
  kv_data (ChunkedUpload.onRequestPost (H := platform) open_door no_check (context 0 "s3")
             (world noon noon_ms (NetOk (response 200 "" None)))).2 = ∅.
Proof.
  apply (onRequestPost_failure_stores_nothing (H := platform) open_door no_check
           (context 0 "s3") (world noon noon_ms (NetOk (response 200 "" None)))
           (ChunkedUpload.respond (H := platform) 400
              (VObj [("error", VStr "缺少必要参数")]))).
  - intros w0. reflexivity.
  - reflexivity.
  - discriminate.
Defined.

(** X18, ten minutes and two hours after an init on the sample runtime,
    with a [JSON.parse] that reads the stored session back. *)
Lemma init_then_status_witness :
  (ChunkedUpload.onRequestGet (H := platform_reading (stringify first_session) first_session)
     (status_context first_upload_id)
     (with_clock
        (ChunkedUpload.onRequestPost
           (H := platform_reading (stringify first_session) first_session)
           open_door no_check (context 1000 "dropbox")
           (world noon noon_ms (NetOk (response 200 "" None)))).2
        "2024-01-02T03:14:05.678Z" (noon_ms + 600000))).1
  = Return (ChunkedUpload.respond
              (H := platform_reading (stringify first_session) first_session) 200
              (VObj (("success", VBool true) :: ChunkedUpload.own_properties first_session)))
  ∧ ChunkedUpload.status_of
      (ChunkedUpload.onRequestGet
         (H := platform_reading (stringify first_session) first_session)
         (status_context first_upload_id)
         (with_clock
            (ChunkedUpload.onRequestPost
               (H := platform_reading (stringify first_session) first_session)
               open_door no_check (context 1000 "dropbox")
               (world noon noon_ms (NetOk (response 200 "" None)))).2
            "2024-01-02T05:04:05.678Z" (noon_ms + 7200000))).1
    = Some 404.
Proof.
  split.
  - destruct (init_then_status
                (H := platform_reading (stringify first_session) first_session)
                open_door no_check (context 1000 "dropbox")
                (status_context first_upload_id)
                (world noon noon_ms (NetOk (response 200 "" None)))
                (with_clock
                   (ChunkedUpload.onRequestPost
                      (H := platform_reading (stringify first_session) first_session)
                      open_door no_check (context 1000 "dropbox")
                      (world noon noon_ms (NetOk (response 200 "" None)))).2
                   "2024-01-02T03:14:05.678Z" (noon_ms + 600000))
                _
                {| host := "tgbed.example"; pathname := "/api/chunked-upload/init";
                   searchParams := [("uploadId", first_upload_id)] |}
                eq_refl eq_refl eq_refl eq_refl eq_refl eq_refl)
      as (uploadId & body & fileName & fileSize & fileType & totalChunks & storageMode
          & _ & Hid & _ & Hbody & Hn & Hs & Ht & Hc & Hm & Hget).
    vm_compute in Hid. injection Hbody as <-.
    injection Hn as <-. injection Hs as <-. injection Ht as <-. injection Hc as <-.
    injection Hm as <-. subst uploadId.
    destruct Hget as [Hlive _]; [reflexivity|reflexivity|].
    apply Hlive. reflexivity.
  - destruct (init_then_status
                (H := platform_reading (stringify first_session) first_session)
                open_door no_check (context 1000 "dropbox")
                (status_context first_upload_id)
                (world noon noon_ms (NetOk (response 200 "" None)))
                (with_clock
                   (ChunkedUpload.onRequestPost
                      (H := platform_reading (stringify first_session) first_session)
                      open_door no_check (context 1000 "dropbox")
                      (world noon noon_ms (NetOk (response 200 "" None)))).2
                   "2024-01-02T05:04:05.678Z" (noon_ms + 7200000))
                _
                {| host := "tgbed.example"; pathname := "/api/chunked-upload/init";
                   searchParams := [("uploadId", first_upload_id)] |}
                eq_refl eq_refl eq_refl eq_refl eq_refl eq_refl)
      as (uploadId & body & fileName & fileSize & fileType & totalChunks & storageMode
          & _ & Hid & _ & Hbody & Hn & Hs & Ht & Hc & Hm & Hget).
    vm_compute in Hid. injection Hbody as <-.
    injection Hn as <-. injection Hs as <-. injection Ht as <-. injection Hc as <-.
    injection Hm as <-. subst uploadId.
    destruct Hget as [_ Hdead]; [reflexivity|reflexivity|].
    rewrite Hdead; [reflexivity|]. vm_compute. discriminate.
Defined.

(** X19, on the deployment without a webhook. *)
Lemma uploadToDiscord_without_webhook_witness :
  sent (Discord.uploadToDiscord (H := platform) [Byte.x89; Byte.x50] "a.png" "image/png"
          deployment_with_bot (world noon noon_ms (NetOk (response 500 "" None)))).2
  = [Discord.bot_request (H := platform) [Byte.x89; Byte.x50] "a.png" "image/png"
       "bot-token" "42"].
Proof.
  destruct (uploadToDiscord_without_webhook (H := platform) [Byte.x89; Byte.x50]
              "a.png" "image/png" deployment_with_bot
              (world noon noon_ms (NetOk (response 500 "" None))) eq_refl)
    as [Hbot _].
  destruct (Hbot eq_refl) as (botToken & channelId & result & Ht & Hc & Heq).
  injection Ht as <-. injection Hc as <-. rewrite Heq. reflexivity.
Defined.

(** X27, on one answer given to both requests. *)
Lemma upload_paths_agree_witness :
  (Discord.uploadViaWebhook (H := platform) [Byte.x89; Byte.x50] "a.png" "image/png"
     "https://discord.com/api/webhooks/1/t"
     (world noon noon_ms (NetOk (response 200 "" (Some message_answer))))).1
  = (Discord.uploadViaBot (H := platform) [Byte.x89; Byte.x50] "a.png" "image/png"
       "bot-token" "42"
       (world noon noon_ms (NetOk (response 200 "" (Some message_answer))))).1.
Proof.
  apply (upload_paths_agree (H := platform)). reflexivity.
Defined.

(** X2, on three bytes. *)
Lemma arrayBufferToHex_faithful_witness :
  String.length (arrayBufferToHex [Byte.x00; Byte.x0a; Byte.xff]) = 6%nat
  ∧ (arrayBufferToHex [Byte.x00; Byte.x0a; Byte.xff] = arrayBufferToHex [Byte.x00; Byte.x0a]
     → False).
Proof.
  destruct (arrayBufferToHex_faithful [Byte.x00; Byte.x0a; Byte.xff] [Byte.x00; Byte.x0a])
    as (Hlen & _ & Hinj).
  split; [exact Hlen|]. intros Heq. apply Hinj in Heq. discriminate Heq.
Defined.

(** X3, on the sample endpoint with and without its slash. *)
Lemma constructor_endpoint_slash_witness :
  _getUrl (constructor {| cfg_endpoint := "https://s3.example.com/"; cfg_region := None;
                          cfg_bucket := "bkt"; cfg_accessKeyId := "AKIDEXAMPLE";
                          cfg_secretAccessKey := "secret" |}) "a.txt"
  = "https://s3.example.com/bkt/a.txt"
  ∧ _getUrl (constructor {| cfg_endpoint := "https://s3.example.com"; cfg_region := None;
                            cfg_bucket := "bkt"; cfg_accessKeyId := "AKIDEXAMPLE";
                            cfg_secretAccessKey := "secret" |}) "a.txt"
    = "https://s3.example.com/bkt/a.txt".
Proof.
  destruct (constructor_endpoint_slash "https://s3.example.com" "bkt" "AKIDEXAMPLE"
              "secret" "a.txt" None) as [Hslash Hplain].
  split; [exact Hslash|]. apply Hplain.
  intros e' Heq. pose proof (strip_trailing_slash_app e') as Hs.
  rewrite <- Heq in Hs. vm_compute in Hs. subst e'. vm_compute in Heq.
  discriminate Heq.
Defined.

(** X4, on the sample deployment, which names no region. *)
Lemma createS3Client_config_witness :
  ∃ client : S3Client,
    createS3Client deployment = Return client
    ∧ region (_getCredentials client) = "us-east-1"
    ∧ service (_getCredentials client) = "s3".
Proof.
  destruct (createS3Client_config deployment) as [_ Hgood].
  destruct (Hgood eq_refl) as (client & accessKey & secret & bucket & Hc & _ & _ & _ & _
                               & _ & Hcred).
  exists client. split; [exact Hc|]. rewrite Hcred. split; reflexivity.
Defined.

(** X11, on a request that carries the CF-Connecting-IP header. *)
Lemma getClientIP_never_empty_witness :
  Guest.getClientIP (H := platform) (request_from "203.0.113.7" VNull) = "203.0.113.7".
Proof.
  destruct (getClientIP_never_empty (H := platform) (request_from "203.0.113.7" VNull))
    as (_ & Hcf & _).
  exact (f_equal (default "") (eq_sym (Hcf eq_refl))).
Defined.

(** X13, on the deployment without a store. *)
Lemma incrementGuestCount_frame_witness :
  Guest.incrementGuestCount (H := platform) (request_from "203.0.113.7" VNull)
    deployment_without_store (world noon noon_ms (NetOk (response 200 "" None)))
  = (Return tt, world noon noon_ms (NetOk (response 200 "" None))).
Proof.
  destruct (incrementGuestCount_frame (H := platform) (request_from "203.0.113.7" VNull)
              deployment_without_store
              (world noon noon_ms (NetOk (response 200 "" None))))
    as (Hret & _ & _ & _ & _ & Hsame).
  specialize (Hsame (or_introl eq_refl)).
  destruct (Guest.incrementGuestCount _ _ _) as [o w']. simpl in *. by subst.
Defined.

(** X14, on the sample deployment and a file of ten million bytes. *)
Lemma getGuestConfig_matches_check_witness :
  Guest.maxFileSize (Guest.getGuestConfig deployment) = 5242880
  ∧ ∃ r, (Guest.checkGuestUpload (H := platform) (request_from "203.0.113.7" VNull)
            deployment 10000000
            (world noon noon_ms (NetOk (response 200 "" None)))).1 = Return r
         ∧ Guest.status r = Some 413.
Proof.
  split; [reflexivity|].
  destruct (getGuestConfig_matches_check (H := platform) (request_from "203.0.113.7" VNull)
              deployment 10000000 (world noon noon_ms (NetOk (response 200 "" None))))
    as [_ Hon].
  destruct (Hon eq_refl) as (_ & _ & Hbig & _). apply Hbig. reflexivity.
Defined.

(** X17, on a status request that names no upload, with the store down. *)
Lemma onRequestGet_reads_only_witness :
  ChunkedUpload.status_of
    (ChunkedUpload.onRequestGet (H := platform) (status_context "")
       (world_down noon noon_ms (NetOk (response 200 "" None)) (External "store down"))).1
  = Some 400.
Proof.
  destruct (onRequestGet_reads_only (H := platform) (status_context "")
              (world_down noon noon_ms (NetOk (response 200 "" None))
                 (External "store down")))
    as (_ & _ & Hparsed).
  destruct (Hparsed {| host := "tgbed.example"; pathname := "/api/chunked-upload/init";
                       searchParams := [("uploadId", "")] |} eq_refl) as [_ H400].
  rewrite H400; reflexivity.
Defined.

(** X20, on an answer that carries one attachment. *)
Lemma uploadViaBot_results_witness :
  (Discord.uploadViaBot (H := platform) [Byte.x89; Byte.x50] "a.png" "image/png"
     "bot-token" "42"
     (world noon noon_ms (NetOk (response 200 "" (Some message_answer))))).1
  = Return (Discord.Success (VStr "42") (VStr "1001") (VStr "7") (VStr "a.png") (VNum 2)).
Proof.
  destruct (uploadViaBot_results (H := platform) [Byte.x89; Byte.x50] "a.png" "image/png"
              "bot-token" "42"
              (world noon noon_ms (NetOk (response 200 "" (Some message_answer)))))
    as (_ & _ & Hok).
  destruct (Hok _ eq_refl eq_refl) as (_ & _ & Hread).
  destruct (Hread message_answer _ eq_refl eq_refl) as [_ Hsuccess].
  destruct (Hsuccess eq_refl) as (c & i & a & f & s & Hc & Hi & Ha & Hf & Hs & ->).
  injection Hc as <-. injection Hi as <-. injection Ha as <-. injection Hf as <-.
  injection Hs as <-. reflexivity.
Defined.

(** X21, on a message that is gone and on a refusal. *)
Lemma getDiscordFileUrl_outcomes_witness :
  (Discord.getDiscordFileUrl "42" "1001" deployment
     (world noon noon_ms (NetOk (response 404 "" None)))).1 = Return None
  ∧ (Discord.getDiscordFileUrl "42" "1001" deployment
       (world noon noon_ms (NetOk (response 403 "" None)))).1
    = Throw (Error "Discord API error: 403").
Proof.
  split.
  - destruct (getDiscordFileUrl_outcomes "42" "1001" deployment
                (world noon noon_ms (NetOk (response 404 "" None)))) as [_ Htoken].
    destruct (Htoken "bot-token" eq_refl ltac:(discriminate)) as (_ & _ & Hanswer).
    destruct (Hanswer _ eq_refl) as (H404 & _). apply H404; reflexivity.
  - destruct (getDiscordFileUrl_outcomes "42" "1001" deployment
                (world noon noon_ms (NetOk (response 403 "" None)))) as [_ Htoken].
    destruct (Htoken "bot-token" eq_refl ltac:(discriminate)) as (_ & _ & Hanswer).
    destruct (Hanswer _ eq_refl) as (_ & Hother & _).
    rewrite Hother; [reflexivity|reflexivity|discriminate].
Defined.

(** X22, with both mechanisms configured and a provider that refuses. *)
Lemma checkDiscordConnection_probes_witness :
  (Discord.checkDiscordConnection deployment
     (world noon noon_ms (NetOk (response 401 "" None)))).1 = Return Discord.NotConnected
  ∧ sent (Discord.checkDiscordConnection deployment
            (world noon noon_ms (NetOk (response 401 "" None)))).2
    = [Discord.webhook_probe "https://discord.com/api/webhooks/1/t";
       Discord.bot_probe "bot-token"].
Proof.
  destruct (checkDiscordConnection_probes deployment
              (world noon noon_ms (NetOk (response 401 "" None))))
    as (_ & _ & _ & Hfall).
  destruct Hfall as [Hsent _]; [intros name channelId; discriminate|].
  split; [reflexivity|exact Hsent].
Defined.

(** X23, on a refusal of the provider. *)
Lemma uploadToHuggingFace_outcomes_witness :
  (HuggingFace.uploadToHuggingFace (H := platform) [Byte.x4d; Byte.x61] "uploads/a.txt"
     "a.txt" deployment (world noon noon_ms (NetOk (response 500 "oops" None)))).1
  = Return (HuggingFace.UploadFailed "HF 上传失败 (500): oops").
Proof.
  destruct (uploadToHuggingFace_outcomes (H := platform) [Byte.x4d; Byte.x61]
              "uploads/a.txt" "a.txt" deployment
              (world noon noon_ms (NetOk (response 500 "oops" None)))) as [_ Hconfigured].
  destruct (Hconfigured "hf-token" "user/repo" eq_refl ltac:(discriminate) eq_refl
              ltac:(discriminate)) as (_ & _ & Hanswer).
  destruct (Hanswer _ eq_refl) as (Hrefused & _).
  rewrite Hrefused; reflexivity.
Defined.

(** X25, on an answer that describes the repository. *)
Lemma checkHuggingFaceConnection_outcomes_witness :
  (HuggingFace.checkHuggingFaceConnection deployment
     (world noon noon_ms
        (NetOk (response 200 ""
                  (Some (VObj [("id", VStr "user/repo"); ("private", VBool true)])))))).1
  = Return (HuggingFace.Connected (VStr "user/repo") (VBool true)).
Proof.
  destruct (checkHuggingFaceConnection_outcomes deployment
              (world noon noon_ms
                 (NetOk (response 200 ""
                           (Some (VObj [("id", VStr "user/repo");
                                        ("private", VBool true)]))))))
    as (_ & _ & Hconfigured).
  destruct (Hconfigured "hf-token" "user/repo" eq_refl ltac:(discriminate) eq_refl
              ltac:(discriminate)) as (_ & Hiff).
  apply Hiff. eexists _, _. repeat split; reflexivity.
Defined.

(** X26, on the three bytes of "Man" and on its first two. *)
Lemma arrayBufferToBase64_faithful_witness :
  String.length (HuggingFace.arrayBufferToBase64 [Byte.x4d; Byte.x61; Byte.x6e]) = 4%nat
  ∧ (HuggingFace.arrayBufferToBase64 [Byte.x4d; Byte.x61; Byte.x6e]
     = HuggingFace.arrayBufferToBase64 [Byte.x4d; Byte.x61] → False).
Proof.
  destruct (arrayBufferToBase64_faithful [Byte.x4d; Byte.x61; Byte.x6e]
              [Byte.x4d; Byte.x61]) as (Hlen & _ & Hinj).
  split; [exact Hlen|]. intros Heq. apply Hinj in Heq. discriminate Heq.
Defined.

Example arrayBufferToBase64_bytes :
  HuggingFace.arrayBufferToBase64 [Byte.x4d; Byte.x61; Byte.x6e] = "TWFu"
  ∧ HuggingFace.arrayBufferToBase64 [Byte.x4d; Byte.x61] = "TWE="
  ∧ HuggingFace.arrayBufferToBase64 [Byte.x4d] = "TQ=="
  ∧ HuggingFace.arrayBufferToBase64 [Byte.xfb; Byte.xff] = "+/8=".
Proof. repeat split; reflexivity. Qed.

End FurtherExamples.

(** ** The signing algorithm *)

Section SigningAlgorithm.
Import Js S3 Signed.

(** *** Joined text and hexadecimal text *)

Lemma join_concat (sep : string) (l : list string) : join sep l = String.concat sep l.
Proof.
  induction l as [|x l IH]; [done|].
  destruct l as [|y l]; [done|].
  change (join sep (x :: y :: l)) with (x +:+ sep +:+ join sep (y :: l)).
  change (String.concat sep (x :: y :: l))
    with (x +:+ sep +:+ String.concat sep (y :: l)).
  by rewrite IH.
Qed.

Lemma hex_byte (b : Byte.byte) :
  padStart 2 "0" (toString16 (Byte.to_N b))
  = String (SigV4.hex_digit (Byte.to_N b / 16))
      (String (SigV4.hex_digit (Byte.to_N b mod 16)) "").
Proof. destruct b; reflexivity. Qed.

Lemma arrayBufferToHex_hex (buffer : list Byte.byte) :
  arrayBufferToHex buffer = SigV4.hex buffer.
Proof.
  unfold arrayBufferToHex. induction buffer as [|b bs IH]; [done|].
  rewrite fmap_cons, join_empty_cons, IH, hex_byte. reflexivity.
Qed.

Lemma sha256Hex_hex `{Platform} (data : BufferSource) :
  sha256Hex data = SigV4.hex (SHA256 (to_buffer data)).
Proof. unfold sha256Hex. cbv zeta. apply arrayBufferToHex_hex. Qed.

Lemma content_hash_sigv4 `{Platform} (body : Payload) :
  content_hash body = SigV4.content_hash body.
Proof.
  destruct body; unfold content_hash, SigV4.content_hash, SigV4.sha256_hex;
    by rewrite sha256Hex_hex.
Qed.

(** *** URI encoding *)

Lemma replace_char_g_app (c : ascii) (r a b : string) :
  replace_char_g c r (a +:+ b) = replace_char_g c r a +:+ replace_char_g c r b.
Proof.
  induction a as [|x a IH]; [done|].
  change (String x a +:+ b) with (String x (a +:+ b)). cbn [replace_char_g].
  destruct (decide (x = c)); rewrite IH; [by rewrite string_app_assoc|done].
Qed.

(** The five replacements of [uriEncode], on the text that
    [encodeURIComponent] writes for one character. *)
Lemma replacements_step (a : ascii) :
  replace_char_g "*" "%2A"
    (replace_char_g ")" "%29"
       (replace_char_g "(" "%28"
          (replace_char_g "'" "%27"
             (replace_char_g "!" "%21"
                (if Uri.uri_unescaped a then String a "" else Uri.escape a)))))
  = (if Uri.unreserved a then String a "" else Uri.escape a).
Proof. destruct a as [[] [] [] [] [] [] [] []]; reflexivity. Qed.

Lemma replacements_percent_encode (s : string) :
  replace_char_g "*" "%2A"
    (replace_char_g ")" "%29"
       (replace_char_g "(" "%28"
          (replace_char_g "'" "%27"
             (replace_char_g "!" "%21" (Uri.percent_encode Uri.uri_unescaped s)))))
  = SigV4.uri_encode s.
Proof.
  unfold SigV4.uri_encode. induction s as [|a s IH]; [done|].
  cbn [Uri.percent_encode]. rewrite !replace_char_g_app, IH.
  by rewrite replacements_step.
Qed.

Lemma replace_pct2F_g_3 (a b c : ascii) (s : string) :
  replace_pct2F_g (String a (String b (String c s)))
  = if bool_decide (a = "%"%char ∧ b = "2"%char ∧ c = "F"%char)
    then String "/"%char (replace_pct2F_g s)
    else String a (replace_pct2F_g (String b (String c s))).
Proof. reflexivity. Qed.

Lemma replace_pct2F_g_other (a : ascii) (s : string) :
  a ≠ "%"%char → replace_pct2F_g (String a s) = String a (replace_pct2F_g s).
Proof.
  intros Ha. destruct s as [|b [|c s]]; [done..|].
  rewrite replace_pct2F_g_3. case_bool_decide as Hm; [|done]. by destruct Hm.
Qed.

Lemma unreserved_not_percent (a : ascii) : Uri.unreserved a = true → a ≠ "%"%char.
Proof. by intros Ha ->. Qed.

Lemma unreserved_not_slash (a : ascii) : Uri.unreserved a = true → a ≠ "/"%char.
Proof. by intros Ha ->. Qed.

Lemma upper_hex_digit_not_percent (a : ascii) :
  Uri.upper_hex_digit (Ascii.N_of_ascii a / 16) ≠ "%"%char
  ∧ Uri.upper_hex_digit (Ascii.N_of_ascii a mod 16) ≠ "%"%char.
Proof. destruct a as [[] [] [] [] [] [] [] []]; by split. Qed.

Lemma escape_slash (a : ascii) :
  Uri.upper_hex_digit (Ascii.N_of_ascii a / 16) = "2"%char
  ∧ Uri.upper_hex_digit (Ascii.N_of_ascii a mod 16) = "F"%char
  ↔ a = "/"%char.
Proof.
  split; [|by intros ->].
  destruct a as [[] [] [] [] [] [] [] []]; intros [Hh Hl];
    first [reflexivity | discriminate Hh | discriminate Hl].
Qed.

(** Undoing the escape of the slashes in the encoded text is encoding with
    the slashes kept. *)
Lemma replace_pct2F_percent_encode (s : string) :
  replace_pct2F_g (SigV4.uri_encode s) = SigV4.uri_encode_path s.
Proof.
  unfold SigV4.uri_encode, SigV4.uri_encode_path.
  induction s as [|a s IH]; [done|].
  cbn [Uri.percent_encode].
  destruct (Uri.unreserved a) eqn:Ha; cbn [orb].
  - change (String a "" +:+ ?x) with (String a x).
    rewrite replace_pct2F_g_other by by apply unreserved_not_percent.
    by rewrite IH.
  - unfold Uri.escape. cbv zeta.
    destruct (upper_hex_digit_not_percent a) as [Hh Hl].
    set (h := Uri.upper_hex_digit (Ascii.N_of_ascii a / 16)) in *.
    set (l := Uri.upper_hex_digit (Ascii.N_of_ascii a mod 16)) in *.
    change (String "%" (String h (String l "")) +:+ ?x)
      with (String "%"%char (String h (String l x))).
    rewrite replace_pct2F_g_3.
    pose proof (escape_slash a) as Hslash. fold h l in Hslash.
    case_bool_decide as Hm.
    + destruct Hm as (_ & Hm2 & HmF).
      assert (a = "/"%char) as Hs by (apply Hslash; by split).
      rewrite (bool_decide_eq_true_2 _ Hs), IH.
      clearbody h l. subst a. reflexivity.
    + rewrite bool_decide_eq_false_2
        by (intros Heq; apply Hm; split; [done|]; by apply Hslash).
      rewrite !replace_pct2F_g_other by done. rewrite IH. reflexivity.
Qed.

(** On a standard runtime [uriEncode] is the URI encoding of the
    specification: with every reserved character escaped, or with the
    slashes kept. *)
Lemma uriEncode_uri_encode `{Platform} (str : string) :
  Uri.Standard →
  uriEncode str true = SigV4.uri_encode str
  ∧ uriEncode str false = SigV4.uri_encode_path str.
Proof.
  intros Hstd. unfold uriEncode. cbv zeta. cbn [negb].
  rewrite Hstd, replacements_percent_encode.
  split; [done|apply replace_pct2F_percent_encode].
Qed.

(** *** [signRequest] against the specification *)

Lemma query_pairs_encoded `{Platform} (qs : list (string * string)) :
  Uri.Standard →
  (λ kv : string * string, uriEncode kv.1 true +:+ "=" +:+ uriEncode kv.2 true) <$> qs
  = (λ kv : string * string, SigV4.uri_encode kv.1 +:+ "=" +:+ SigV4.uri_encode kv.2) <$> qs.
Proof.
  intros Hstd. apply list_fmap_ext. intros i [k v] _. cbn [fst snd].
  destruct (uriEncode_uri_encode k Hstd) as [-> _].
  by destruct (uriEncode_uri_encode v Hstd) as [-> _].
Qed.

(** What [signRequest] leaves in the header object is the Authorization
    value of the specification, computed over the query pairs and the
    header pairs in the order in which [signRequest] sorts them. *)
Lemma signed_contents_sign `{Platform} (method : string) (u : URL) (iso : string)
    (body : Payload) (cred : Credentials) (h0 : JsObject) :
  Uri.Standard →
  signed_contents method u iso body cred h0
  = obj_set "Authorization"
      (SigV4.sign method (pathname u)
         (sort compare_pairs (searchParams u))
         (sort compare_names
            (SigV4.canonical_pair <$> Object_entries (required_headers iso u body h0)))
         body (date_stamp iso) (amz_date iso) cred)
      (required_headers iso u body h0).
Proof.
  intros Hstd.
  unfold signed_contents, sorted_headers, canonical_text, SigV4.sign,
    SigV4.signature, SigV4.string_to_sign, SigV4.signing_key, SigV4.authorization,
    SigV4.canonical_request, SigV4.canonical_query, SigV4.canonical_headers,
    SigV4.signed_header_list, SigV4.credential_scope, SigV4.sha256_hex, hmacSha256.
  cbv zeta. cbn [to_buffer].
  rewrite !join_concat, sha256Hex_hex, arrayBufferToHex_hex, content_hash_sigv4.
  rewrite query_pairs_encoded by done.
  destruct (uriEncode_uri_encode (pathname u) Hstd) as [_ ->].
  reflexivity.
Qed.

Lemma signRequest_sign `{Platform} (method url : string) (headers : Ref) (body : Payload)
    (cred : Credentials) (w : World) (u : URL) (h0 : JsObject) :
  Uri.Standard →
  URL_parse url = Some u →
  heap w !! headers = Some h0 →
  signRequest method url headers body cred w
  = (Return headers,
     with_heap w
       (<[headers :=
            obj_set "Authorization"
              (SigV4.sign method (pathname u)
                 (sort compare_pairs (searchParams u))
                 (sort compare_names
                    (SigV4.canonical_pair
                       <$> Object_entries (required_headers (clock_iso w) u body h0)))
                 body (date_stamp (clock_iso w)) (amz_date (clock_iso w)) cred)
              (required_headers (clock_iso w) u body h0)]> (heap w))).
Proof.
  intros Hstd Hu Hh. rewrite (signRequest_eq _ _ _ _ _ _ _ Hh), Hu.
  by rewrite signed_contents_sign.
Qed.

(** X29.  On a runtime with the standard [encodeURIComponent] and a
    consistent [localeCompare], and for a URL that parses, [signRequest]
    sets the Authorization header of the object it is given to the value
    the specification's steps compute - content hash, canonical request,
    string to sign, signing key derived by four chained keyed hashes,
    signature, each from SHA-256, HMAC-SHA256, hexadecimal text and URI
    encoding alone - over a list [qs] that holds the query pairs of the URL
    sorted by key and then by value as [localeCompare] orders them, and a
    list [hs] that holds the lower-cased, trimmed pairs of the header
    object (with x-amz-date, x-amz-content-sha256 and host set) sorted by
    name as [localeCompare] orders them. *)
Theorem signRequest_computes_sigv4 `{Platform} (method url : string) (headers : Ref)
    (body : Payload) (cred : Credentials) (w : World) (u : URL) (h0 : JsObject) :
  Consistent localeCompare →
  Uri.Standard →
  URL_parse url = Some u →
  heap w !! headers = Some h0 →
  ∃ qs hs : list (string * string),
    let iso := clock_iso w in
    let headers' := required_headers iso u body h0 in
    qs ≡ₚ searchParams u ∧ StronglySorted pair_le qs
    ∧ hs ≡ₚ SigV4.canonical_pair <$> headers' ∧ StronglySorted name_le hs
    ∧ signRequest method url headers body cred w =
        (Return headers,
         with_heap w
           (<[headers :=
                obj_set "Authorization"
                  (SigV4.sign method (pathname u) qs hs body
                     (date_stamp iso) (amz_date iso) cred)
                  headers']> (heap w))).
Proof.
  intros Hc Hstd Hu Hh.
  exists (sort compare_pairs (searchParams u)).
  exists (sort compare_names
            (SigV4.canonical_pair
               <$> Object_entries (required_headers (clock_iso w) u body h0))).
  cbv zeta. repeat split.
  - apply sort_perm.
  - eapply StronglySorted_weaken; [apply compare_pairs_le|].
    apply sort_sorted; [by apply compare_pairs_total|by apply compare_pairs_trans].
  - rewrite sort_perm. by rewrite Object_entries_perm.
  - apply (sort_sorted compare_names);
      [by apply compare_names_total|by apply compare_names_trans].
  - by apply signRequest_sign.
Qed.

(** X30.  Where the order in which [signRequest] sorts is the order the
    specification asks for - the sorted query pairs are in lexicographic
    order once they are encoded, and the sorted header pairs in
    lexicographic order of their names - the Authorization header it sets
    is the specification's: computed over the query pairs in lexicographic
    order of their encoded form and the lower-cased, trimmed header pairs
    sorted by name. *)
Theorem signRequest_conforms_on_sorted `{Platform} (method url : string) (headers : Ref)
    (body : Payload) (cred : Credentials) (w : World) (u : URL) (h0 : JsObject) :
  Uri.Standard →
  URL_parse url = Some u →
  heap w !! headers = Some h0 →
  SigV4.lexicographic (sort compare_pairs (searchParams u)) →
  SigV4.sorted_by_name
    (sort compare_names
       (SigV4.canonical_pair
          <$> Object_entries (required_headers (clock_iso w) u body h0))) →
  ∃ qs hs : list (string * string),
    let iso := clock_iso w in
    let headers' := required_headers iso u body h0 in
    qs ≡ₚ searchParams u ∧ SigV4.lexicographic qs
    ∧ hs ≡ₚ SigV4.canonical_pair <$> headers' ∧ SigV4.sorted_by_name hs
    ∧ signRequest method url headers body cred w =
        (Return headers,
         with_heap w
           (<[headers :=
                obj_set "Authorization"
                  (SigV4.sign method (pathname u) qs hs body
                     (date_stamp iso) (amz_date iso) cred)
                  headers']> (heap w))).
Proof.
  intros Hstd Hu Hh Hqs Hhs.
  exists (sort compare_pairs (searchParams u)).
  exists (sort compare_names
            (SigV4.canonical_pair
               <$> Object_entries (required_headers (clock_iso w) u body h0))).
  cbv zeta. repeat split; try done.
  - apply sort_perm.
  - rewrite sort_perm. by rewrite Object_entries_perm.
  - by apply signRequest_sign.
Qed.

End SigningAlgorithm.

(** ** The signing algorithm on the sample runtimes *)

Section SigningExamples.
Import Js S3 Signed Sample.

Lemma percent_encode_step (a : ascii) (rest : string) :
  Sample.percent_encode (String a rest)
  = (if Uri.uri_unescaped a then String a "" else Uri.escape a)
    +:+ Sample.percent_encode rest.
Proof. destruct a as [[] [] [] [] [] [] [] []]; reflexivity. Qed.

(** The sample runtimes encode as ECMA-262 says. *)
Lemma percent_encode_standard (s : string) :
  Sample.percent_encode s = Uri.percent_encode Uri.uri_unescaped s.
Proof.
  induction s as [|a s IH]; [done|].
  rewrite percent_encode_step, IH. reflexivity.
Qed.

Lemma not_lexicographic_2 (a b : string * string) :
  String.compare (SigV4.uri_encode a.1) (SigV4.uri_encode b.1) = Gt →
  ¬ SigV4.lexicographic [a; b].
Proof.
  intros Hgt Hs. inversion Hs as [|? ? _ Hall]. inversion Hall as [|? ? Hle _].
  destruct Hle as [Hlt|[Heq _]].
  - unfold SigV4.lex_lt in Hlt. congruence.
  - rewrite Heq in Hgt.
    pose proof (String.compare_antisym (SigV4.uri_encode b.1) (SigV4.uri_encode b.1))
      as Hanti.
    rewrite Hgt in Hanti. discriminate Hanti.
Qed.

Lemma lexicographic_2 (a b : string * string) :
  String.compare (SigV4.uri_encode a.1) (SigV4.uri_encode b.1) = Lt →
  SigV4.lexicographic [a; b].
Proof.
  intros Hlt. apply SSorted_cons.
  - apply SSorted_cons; [apply SSorted_nil|apply Forall_nil_2].
  - apply Forall_cons_2; [by left|apply Forall_nil_2].
Qed.

(** C1, at two requests.  [signRequest] sorts the query pairs as they are
    written in the URL, with [localeCompare], and encodes them afterwards;
    the specification asks for the encoded pairs in lexicographic order.
    On the query [a=1&é=2] the pair [a=1] stays before [%C3%A9=2], which
    lexicographic order puts first; on the query [B=2&a=1], with a
    [localeCompare] that collates letters, [a=1] is put before [B=2],
    which lexicographic order puts first.  Either time the Authorization
    value that [signRequest] sets is the one computed over its own order
    of the pairs, and differs from the one the specification's order
    gives. *)
Theorem signRequest_query_order_diverges :
  let sets (runtime : Platform) (url : string) :=
    authorization_after
      (signRequest (H := runtime) "GET" url 0%nat PNull credentials signing_world) in
  let says (qs : list (string * string)) :=
    Some (SigV4.sign "GET" "/bkt" qs signed_header_pairs PNull
            "20240102" "20240102T030405Z" credentials) in
  (sets platform "https://s3.example.com/bkt?a=1&é=2" = says [("a", "1"); ("é", "2")]
   ∧ SigV4.canonical_query [("a", "1"); ("é", "2")] = "a=1&%C3%A9=2"
   ∧ ¬ SigV4.lexicographic [("a", "1"); ("é", "2")]
   ∧ SigV4.lexicographic [("é", "2"); ("a", "1")]
   ∧ sets platform "https://s3.example.com/bkt?a=1&é=2" ≠ says [("é", "2"); ("a", "1")])
  ∧ (sets platform_collating "https://s3.example.com/bkt?B=2&a=1"
       = says [("a", "1"); ("B", "2")]
     ∧ SigV4.canonical_query [("a", "1"); ("B", "2")] = "a=1&B=2"
     ∧ ¬ SigV4.lexicographic [("a", "1"); ("B", "2")]
     ∧ SigV4.lexicographic [("B", "2"); ("a", "1")]
     ∧ sets platform_collating "https://s3.example.com/bkt?B=2&a=1"
         ≠ says [("B", "2"); ("a", "1")]).
Proof.
  cbv zeta. split.
  - split; [vm_compute; reflexivity|].
    split; [vm_compute; reflexivity|].
    split; [apply not_lexicographic_2; vm_compute; reflexivity|].
    split; [apply lexicographic_2; vm_compute; reflexivity|].
    vm_compute. intros Heq. discriminate Heq.
  - split; [vm_compute; reflexivity|].
    split; [vm_compute; reflexivity|].
    split; [apply not_lexicographic_2; vm_compute; reflexivity|].
    split; [apply lexicographic_2; vm_compute; reflexivity|].
    vm_compute. intros Heq. discriminate Heq.
Qed.

(** X29, on a request with three query pairs and one header. *)
Lemma signRequest_computes_sigv4_witness :
  ∃ qs hs : list (string * string),
    let headers' :=
      required_headers noon
        {| host := "s3.example.com"; pathname := "/bkt/my key/a(b).txt";
           searchParams := [("B", "1"); ("a", "2"); ("a", "1")] |}
        PNull [("Range", "bytes=0-1 ")] in
    let w := holding (world noon noon_ms (NetOk (response 200 "" None)))
               [[("Range", "bytes=0-1 ")]] in
    qs ≡ₚ [("B", "1"); ("a", "2"); ("a", "1")] ∧ StronglySorted pair_le qs
    ∧ hs ≡ₚ SigV4.canonical_pair <$> headers' ∧ StronglySorted name_le hs
    ∧ signRequest "GET" "https://s3.example.com/bkt/my key/a(b).txt?B=1&a=2&a=1"
        0%nat PNull credentials w
      = (Return 0%nat,
         with_heap w
           (<[0%nat :=
                obj_set "Authorization"
                  (SigV4.sign "GET" "/bkt/my key/a(b).txt" qs hs PNull
                     "20240102" "20240102T030405Z" credentials)
                  headers']> (heap w))).
Proof.
  exact (signRequest_computes_sigv4 (H := platform) "GET"
           "https://s3.example.com/bkt/my key/a(b).txt?B=1&a=2&a=1"
           0%nat PNull credentials
           (holding (world noon noon_ms (NetOk (response 200 "" None)))
              [[("Range", "bytes=0-1 ")]])
           {| host := "s3.example.com"; pathname := "/bkt/my key/a(b).txt";
              searchParams := [("B", "1"); ("a", "2"); ("a", "1")] |}
           [("Range", "bytes=0-1 ")]
           ordinal_compare_consistent percent_encode_standard eq_refl eq_refl).
Defined.

(** The value it sets on the sample runtime, whose hashes are checksums
    four bytes long. *)
Example signRequest_authorization_value :
  authorization_after
    (signRequest "GET" "https://s3.example.com/bkt/my key/a(b).txt?B=1&a=2&a=1"
       0%nat PNull credentials
       (holding (world noon noon_ms (NetOk (response 200 "" None)))
          [[("Range", "bytes=0-1 ")]]))
  = Some (SigV4.sign "GET" "/bkt/my key/a(b).txt"
            [("B", "1"); ("a", "1"); ("a", "2")]
            [("host", "s3.example.com"); ("range", "bytes=0-1");
             ("x-amz-content-sha256", SigV4.content_hash PNull);
             ("x-amz-date", "20240102T030405Z")]
            PNull "20240102" "20240102T030405Z" credentials)
  ∧ SigV4.canonical_request "GET" "/bkt/my key/a(b).txt"
      [("B", "1"); ("a", "1"); ("a", "2")] [("host", "s3.example.com")] "00"
    = "GET" +:+ LF +:+ "/bkt/my%20key/a%28b%29.txt" +:+ LF +:+ "B=1&a=1&a=2" +:+ LF
      +:+ "host:s3.example.com" +:+ LF +:+ LF +:+ "host" +:+ LF +:+ "00".
Proof. split; vm_compute; reflexivity. Qed.

(** X30, on the URL of the bucket probe. *)
Lemma signRequest_conforms_on_sorted_witness :
  ∃ qs hs : list (string * string),
    let headers' :=
      required_headers noon
        {| host := "s3.example.com"; pathname := "/bkt";
           searchParams := [("list-type", "2"); ("max-keys", "1")] |}
        PNull [] in
    qs ≡ₚ [("list-type", "2"); ("max-keys", "1")] ∧ SigV4.lexicographic qs
    ∧ hs ≡ₚ SigV4.canonical_pair <$> headers' ∧ SigV4.sorted_by_name hs
    ∧ signRequest "GET" "https://s3.example.com/bkt?list-type=2&max-keys=1"
        0%nat PNull credentials signing_world
      = (Return 0%nat,
         with_heap signing_world
           (<[0%nat :=
                obj_set "Authorization"
                  (SigV4.sign "GET" "/bkt" qs hs PNull
                     "20240102" "20240102T030405Z" credentials)
                  headers']> (heap signing_world))).
Proof.
  apply (signRequest_conforms_on_sorted (H := platform) "GET"
           "https://s3.example.com/bkt?list-type=2&max-keys=1"
           0%nat PNull credentials signing_world
           {| host := "s3.example.com"; pathname := "/bkt";
              searchParams := [("list-type", "2"); ("max-keys", "1")] |}
           [] percent_encode_standard eq_refl eq_refl).
  - apply lexicographic_2. vm_compute. reflexivity.
  - vm_compute.
    repeat first [apply SSorted_nil | apply SSorted_cons | apply Forall_nil_2
                 | apply Forall_cons_2 | discriminate].
Defined.

End SigningExamples.
